(** * A shallow embedding of the Math AI Agent backend

    The development follows the Python sources of [backend/app]:

    - [core/guardrails.py]  : [InputFilter] and [OutputFilter];
    - [core/llm_service.py] : the fallback solver of [LLMService];
    - [core/feedback.py]    : [FeedbackManager];
    - [core/google_search.py], [core/web_search.py] : the search adapters;
    - [api/routes.py]       : the [/query] and [/feedback] handlers.

    Python values are modelled as follows.  A [str] is the list of its
    Unicode code points.  An [int] is a [Z], and its conversions from and to
    text go through the interpreter's limit on digits.  A [float] is a binary64 value
    of the kernel ([PrimFloat]), so that the constants and the subtractions
    of the confidence arithmetic round as they do in CPython.  A raised
    exception is the [Raise] case of the result type [res].  A [dict] is a
    [gmap].  Whatever an external service answers (the vector store, the
    search API, the generative model, the database, the clock and the UUID
    generator) is an input of the model. *)

From Stdlib Require Import ZArith NArith List Ascii String Floats Bool Lia.
From Stdlib Require Import DecimalString.
From stdpp Require Import gmap list.

Set Warnings "-inexact-float".
Local Open Scope string_scope.
Local Open Scope list_scope.
Local Open Scope N_scope.

(* ================================================================== *)
(** * Part I: the model *)
(* ================================================================== *)

(** ** Python strings and the character tables of the interpreter *)

Module Py.

(** A code point, and a Python [str]. *)
Abbreviation char := N.
Abbreviation str := (list N).

(** Literals of the sources are written as Rocq strings, which hold the
    UTF-8 bytes of the text; [u8] decodes them to code points. *)
Fixpoint utf8_decode (bs : list N) : str :=
  match bs with
  | [] => []
  | b0 :: t0 =>
    if b0 <? 0x80 then b0 :: utf8_decode t0 else
    match t0 with
    | [] => [b0]
    | b1 :: t1 =>
      if b0 <? 0xE0
      then (N.land b0 0x1F * 64 + N.land b1 0x3F) :: utf8_decode t1
      else
      match t1 with
      | [] => [b0; b1]
      | b2 :: t2 =>
        if b0 <? 0xF0
        then (N.land b0 0x0F * 4096 + N.land b1 0x3F * 64 + N.land b2 0x3F)
               :: utf8_decode t2
        else
        match t2 with
        | [] => [b0; b1; b2]
        | b3 :: t3 =>
          (N.land b0 0x07 * 262144 + N.land b1 0x3F * 4096
           + N.land b2 0x3F * 64 + N.land b3 0x3F) :: utf8_decode t3
        end
      end
    end
  end.

Definition u8 (s : string) : str :=
  utf8_decode (map N_of_ascii (list_ascii_of_string s)).

(** The code point of an ASCII character. *)
Definition cp (a : ascii) : char := N_of_ascii a.

Definition between (lo hi c : N) : bool := (lo <=? c) && (c <=? hi).

(** [str.isspace] on one code point, which is also [\s] of [re] on a [str]
    pattern and what [str.strip()] removes (Unicode 6.3 and later). *)
Definition isspace (c : char) : bool :=
  between 0x09 0x0D c || between 0x1C 0x20 c || (c =? 0x85) || (c =? 0xA0)
  || (c =? 0x1680) || between 0x2000 0x200A c || (c =? 0x2028)
  || (c =? 0x2029) || (c =? 0x202F) || (c =? 0x205F) || (c =? 0x3000).

(** What the interpreter supplies and the repository does not contain: the
    Unicode tables above U+00FF (the Latin-1 range is written out below),
    and the shortest-digits [repr] of a [float] that is not a small
    integer. *)
Class Runtime := {
  (** decimal value of a digit ([\d], [int()]) *)
  uni_decimal : char -> option N;
  (** [str.isalnum], the letters and numbers of [\w] *)
  uni_isalnum : char -> bool;
  (** simple lower-case mapping, used by [re.IGNORECASE] *)
  uni_tolower : char -> char;
  (** full lower-case mapping of [str.lower()] *)
  uni_lower : char -> str;
  (** [repr] of a finite, nonzero [float] that is not an integer below 1e16 *)
  float_repr_general : float -> str;
  (** [repr] of a [str]: its quoting and escaping *)
  str_repr : str -> str;
  (** [sys.get_int_max_str_digits()]: the most digits that a conversion
      between [int] and [str] takes, 0 for no limit; 4300 unless set *)
  int_max_str_digits : nat;
  (** no decimal digit is a white-space character *)
  uni_decimal_not_space :
    forall c v, uni_decimal c = Some v -> isspace c = false
}.

Section Tables.
Context {R : Runtime}.

Definition latin1_isalnum (c : char) : bool :=
  between 0x30 0x39 c || between 0x41 0x5A c || between 0x61 0x7A c
  || (c =? 0xAA) || (c =? 0xB2) || (c =? 0xB3) || (c =? 0xB5) || (c =? 0xB9)
  || (c =? 0xBA) || between 0xBC 0xBE c || between 0xC0 0xD6 c
  || between 0xD8 0xF6 c || between 0xF8 0xFF c.

Definition isalnum (c : char) : bool :=
  if c <? 0x100 then latin1_isalnum c else uni_isalnum c.

(** [\w]: alphanumeric or the underscore. *)
Definition isword (c : char) : bool := isalnum c || (c =? 0x5F).

Definition decimal (c : char) : option N :=
  if c <? 0x100
  then (if between 0x30 0x39 c then Some (c - 0x30) else None)
  else uni_decimal c.

(** [\d] *)
Definition isdigit (c : char) : bool :=
  match decimal c with Some _ => true | None => false end.

Definition tolower (c : char) : char :=
  if c <? 0x100
  then (if between 0x41 0x5A c || (between 0xC0 0xDE c && negb (c =? 0xD7))
        then c + 32 else c)
  else uni_tolower c.

(** [str.lower()] *)
Definition lower (s : str) : str :=
  flat_map (fun c => if c <? 0x100 then [tolower c] else uni_lower c) s.

End Tables.

(** [s.strip()] *)
Fixpoint lstrip (s : str) : str :=
  match s with
  | c :: s' => if isspace c then lstrip s' else s
  | [] => []
  end.

Definition rstrip (s : str) : str := rev (lstrip (rev s)).
Definition strip (s : str) : str := rstrip (lstrip s).

Definition eqb (a b : str) : bool := bool_decide (a = b).

(** [s.startswith(p)] and [sub in s] *)
Fixpoint startswith (p s : str) : bool :=
  match p, s with
  | [], _ => true
  | a :: p', b :: s' => if a =? b then startswith p' s' else false
  | _ :: _, [] => false
  end.

Fixpoint contains (sub s : str) : bool :=
  if startswith sub s then true
  else match s with [] => false | _ :: s' => contains sub s' end.

(** [s.replace(old, new)] for a one-character [old] *)
Definition replace1 (old : char) (new : str) (s : str) : str :=
  flat_map (fun c => if c =? old then new else [c]) s.

(** [s.split(sep)] for a one-character [sep] *)
Fixpoint split1 (sep : char) (s : str) : list str :=
  match s with
  | [] => [[]]
  | c :: s' =>
    if c =? sep then [] :: split1 sep s'
    else match split1 sep s' with
         | seg :: segs => (c :: seg) :: segs
         | [] => [[c]]
         end
  end.

(** [any(w in s for w in words)] *)
Definition any_in (words : list string) (s : str) : bool :=
  existsb (fun w => contains (u8 w) s) words.

(** ** Exceptions *)

(** The exceptions that the modelled code can meet: those that [int()],
    [str()] and the arithmetic operators raise, and [Error] for whatever an
    external service raises, with the text that [str(e)] gives. *)
Inductive exn :=
| ValueError (literal : str)    (* [int()] on a malformed literal *)
| ValueErrorDigits (limit : nat) (digits : option nat)
                                (* a [ValueError] too: a conversion between
                                   [int] and [str] beyond the limit; [int()]
                                   tells the digits of the value *)
| ZeroDivisionError
| OverflowError (msg : string)
| Error (type_name msg : str).

Inductive res (A : Type) :=
| Ok (a : A)
| Raise (e : exn).
Arguments Ok {A} a.
Arguments Raise {A} e.

Definition bind {A B} (m : res A) (f : A -> res B) : res B :=
  match m with Ok a => f a | Raise e => Raise e end.

(** [try: body  except Exception: handler] *)
Definition try_except {A} (body : res A) (handler : exn -> res A) : res A :=
  match body with Ok a => Ok a | Raise e => handler e end.

Definition str_of_nat (n : nat) : str :=
  u8 (NilZero.string_of_uint (Nat.to_uint n)).

(** [str(e)] *)
Definition exn_str {R : Runtime} (e : exn) : str :=
  match e with
  | ValueError literal =>
    u8 "invalid literal for int() with base 10: " ++ str_repr literal
  | ValueErrorDigits limit digits =>
    u8 "Exceeds the limit (" ++ str_of_nat limit
    ++ u8 " digits) for integer string conversion"
    ++ match digits with
       | Some d => u8 ": value has " ++ str_of_nat d ++ u8 " digits"
       | None => []
       end
    ++ u8 "; use sys.set_int_max_str_digits() to increase the limit"
  | ZeroDivisionError => u8 "division by zero"
  | OverflowError msg => u8 msg
  | Error _ msg => msg
  end.

(** [type(e).__name__] *)
Definition exn_name (e : exn) : str :=
  match e with
  | ValueError _ => u8 "ValueError"
  | ValueErrorDigits _ _ => u8 "ValueError"
  | ZeroDivisionError => u8 "ZeroDivisionError"
  | OverflowError _ => u8 "OverflowError"
  | Error type_name _ => type_name
  end.

(** [sep.join(parts)], and a text given line by line *)
Fixpoint join (sep : str) (parts : list str) : str :=
  match parts with
  | [] => []
  | [x] => x
  | x :: rest => x ++ sep ++ join sep rest
  end.

Definition unlines (ls : list str) : str := join [0x0A] ls.

(** The longest prefix of [s] whose characters satisfy [f], and the rest. *)
Fixpoint span (f : char -> bool) (s : str) : str * str :=
  match s with
  | c :: s' =>
    if f c then let '(a, b) := span f s' in (c :: a, b) else ([], s)
  | [] => ([], [])
  end.

Definition nonempty (s : str) : bool :=
  match s with [] => false | _ => true end.

End Py.

Notation "'let*' x ':=' m 'in' k" := (Py.bind m (fun x => k))
  (at level 10, x name, m at level 100, k at level 200).


(** ** Numbers: [int], [float] and their conversions *)

Module Num.
Import Py.

Local Open Scope Z_scope.

(** [str(n)] of an [int] *)
Definition str_of_int (z : Z) : str :=
  u8 (NilZero.string_of_int (Z.to_int z)).

(** [float(n)] as the arithmetic operators apply it to an [int] operand:
    rounded to nearest even, [OverflowError] beyond the largest double. *)
Definition float_of_int (z : Z) : res float :=
  match binary_normalize 53 1024 z 0 false with
  | S754_infinity _ => Raise (OverflowError "int too large to convert to float")
  | f => Ok (SF2Prim f)
  end.

Definition spec_of_int (z : Z) : spec_float :=
  match z with
  | Z0 => S754_zero false
  | Zpos p => S754_finite false p 0
  | Zneg p => S754_finite true p 0
  end.

(** [a / b] on two [int]s: the correctly rounded quotient. *)
Definition truediv (a b : Z) : res float :=
  if b =? 0 then Raise ZeroDivisionError
  else match SFdiv 53 1024 (spec_of_int a) (spec_of_int b) with
       | S754_infinity _ =>
         Raise (OverflowError "integer division result too large for a float")
       | q => Ok (SF2Prim q)
       end.

(** The value of [a / b] where the division is known not to raise. *)
Definition quotient (a b : Z) : float :=
  SF2Prim (SFdiv 53 1024 (spec_of_int a) (spec_of_int b)).

(** A length or a count as a [float] operand (exact below 2^53). *)
Definition float_of_nat (n : nat) : float :=
  SF2Prim (binary_normalize 53 1024 (Z.of_nat n) 0 false).

(** [n * x] and [x + n] with an [int] and a [float] *)
Definition int_mul_float (n : Z) (x : float) : res float :=
  let* f := float_of_int n in Ok (PrimFloat.mul f x).

Definition float_add_int (x : float) (n : Z) : res float :=
  let* f := float_of_int n in Ok (PrimFloat.add x f).

(** [max(0.0, x)] and [min(x, 1.0)]: the first argument is kept unless the
    second is strictly beyond it. *)
Definition max0 (x : float) : float :=
  if PrimFloat.ltb 0%float x then x else 0%float.

Definition min_first (x y : float) : float :=
  if PrimFloat.ltb y x then y else x.

(** The integer a finite float is equal to, if any. *)
Definition integral (m : positive) (e : Z) : option Z :=
  if 0 <=? e then Some (Z.pos m * 2 ^ e)
  else if Z.pos m mod 2 ^ (- e) =? 0 then Some (Z.pos m / 2 ^ (- e))
  else None.

Section WithRuntime.
Context {R : Runtime}.

(** The interpreter's guard on the conversions between [int] and [str]:
    beyond 640 digits, a conversion of more digits than the limit that is
    set is refused. *)
Definition exceeds_limit (digits : nat) : bool :=
  if (640 <? digits)%nat then
    if (0 <? int_max_str_digits)%nat
    then (int_max_str_digits <? digits)%nat
    else false
  else false.

(** [str(n)] of an [int] as an f-string writes it: the guard looks at the
    length of the text and compares the digits, without the sign. *)
Definition str_int (z : Z) : res str :=
  let s := str_of_int z in
  if (640 <? length s)%nat then
    if exceeds_limit (length (str_of_int (Z.abs z)))
    then Raise (ValueErrorDigits int_max_str_digits None)
    else Ok s
  else Ok s.

(** [int(s)]: surrounding white space, an optional sign, then decimal
    digits that single underscores may separate.  The run of digits and
    underscores is read first and must be well formed; then its digits are
    counted against the limit; then nothing may follow it. *)
Fixpoint int_digits (acc : Z) (s : str) : option Z :=
  match s with
  | [] => None
  | c :: s' =>
    match decimal c with
    | None => None
    | Some v =>
      let acc' := acc * 10 + Z.of_N v in
      match s' with
      | [] => Some acc'
      | c' :: s'' =>
        if (c' =? 0x5F)%N then int_digits acc' s'' else int_digits acc' s'
      end
    end
  end.

Definition int (s : str) : res Z :=
  let t := strip s in
  let '(neg, body) :=
    match t with
    | c :: r =>
      if (c =? cp "-")%N then (true, r)
      else if (c =? cp "+")%N then (false, r)
      else (false, t)
    | [] => (false, [])
    end in
  let '(run, rest) := span (fun c => isdigit c || (c =? 0x5F)%N) body in
  match int_digits 0 run with
  | None => Raise (ValueError s)
  | Some v =>
    let digits := length (List.filter isdigit run) in
    if exceeds_limit digits
    then Raise (ValueErrorDigits int_max_str_digits (Some digits))
    else match rest with
         | [] => Ok (if neg then - v else v)
         | _ :: _ => Raise (ValueError s)
         end
  end.

(** [repr(x)], which is what an f-string writes for a [float]: an integer
    below 1e16 is written with its digits and [.0]. *)
Definition float_repr (x : float) : str :=
  match Prim2SF x with
  | S754_zero s => u8 (if s then "-0.0" else "0.0")
  | S754_infinity s => u8 (if s then "-inf" else "inf")
  | S754_nan => u8 "nan"
  | S754_finite s m e =>
    match integral m e with
    | Some v =>
      if v <? 10 ^ 16
      then (if s then u8 "-" else []) ++ str_of_int v ++ u8 ".0"
      else float_repr_general x
    | None => float_repr_general x
    end
  end.

End WithRuntime.

(** [f"{x:.2f}"]: two decimals, the exact value rounded half to even. *)
Definition two_digits (n : Z) : str :=
  (if n <? 10 then u8 "0" else []) ++ str_of_int n.

Definition format_2f (x : float) : str :=
  match Prim2SF x with
  | S754_zero s => u8 (if s then "-0.00" else "0.00")
  | S754_infinity s => u8 (if s then "-inf" else "inf")
  | S754_nan => u8 "nan"
  | S754_finite s m e =>
    let num := Z.pos m * 100 * 2 ^ (Z.max e 0) in
    let den := 2 ^ (Z.max (- e) 0) in
    let q := num / den in
    let r := num mod den in
    let n := if (den <? 2 * r) || ((den =? 2 * r) && Z.odd q)
             then q + 1 else q in
    (if s then u8 "-" else []) ++ str_of_int (n / 100) ++ u8 "."
      ++ two_digits (n mod 100)
  end.

End Num.

(** ** Regular expressions

    The patterns of the sources are kept as syntax trees and run by a
    backtracking matcher.  Only the questions [re.search] and [re.match]
    answer with a boolean are decided here; the three patterns whose groups
    are read are matched by hand in [LLM]. *)

Module Re.
Import Py.

Inductive re :=
| Eps                          (* the empty pattern *)
| Sym (f : char -> bool)       (* one character: a literal, a class, [.] *)
| Cat (a b : re)
| Alt (a b : re)
| Star (a : re)
| Bol                          (* [^] *)
| Eol                          (* [$]: the end, or before a final newline *)
| WordB.                       (* [\b] *)

Definition plus (a : re) : re := Cat a (Star a).
Definition opt (a : re) : re := Alt a Eps.

Fixpoint seq (rs : list re) : re :=
  match rs with
  | [] => Eps
  | [r] => r
  | r :: rs' => Cat r (seq rs')
  end.

Fixpoint alts (rs : list re) : re :=
  match rs with
  | [] => Sym (fun _ => false)
  | [r] => r
  | r :: rs' => Alt r (alts rs')
  end.

Definition mem (c : char) (l : str) : bool := existsb (N.eqb c) l.

Section Matcher.
Context {R : Runtime}.

Definition word_at (c : option char) : bool :=
  match c with Some x => isword x | None => false end.

(** The iterations of a star whose body is matched by [body]: one more
    iteration that consumes something, or else the continuation.  An
    iteration that consumes nothing is not retried; [fuel] bounds the number
    of iterations by the length of the text. *)
Fixpoint star_iter (body : option char -> str -> (option char -> str -> bool) -> bool)
         (k : option char -> str -> bool)
         (fuel : nat) (prev : option char) (s : str) : bool :=
  match fuel with
  | O => k prev s
  | S fuel' =>
    if body prev s
         (fun p' s' =>
            if (length s' <? length s)%nat then star_iter body k fuel' p' s'
            else false)
    then true else k prev s
  end.

(** [accepts r prev s k]: some match of [r] at the front of [s], the
    character before it being [prev], leaves a rest that [k] accepts.  The
    matcher of CPython explores the same alternatives, so both agree on
    whether a match exists. *)
Fixpoint accepts (r : re) (prev : option char) (s : str)
         (k : option char -> str -> bool) {struct r} : bool :=
  match r with
  | Eps => k prev s
  | Sym f =>
    match s with
    | c :: s' => if f c then k (Some c) s' else false
    | [] => false
    end
  | Cat a b => accepts a prev s (fun p' s' => accepts b p' s' k)
  | Alt a b => if accepts a prev s k then true else accepts b prev s k
  | Star a => star_iter (accepts a) k (length s) prev s
  | Bol => match prev with None => k prev s | Some _ => false end
  | Eol =>
    match s with
    | [] => k prev s
    | [c] => if c =? 10 then k prev s else false
    | _ => false
    end
  | WordB =>
    if xorb (word_at prev) (word_at (head s)) then k prev s else false
  end.

(** [re.match(r, s)] and [re.search(r, s)] as booleans *)
Definition matches (r : re) (s : str) : bool :=
  accepts r None s (fun _ _ => true).

Fixpoint search_from (r : re) (prev : option char) (s : str) : bool :=
  if accepts r prev s (fun _ _ => true) then true
  else match s with
       | [] => false
       | c :: s' => search_from r (Some c) s'
       end.

Definition search (r : re) (s : str) : bool := search_from r None s.

(** *** Atoms *)

Definition chr (c : char) : re := Sym (N.eqb c).
Definition digit : re := Sym isdigit.          (* [\d] *)
Definition space : re := Sym isspace.          (* [\s] *)
Definition dot : re := Sym (fun c => negb (c =? 10)).   (* [.] *)
Definition set (chars : string) : re := Sym (fun c => mem c (u8 chars)).
Definition az : re := Sym (between 0x61 0x7A).   (* [[a-z]] *)

(** A literal word. *)
Definition lit (w : string) : re := seq (map chr (u8 w)).

(** Under [re.IGNORECASE] a cased literal is compared after the simple
    lower-case mapping, and [i], [s] and the Greek pi also stand for the
    dotless i, the long s and the pi symbol. *)
Definition fixes (l : char) : str :=
  if l =? 0x69 then [0x131]
  else if l =? 0x73 then [0x17F]
  else if l =? 0x3C0 then [0x3D6]
  else [].

Definition cased (l : char) : bool :=
  between 0x41 0x5A l || between 0x61 0x7A l || (l =? 0x3C0).

Definition ichr (l : char) : re :=
  if cased l
  then Sym (fun c => mem (tolower c) (tolower l :: fixes (tolower l)))
  else chr l.

Definition ilit (w : string) : re := seq (map ichr (u8 w)).

(** [[a-z]] under [re.IGNORECASE] *)
Definition iaz : re :=
  Sym (fun c => between 0x61 0x7A (tolower c)
                || mem (tolower c) [0x131; 0x17F]).

(** A class with a cased member under [re.IGNORECASE]: the subject's
    character is compared after the lower-case mapping.  The members are
    written as the compiler keeps them, after the same mapping; the one class
    of the program has only uncased and lower-case members, which are their
    own images. *)
Definition iset (chars : string) : re :=
  Sym (fun c => mem (tolower c) (flat_map (fun l => l :: fixes l) (u8 chars))).

(** [\b(w1|w2|...)\b], with and without [re.IGNORECASE] *)
Definition word_of (ws : list string) : re :=
  seq [WordB; alts (map lit ws); WordB].
Definition iword_of (ws : list string) : re :=
  seq [WordB; alts (map ilit ws); WordB].

End Matcher.
End Re.

(** ** [core/guardrails.py] *)

Module Guardrails.
Import Py Re.

Record FilterResult := {
  is_safe : bool;
  content : str;
  message : str;
  issues : list str;
  confidence : float
}.

(** [re.sub(r'\s+', ' ', s)]: every maximal run of white space becomes one
    space.  [in_run] tells that the previous character was white space. *)
Fixpoint sub_spaces (in_run : bool) (s : str) : str :=
  match s with
  | [] => []
  | c :: s' =>
    if isspace c
    then (if in_run then sub_spaces true s' else 0x20 :: sub_spaces true s')
    else c :: sub_spaces false s'
  end.

(** [re.sub(c{n,}, repl, s)] for one character [c]: every maximal run of
    at least [n] is replaced; [run] counts the run being read. *)
Definition flush_run (c : char) (n : nat) (repl : str) (run : nat) : str :=
  if (n <=? run)%nat then repl else repeat c run.

Fixpoint sub_runs (c : char) (n : nat) (repl : str) (run : nat) (s : str)
  : str :=
  match s with
  | [] => flush_run c n repl run
  | d :: s' =>
    if d =? c then sub_runs c n repl (S run) s'
    else flush_run c n repl run ++ d :: sub_runs c n repl O s'
  end.

Definition count {A} (f : A -> bool) (l : list A) : nat :=
  length (filter (fun x => f x = true) l).

Module InputFilter.
Section WithRuntime.
Context {R : Runtime}.

Definition blocked_patterns : list re := [
  iword_of ["hack"; "exploit"; "attack"; "malicious"];
  seq [WordB; alts (map ilit ["personal"; "private"; "confidential"]);
       plus space; ilit "information"; WordB];
  seq [WordB; alts (map ilit ["generate"; "create"]); plus space;
       alts (map ilit ["virus"; "malware"; "harmful"]); WordB]
].

(** [[+\-*/×÷]] *)
Definition arith_op : re := set "+-*/×÷".

(** [\d+\s*[+\-*/×÷]\s*\d+] *)
Definition any_arithmetic : re :=
  seq [plus digit; Star space; arith_op; Star space; plus digit].

(** [^\s*\d+\s*[+\-*/×÷]\s*\d+\s*$] *)
Definition pure_arithmetic : re :=
  seq [Bol; Star space; any_arithmetic; Star space; Eol].

Definition math_indicators : list re := [
  iword_of ["solve"; "calculate"; "compute"; "find"; "derive"; "integrate";
            "differentiate"; "evaluate"; "simplify"; "determine"];
  iword_of ["equation"; "formula"; "function"; "theorem"; "proof"; "graph";
            "plot"; "matrix"; "vector"; "expression"];
  iword_of ["algebra"; "calculus"; "geometry"; "trigonometry"; "statistics";
            "probability"; "arithmetic"; "mathematics"];
  set "+-*/=<>{}[]()^%";
  iset "×÷±≤≥≠≈∈∉⊂⊃∪∩∫∑∏√π∞";
  seq [WordB; plus digit; WordB];
  seq [plus digit; Star space; set "+-*/^×÷%"; Star space; plus digit];
  pure_arithmetic;
  seq [Bol; Star space; plus digit; Star space; arith_op; Star space;
       plus digit; Star space; arith_op; Star space; plus digit];
  iword_of ["sin"; "cos"; "tan"; "log"; "ln"; "exp"; "sqrt"; "abs"; "floor";
            "ceil"; "round"];
  iword_of ["sum"; "integral"; "derivative"; "limit"; "factorial";
            "permutation"; "combination"];
  iword_of ["differential"; "partial"; "equation"; "transform"; "laplace";
            "fourier"; "matrix"; "vector"; "tensor"];
  iword_of ["eigenvalue"; "eigenvector"; "determinant"; "inverse";
            "transpose"; "orthogonal"];
  iword_of ["topology"; "manifold"; "group"; "ring"; "field"; "homomorphism";
            "isomorphism"];
  iword_of ["convergence"; "divergence"; "series"; "sequence"; "continuity";
            "differentiable"];
  iword_of ["polynomial"; "quadratic"; "linear"; "exponential";
            "logarithmic"; "rational"; "irrational"];
  iword_of ["area"; "volume"; "perimeter"; "circumference"; "radius";
            "diameter"; "angle"; "triangle"; "circle"; "square"; "rectangle"];
  seq [WordB;
       alts [ilit "mean"; ilit "median"; ilit "mode"; ilit "variance";
             seq [ilit "standard"; plus space; ilit "deviation"];
             ilit "correlation"; ilit "probability"];
       WordB];
  seq [WordB; iaz; Star space; set "=+-*/^"];
  seq [WordB; Star digit; iaz; Star space; set "+-*/^"];
  seq [WordB;
       alts [seq [ilit "what"; plus space; ilit "is"];
             seq [ilit "how"; plus space; ilit "much"; plus space; ilit "is"];
             ilit "calculate"];
       plus space; plus digit];
  alts [iword_of ["math"]; iword_of ["mathematics"]; iword_of ["mathematical"]];
  seq [plus digit; chr (cp "/"); plus digit];
  seq [plus digit; chr (cp "."); plus digit];
  Alt (seq [plus digit; Star space; chr (cp "%")]) (iword_of ["percent"]);
  seq [WordB;
       alts [seq [ilit "degree"; opt (ilit "s")];
             seq [ilit "radian"; opt (ilit "s")];
             seq [ilit "meter"; opt (ilit "s")];
             ilit "feet";
             seq [ilit "inche"; opt (ilit "s")];
             ilit "cm"; ilit "mm"; ilit "kg";
             seq [ilit "gram"; opt (ilit "s")];
             seq [ilit "second"; opt (ilit "s")];
             seq [ilit "minute"; opt (ilit "s")];
             seq [ilit "hour"; opt (ilit "s")]];
       WordB]
].

Definition non_math_indicators : list re := [
  iword_of ["weather"; "temperature"; "climate"; "rain"; "snow"; "sunny";
            "cloudy"];
  iword_of ["cook"; "recipe"; "food"; "eat"; "drink"; "restaurant"; "kitchen"];
  iword_of ["movie"; "film"; "actor"; "actress"; "cinema"; "theater"];
  iword_of ["music"; "song"; "singer"; "band"; "album"; "concert"];
  iword_of ["car"; "drive"; "traffic"; "road"; "highway"; "parking"];
  iword_of ["health"; "doctor"; "medicine"; "hospital"; "sick"; "disease"];
  iword_of ["politics"; "government"; "president"; "election"; "vote"];
  iword_of ["sports"; "football"; "basketball"; "soccer"; "tennis"; "game"];
  iword_of ["travel"; "vacation"; "hotel"; "flight"; "airport"; "tourist"];
  iword_of ["shopping"; "store"; "buy"; "sell"; "price"; "money"; "dollar"];
  iword_of ["work"; "job"; "career"; "office"; "business"; "company"];
  iword_of ["school"; "teacher"; "student"; "class"; "homework"; "grade"];
  iword_of ["family"; "friend"; "relationship"; "love"; "marriage"];
  iword_of ["computer"; "software"; "internet"; "website"; "email"];
  iword_of ["book"; "read"; "write"; "story"; "novel"; "author"]
].

Definition max_length : nat := 1000.
Definition min_length : nat := 3.

(** [base_score += bonus] when the pattern is found *)
Definition boost (found : bool) (bonus score : float) : float :=
  if found then PrimFloat.add score bonus else score.

Definition _calculate_enhanced_math_score (content : str) : float :=
  let content_lower := lower content in
  let non_math_matches :=
    count (fun p => search p content_lower) non_math_indicators in
  if (0 <? non_math_matches)%nat then 0.0%float
  else
    let total_indicators := length math_indicators in
    let math_matches :=
      count (fun p => search p content_lower) math_indicators in
    let base_score :=
      if (0 <? total_indicators)%nat
      then Num.quotient (Z.of_nat math_matches) (Z.of_nat total_indicators)
      else 0%float in
    let base_score :=
      boost (search pure_arithmetic (strip content)) 0.5 base_score in
    let base_score := boost (search any_arithmetic content) 0.3 base_score in
    let base_score :=
      boost (search (seq [word_of ["solve"; "calculate"; "find"]; Star dot;
                          chr (cp "=")]) content_lower) 0.4 base_score in
    let base_score :=
      boost (search (seq [WordB; az; Star space; set "=+-*/^"]) content)
            0.3 base_score in
    let base_score :=
      boost (search (word_of ["derivative"; "integral"; "limit"; "sum"])
                    content_lower) 0.4 base_score in
    let base_score :=
      boost (search (seq [WordB; alts (map lit ["differential"; "partial"]);
                          Star dot; WordB; lit "equation"; WordB])
                    content_lower) 0.5 base_score in
    let base_score :=
      boost (search (word_of ["laplace"; "fourier"; "transform"])
                    content_lower) 0.4 base_score in
    let base_score :=
      boost (search (word_of ["matrix"; "vector"; "eigenvalue"; "determinant"])
                    content_lower) 0.4 base_score in
    let base_score :=
      boost (search (seq [word_of ["area"; "volume"; "perimeter"]; Star dot;
                          word_of ["circle"; "triangle"; "rectangle"]])
                    content_lower) 0.3 base_score in
    let base_score :=
      boost (search (Alt (seq [plus digit; Star space; chr (cp "%")])
                         (word_of ["percent"])) content_lower)
            0.2 base_score in
    Num.min_first base_score 1.0.

Definition _calculate_math_score (content : str) : float :=
  _calculate_enhanced_math_score content.

(** [[a-zA-Z0-9\s+\-*/=<>(){}[\].,?!]] *)
Definition plain_char (c : char) : bool :=
  between 0x61 0x7A c || between 0x41 0x5A c || between 0x30 0x39 c
  || isspace c || mem c (u8 "+-*/=<>(){}[].,?!").

Definition _contains_excessive_special_chars (content : str) : bool :=
  let special_char_count := count (fun c => negb (plain_char c)) content in
  PrimFloat.ltb (PrimFloat.mul (Num.float_of_nat (length content)) 0.3)
                (Num.float_of_nat special_char_count).

(** [[\w\s+\-*/=<>(){}[\].,?!]], the characters that are kept *)
Definition kept_char (c : char) : bool :=
  isword c || isspace c || mem c (u8 "+-*/=<>(){}[].,?!").

Definition _clean_content (content : str) : str :=
  let content := sub_spaces false content in
  let content := filter (fun c => kept_char c = true) content in
  strip content.

Definition process (content : str) : FilterResult :=
  let issues : list str := [] in
  let confidence := 1.0%float in
  if negb (nonempty content) || negb (nonempty (strip content)) then
    {| is_safe := false; content := [];
       message := u8 "Empty query is not allowed";
       issues := [u8 "empty_content"]; confidence := 1.0 |}
  else
  let content := strip content in
  let '(issues, content, confidence) :=
    if (max_length <? length content)%nat
    then (issues ++ [u8 "content_too_long"], take max_length content,
          PrimFloat.sub confidence 0.1)
    else (issues, content, confidence) in
  if (length content <? min_length)%nat then
    {| is_safe := false; content := content;
       message := u8 "Query is too short";
       issues := [u8 "content_too_short"]; confidence := 1.0 |}
  else
  if existsb (fun pattern => search pattern content) blocked_patterns then
    {| is_safe := false; content := content;
       message := u8 "Query contains potentially harmful content";
       issues := [u8 "blocked_pattern"]; confidence := 1.0 |}
  else
  let math_score := _calculate_enhanced_math_score content in
  if PrimFloat.ltb math_score 0.2 then
    {| is_safe := false; content := content;
       message := u8 "Please enter a valid math question. Only mathematical questions are allowed.";
       issues := [u8 "non_mathematical"]; confidence := 0.0 |}
  else
  let '(issues, confidence) :=
    if _contains_excessive_special_chars content
    then (issues ++ [u8 "excessive_special_chars"],
          PrimFloat.sub confidence 0.2)
    else (issues, confidence) in
  let cleaned_content := _clean_content content in
  let is_safe :=
    PrimFloat.ltb 0.5 confidence
    && negb (existsb (fun issue => existsb (Py.eqb issue)
                                           [u8 "blocked_pattern"]) issues) in
  let message :=
    if is_safe then u8 "Content passed safety checks"
    else u8 "Content failed safety checks" in
  {| is_safe := is_safe; content := cleaned_content; message := message;
     issues := issues; confidence := Num.max0 confidence |}.

End WithRuntime.
End InputFilter.

Module OutputFilter.
Section WithRuntime.
Context {R : Runtime}.

Definition blocked_phrases : list string := [
  "I cannot help with";
  "I'm not able to assist";
  "This request violates";
  "I can't provide information about"
].

Definition quality_indicators : list re := [
  iword_of ["solution"; "answer"; "result"; "calculation"];
  iword_of ["step"; "method"; "approach"; "process"];
  iword_of ["therefore"; "thus"; "hence"; "so"];
  set "+-*/=";
  seq [WordB; plus digit; WordB]
].

Definition min_answer_length : nat := 20.
Definition max_answer_length : nat := 2000.

Definition _calculate_quality_score (content : str) : float :=
  let matches := count (fun p => search p content) quality_indicators in
  let total_indicators := length quality_indicators in
  let base_score :=
    Num.quotient (Z.of_nat matches) (Z.of_nat total_indicators) in
  let base_score :=
    InputFilter.boost
      (search (seq [alts [seq [plus digit; chr (cp ".")]; chr 0x2022;
                          chr (cp "*")];
                    plus space]) content)
      0.2 base_score in
  let base_score :=
    InputFilter.boost (search (set "+-*/=<>{}[]()") content) 0.1 base_score in
  Num.min_first 1.0 base_score.

Definition _contains_harmful_content (content : str) : bool :=
  let harmful_patterns := [
    seq [WordB; alts (map ilit ["personal"; "private"; "confidential"]);
         plus space; ilit "information"; WordB];
    iword_of ["hack"; "exploit"; "attack"];
    iword_of ["illegal"; "unlawful"; "criminal"]
  ] in
  existsb (fun pattern => search pattern content) harmful_patterns.

Definition _clean_output (content : str) : str :=
  let content := sub_runs 0x0A 3 [0x0A; 0x0A] O content in
  let content := sub_runs 0x20 2 [0x20] O content in
  strip content.

(** One turn of the loop over [blocked_phrases]. *)
Definition check_phrase (content : str) (st : list str * float)
           (phrase : string) : list str * float :=
  let '(issues, confidence) := st in
  if contains (lower (u8 phrase)) (lower content)
  then (issues ++ [u8 "refusal_pattern"], PrimFloat.sub confidence 0.4)
  else (issues, confidence).

Definition process (content : str) : FilterResult :=
  let issues : list str := [] in
  let confidence := 1.0%float in
  if negb (nonempty content) || negb (nonempty (strip content)) then
    {| is_safe := false; content := [];
       message := u8 "Empty response is not allowed";
       issues := [u8 "empty_response"]; confidence := 1.0 |}
  else
  let content := strip content in
  let '(issues, confidence) :=
    if (length content <? min_answer_length)%nat
    then (issues ++ [u8 "response_too_short"], PrimFloat.sub confidence 0.3)
    else (issues, confidence) in
  let '(issues, content, confidence) :=
    if (max_answer_length <? length content)%nat
    then (issues ++ [u8 "response_too_long"],
          take max_answer_length content ++ u8 "...",
          PrimFloat.sub confidence 0.1)
    else (issues, content, confidence) in
  let '(issues, confidence) :=
    fold_left (check_phrase content) blocked_phrases (issues, confidence) in
  let quality_score := _calculate_quality_score content in
  let '(issues, confidence) :=
    if PrimFloat.ltb quality_score 0.3
    then (issues ++ [u8 "low_quality"], PrimFloat.sub confidence 0.3)
    else (issues, confidence) in
  if _contains_harmful_content content then
    {| is_safe := false; content := content;
       message := u8 "Response contains potentially harmful content";
       issues := [u8 "harmful_content"]; confidence := 0.0 |}
  else
  let cleaned_content := _clean_output content in
  let is_safe := PrimFloat.ltb 0.4 confidence in
  let message :=
    if is_safe then u8 "Response passed safety checks"
    else u8 "Response has quality or safety issues" in
  {| is_safe := is_safe; content := cleaned_content; message := message;
     issues := issues; confidence := Num.max0 confidence |}.

End WithRuntime.
End OutputFilter.

End Guardrails.

(** ** [core/llm_service.py] *)

Module LLM.
Import Py Re.

(** What the generative model answers: the direct HTTP call and the SDK
    call, each of which returns a text, returns nothing, or raises. *)
Record Gemini := {
  api_key : option str;                     (* [GEMINI_API_KEY] *)
  has_model : bool;                         (* [self.model] is set *)
  direct_api : str -> res (option str);     (* [_call_gemini_direct_api] *)
  sdk_generate : str -> res (option str)    (* [response.text] *)
}.

(** The result of an arithmetic operation: an [int], or the [float] of a
    true division. *)
Inductive number := Int (n : Z) | Float (x : float).

Section WithRuntime.
Context {R : Runtime}.

Definition show_number (v : number) : res str :=
  match v with
  | Int n => Num.str_int n
  | Float x => Ok (Num.float_repr x)
  end.

Definition quoted (s : string) : str := [0x22] ++ u8 s ++ [0x22].

Definition _create_math_prompt (question : str) (context : option str) : str :=
  unlines [
    u8 "You are an expert mathematics tutor. Provide a comprehensive, step-by-step solution to this mathematical problem.";
    [];
    u8 "MATHEMATICAL PROBLEM: " ++ question;
    match context with
    | Some c => if nonempty c then u8 "ADDITIONAL CONTEXT: " ++ c else []
    | None => []
    end;
    [];
    u8 "REQUIREMENTS:";
    u8 "1. **Show EVERY step** - never skip intermediate calculations";
    u8 "2. **Explain the reasoning** behind each step clearly";
    u8 "3. **Use proper mathematical notation** and formatting";
    u8 "4. **Verify your answer** by substituting back or checking";
    u8 "5. **Structure your response** with clear step numbers and headings";
    u8 "6. **Include the final answer** prominently at the end";
    [];
    u8 "FORMAT YOUR RESPONSE AS:";
    u8 "## Step-by-Step Solution for: " ++ question;
    [];
    u8 "**Step 1:** [First action with explanation]";
    u8 "[Show the mathematical work]";
    [];
    u8 "**Step 2:** [Next action with explanation]  ";
    u8 "[Show the mathematical work]";
    [];
    u8 "**Step 3:** [Continue until complete]";
    u8 "[Show the mathematical work]";
    [];
    u8 "**Verification:** [Check your answer]";
    u8 "[Show verification work]";
    [];
    u8 "**Final Answer:** [State the final result clearly]";
    [];
    u8 "Provide a complete, educational solution that a student can follow and learn from."
  ].

Definition _format_gemini_response (response_text question : str) : str :=
  u8 "## Step-by-Step Solution for: " ++ question ++ [0x0A; 0x0A]
  ++ u8 "*Generated using Gemini AI*" ++ [0x0A; 0x0A]
  ++ response_text.

(** *** The templates without a computed part *)

Definition _solve_derivative_comprehensive (question : str) : str :=
  unlines [
    u8 "## Step-by-Step Solution for: " ++ question;
    [];
    u8 "**Problem Type:** Differentiation";
    [];
    u8 "**Step 1:** Identify the function";
    u8 "Extract the function to be differentiated from the question.";
    [];
    u8 "**Step 2:** Determine the appropriate rule";
    u8 "Common differentiation rules:";
    u8 "- Power rule: d/dx(x^n) = n·x^(n-1)";
    u8 "- Constant rule: d/dx(c) = 0";
    u8 "- Sum rule: d/dx(f + g) = f' + g'";
    u8 "- Product rule: d/dx(fg) = f'g + fg'";
    u8 "- Chain rule: d/dx(f(g(x))) = f'(g(x))·g'(x)";
    [];
    u8 "**Step 3:** Apply the rule step by step";
    u8 "Work through the differentiation systematically.";
    [];
    u8 "**Step 4:** Simplify the result";
    u8 "Combine like terms and write in standard form.";
    [];
    u8 "**Example:** For f(x) = x^2:";
    u8 "Using the power rule: d/dx(x^2) = 2x^(2-1) = 2x"
  ].

Definition _solve_integral_comprehensive (question : str) : str :=
  unlines [
    u8 "## Step-by-Step Solution for: " ++ question;
    [];
    u8 "**Problem Type:** Integration";
    [];
    u8 "**Step 1:** Identify the integrand";
    u8 "Extract the function to be integrated.";
    [];
    u8 "**Step 2:** Choose the integration method";
    u8 "Common integration techniques:";
    u8 "- Power rule: ∫x^n dx = x^(n+1)/(n+1) + C (n ≠ -1)";
    u8 "- Substitution method";
    u8 "- Integration by parts: ∫u dv = uv - ∫v du";
    [];
    u8 "**Step 3:** Apply the method";
    u8 "Work through the integration step by step.";
    [];
    u8 "**Step 4:** Add the constant of integration";
    u8 "For indefinite integrals, always add + C.";
    [];
    u8 "**Example:** For ∫x^2 dx:";
    u8 "Using the power rule: ∫x^2 dx = x^3/3 + C"
  ].

Definition _solve_geometry_comprehensive (question : str) : str :=
  unlines [
    u8 "## Step-by-Step Solution for: " ++ question;
    [];
    u8 "**Problem Type:** Geometry";
    [];
    u8 "**Step 1:** Identify the geometric shape and what's being asked";
    u8 "Determine the shape (circle, triangle, rectangle, etc.) and the required measurement.";
    [];
    u8 "**Step 2:** Recall the relevant formula";
    u8 "Common formulas:";
    u8 "- Circle: Area = πr², Circumference = 2πr";
    u8 "- Rectangle: Area = length × width, Perimeter = 2(length + width)";
    u8 "- Triangle: Area = ½ × base × height";
    u8 "- Square: Area = side², Perimeter = 4 × side";
    [];
    u8 "**Step 3:** Substitute the known values";
    u8 "Plug the given measurements into the appropriate formula.";
    [];
    u8 "**Step 4:** Calculate the result";
    u8 "Perform the arithmetic to get the final answer.";
    [];
    u8 "**Step 5:** Include appropriate units";
    u8 "Make sure your answer has the correct units (square units for area, linear units for perimeter).";
    [];
    u8 "**Example:** For a circle with radius 5:";
    u8 "Area = πr² = π(5)² = 25π ≈ 78.54 square units"
  ].

Definition _solve_percentage_comprehensive (question : str) : str :=
  unlines [
    u8 "## Step-by-Step Solution for: " ++ question;
    [];
    u8 "**Problem Type:** Percentage Calculation";
    [];
    u8 "**Step 1:** Identify what type of percentage problem this is";
    u8 "- Finding a percentage of a number: What is 25% of 80?";
    u8 "- Finding what percentage one number is of another: What % is 15 of 60?";
    u8 "- Finding the whole when given a part and percentage: 20 is 25% of what number?";
    [];
    u8 "**Step 2:** Choose the appropriate formula";
    u8 "- Part = Whole × (Percentage ÷ 100)";
    u8 "- Percentage = (Part ÷ Whole) × 100";
    u8 "- Whole = Part ÷ (Percentage ÷ 100)";
    [];
    u8 "**Step 3:** Substitute the known values";
    u8 "Replace the variables with the given numbers.";
    [];
    u8 "**Step 4:** Calculate step by step";
    u8 "Perform the arithmetic operations in order.";
    [];
    u8 "**Step 5:** Verify and format the answer";
    u8 "Check if the result makes sense and include the % symbol if appropriate.";
    [];
    u8 "**Example:** To find 25% of 80:";
    u8 "25% of 80 = 80 × (25 ÷ 100) = 80 × 0.25 = 20"
  ].

Definition _solve_general_arithmetic (question : str) : str :=
  unlines [
    u8 "## Step-by-Step Solution for: " ++ question;
    [];
    u8 "**Problem Type:** Arithmetic Calculation";
    [];
    u8 "**Step 1:** Identify the numbers and operations";
    u8 "Look for numerical values and mathematical operations in the problem.";
    [];
    u8 "**Step 2:** Determine the order of operations";
    u8 "Follow PEMDAS/BODMAS:";
    u8 "- Parentheses/Brackets first";
    u8 "- Exponents/Orders";
    u8 "- Multiplication and Division (left to right)";
    u8 "- Addition and Subtraction (left to right)";
    [];
    u8 "**Step 3:** Perform the calculations step by step";
    u8 "Work through each operation systematically.";
    [];
    u8 "**Step 4:** Check your work";
    u8 "Verify that your calculations are correct.";
    [];
    u8 "**Example approach:** For " ++ quoted "15 + 3 × 4" ++ u8 ":";
    u8 "First: 3 × 4 = 12";
    u8 "Then: 15 + 12 = 27"
  ].

Definition _solve_general_math_comprehensive (question : str) : str :=
  unlines [
    u8 "## Step-by-Step Mathematical Analysis for: " ++ question;
    [];
    u8 "**Problem-Solving Strategy:**";
    [];
    u8 "**Step 1: Understand the Problem**";
    u8 "- Read the question carefully";
    u8 "- Identify what is being asked";
    u8 "- Note any given information or constraints";
    [];
    u8 "**Step 2: Identify Mathematical Concepts**";
    u8 "- Determine which area of mathematics applies";
    u8 "- Recall relevant formulas, theorems, or principles";
    u8 "- Consider what tools or methods are needed";
    [];
    u8 "**Step 3: Plan Your Approach**";
    u8 "- Break the problem into smaller, manageable parts";
    u8 "- Decide on the sequence of steps to follow";
    u8 "- Consider if there are multiple solution methods";
    [];
    u8 "**Step 4: Execute the Solution**";
    u8 "- Work through each step systematically";
    u8 "- Show all calculations and reasoning";
    u8 "- Keep track of units and significant figures";
    [];
    u8 "**Step 5: Check and Verify**";
    u8 "- Review your work for errors";
    u8 "- Verify that your answer makes sense";
    u8 "- Consider if there are alternative approaches";
    [];
    u8 "**Step 6: Communicate the Result**";
    u8 "- State your final answer clearly";
    u8 "- Include appropriate units or context";
    u8 "- Explain what the result means if applicable";
    [];
    u8 "This systematic approach ensures thorough problem-solving for any mathematical question."
  ].

(** *** Linear equations *)

Definition generic_equation (left_side right_side question : str) : str :=
  unlines [
    u8 "## Step-by-Step Solution for: " ++ question;
    [];
    u8 "**Given equation:** " ++ left_side ++ u8 " = " ++ right_side;
    [];
    u8 "**Step 1:** Identify the equation structure";
    u8 "This is a linear equation in one variable.";
    [];
    u8 "**Step 2:** Apply algebraic principles";
    u8 "- Move all terms with the variable to one side";
    u8 "- Move all constants to the other side";
    u8 "- Use inverse operations (addition/subtraction, then multiplication/division)";
    [];
    u8 "**Step 3:** Solve systematically";
    u8 "- Combine like terms";
    u8 "- Isolate the variable";
    u8 "- Simplify the result";
    [];
    u8 "**Step 4:** Verify your answer";
    u8 "Substitute your solution back into the original equation to check.";
    [];
    u8 "**General approach:** For equations like ax + b = c, subtract b from both sides, then divide by a."
  ].

Definition solved_equation (left_side right_side question : str)
           (coeff constant right_value step1_result : Z)
           (solution check : float) : res str :=
  let* coeff := Num.str_int coeff in
  let* constant := Num.str_int constant in
  let* step1_result := Num.str_int step1_result in
  let solution := Num.float_repr solution in
  let check := Num.float_repr check in
  let* right_value := Num.str_int right_value in
  Ok (unlines [
    u8 "## Step-by-Step Solution for: " ++ question;
    [];
    u8 "**Given equation:** " ++ left_side ++ u8 " = " ++ right_side;
    [];
    u8 "**Step 1:** Isolate the variable term";
    u8 "Move the constant to the right side:";
    coeff ++ u8 "x = " ++ right_side ++ u8 " - (" ++ constant ++ u8 ")";
    coeff ++ u8 "x = " ++ step1_result;
    [];
    u8 "**Step 2:** Solve for x";
    u8 "Divide both sides by " ++ coeff ++ u8 ":";
    u8 "x = " ++ step1_result ++ u8 " ÷ " ++ coeff;
    u8 "x = " ++ solution;
    [];
    u8 "**Step 3:** Verify the solution";
    u8 "Substitute x = " ++ solution ++ u8 " back into the original equation:";
    coeff ++ u8 "(" ++ solution ++ u8 ") + (" ++ constant ++ u8 ") = " ++ check;
    check ++ u8 " = " ++ right_value ++ u8 " ✓";
    [];
    u8 "**Answer:** x = " ++ solution
  ]).

(** [re.match] of the pattern for [ax + b] and [ax - b], and its three
    groups: white space, the digits of [a] (possibly none), white space,
    [x], white space, the sign, white space, the digits of [b] (at least
    one), white space, the end.  The classes that follow one another are
    disjoint, so the greedy reading is the only one. *)
Definition linear_pattern (s : str) : option (str * char * str) :=
  let '(coeff, s) := span isdigit (lstrip s) in
  match lstrip s with
  | x :: s =>
    if x =? cp "x" then
      match lstrip s with
      | op :: s =>
        if (op =? cp "+") || (op =? cp "-") then
          let '(constant, s) := span isdigit (lstrip s) in
          match constant, lstrip s with
          | _ :: _, [] => Some (coeff, op, constant)
          | _, _ => None
          end
        else None
      | [] => None
      end
    else None
  | [] => None
  end.

Definition _solve_linear_equation_pattern (left_side right_side question : str)
  : res str :=
  let generic := generic_equation left_side right_side question in
  match linear_pattern (replace1 0x20 [] left_side) with
  | Some (coeff_str, operator, constant_str) =>
    try_except
      (let* coeff := if nonempty coeff_str then Num.int coeff_str
                     else Ok 1%Z in
       let* constant := Num.int constant_str in
       let constant :=
         if operator =? cp "-" then (- constant)%Z else constant in
       let* right_value := Num.int (strip right_side) in
       let step1_result := (right_value - constant)%Z in
       let* solution := Num.truediv step1_result coeff in
       let* product := Num.int_mul_float coeff solution in
       let* check := Num.float_add_int product constant in
       solved_equation left_side right_side question coeff constant
                       right_value step1_result solution check)
      (fun _ => Ok generic)
  | None => Ok generic
  end.

(** [re.search(r'([^=]+)=([^=]+)', s)] and its two groups: the first
    nonempty stretch between equals signs that a nonempty one follows. *)
Fixpoint equation_groups (segments : list str) : option (str * str) :=
  match segments with
  | a :: ((b :: _) as rest) =>
    if nonempty a && nonempty b then Some (a, b) else equation_groups rest
  | _ => None
  end.

Definition equation_search (s : str) : option (str * str) :=
  equation_groups (split1 (cp "=") s).

Definition _solve_equation_comprehensive (question : str) : res str :=
  if contains (u8 "3x + 7 = 10") question || contains (u8 "3x+7=10") question
  then Ok (unlines [
    u8 "## Step-by-Step Solution for: 3x + 7 = 10";
    [];
    u8 "**Given equation:** 3x + 7 = 10";
    [];
    u8 "**Step 1:** Subtract 7 from both sides";
    u8 "3x + 7 - 7 = 10 - 7";
    u8 "3x = 3";
    [];
    u8 "**Step 2:** Divide both sides by 3";
    u8 "3x ÷ 3 = 3 ÷ 3";
    u8 "x = 1";
    [];
    u8 "**Step 3:** Verify the solution";
    u8 "Substitute x = 1 back into the original equation:";
    u8 "3(1) + 7 = 3 + 7 = 10 ✓";
    [];
    u8 "**Answer:** x = 1"
  ])
  else
  match equation_search question with
  | None => Ok (_solve_general_math_comprehensive question)
  | Some (g1, g2) =>
    let left_side := strip g1 in
    let right_side := strip g2 in
    _solve_linear_equation_pattern left_side right_side question
  end.

(** *** Arithmetic *)

Definition is_arith_op (c : char) : bool := mem c (u8 "+-*/×÷").

(** [^\s*\d+\s*[+\-*/×÷]\s*\d+\s*$] *)
Definition simple_arithmetic : re :=
  seq [Bol; Star space; plus digit; Star space; Sym is_arith_op; Star space;
       plus digit; Star space; Eol].

Definition _is_simple_arithmetic (question : str) : bool :=
  search simple_arithmetic (strip question).

(** [re.search(r'(\d+)\s*([+\-*/×÷])\s*(\d+)', s)] and its three groups:
    the match that starts at the front of [s], then the leftmost one. *)
Definition arithmetic_at (s : str) : option (str * char * str) :=
  let '(num1, s) := span isdigit s in
  match num1, lstrip s with
  | _ :: _, op :: s =>
    if is_arith_op op then
      let '(num2, _) := span isdigit (lstrip s) in
      match num2 with
      | _ :: _ => Some (num1, op, num2)
      | [] => None
      end
    else None
  | _, _ => None
  end.

Fixpoint arithmetic_search (s : str) : option (str * char * str) :=
  match arithmetic_at s with
  | Some groups => Some groups
  | None =>
    match s with
    | [] => None
    | _ :: s' => arithmetic_search s'
    end
  end.

Definition division_by_zero (question : str) : str :=
  unlines [
    u8 "## Solution for: " ++ question;
    [];
    u8 "**Error:** Division by zero is undefined in mathematics.";
    u8 "You cannot divide any number by zero."
  ].

Definition solved_arithmetic (question : str) (num1 num2 : Z) (operator : char)
           (operation : str) (explanation : res str) (result : number)
  : res str :=
  let* explanation := explanation in
  let* num1 := Num.str_int num1 in
  let* num2 := Num.str_int num2 in
  let* result := show_number result in
  Ok (unlines [
    u8 "## Step-by-Step Solution for: " ++ question;
    [];
    u8 "**Problem:** " ++ num1 ++ u8 " " ++ [operator] ++ u8 " " ++ num2;
    [];
    u8 "**Step 1:** Identify the operation";
    u8 "This is a " ++ operation ++ u8 " problem.";
    [];
    u8 "**Step 2:** Apply the operation";
    explanation ++ u8 ":";
    num1 ++ u8 " " ++ [operator] ++ u8 " " ++ num2 ++ u8 " = " ++ result;
    [];
    u8 "**Step 3:** Verify the result";
    u8 "The calculation is correct: " ++ result;
    [];
    u8 "**Answer:** " ++ result
  ]).

Definition _solve_arithmetic_comprehensive (question : str) : res str :=
  match arithmetic_search (strip question) with
  | Some (num1, operator, num2) =>
    let* num1 := Num.int num1 in
    let* num2 := Num.int num2 in
    (* op_map = {'×': '*', '÷': '/'} *)
    let operator :=
      if operator =? 0xD7 then cp "*"
      else if operator =? 0xF7 then cp "/"
      else operator in
    let solved := solved_arithmetic question num1 num2 operator in
    try_except
      (if operator =? cp "+" then
         solved (u8 "addition")
                (let* n1 := Num.str_int num1 in
                 let* n2 := Num.str_int num2 in
                 Ok (u8 "Add " ++ n1 ++ u8 " and " ++ n2))
                (Int (num1 + num2))
       else if operator =? cp "-" then
         solved (u8 "subtraction")
                (let* n2 := Num.str_int num2 in
                 let* n1 := Num.str_int num1 in
                 Ok (u8 "Subtract " ++ n2 ++ u8 " from " ++ n1))
                (Int (num1 - num2))
       else if operator =? cp "*" then
         solved (u8 "multiplication")
                (let* n1 := Num.str_int num1 in
                 let* n2 := Num.str_int num2 in
                 Ok (u8 "Multiply " ++ n1 ++ u8 " by " ++ n2))
                (Int (num1 * num2))
       else if operator =? cp "/" then
         if (num2 =? 0)%Z then Ok (division_by_zero question)
         else
           let* result := Num.truediv num1 num2 in
           solved (u8 "division")
                  (let* n1 := Num.str_int num1 in
                   let* n2 := Num.str_int num2 in
                   Ok (u8 "Divide " ++ n1 ++ u8 " by " ++ n2))
                  (Float result)
       else
         Ok (u8 "## Solution for: " ++ question ++ [0x0A; 0x0A]
             ++ u8 "Unsupported operation: " ++ [operator]))
      (fun e =>
         Ok (u8 "## Solution for: " ++ question ++ [0x0A; 0x0A]
             ++ u8 "Error in calculation: " ++ exn_str e))
  | None =>
    Ok (u8 "## Solution for: " ++ question ++ [0x0A; 0x0A]
        ++ u8 "Could not parse the arithmetic expression.")
  end.

(** *** The dispatch *)

Definition _comprehensive_fallback_solution (question : str)
           (context : option str) : res str :=
  let question_lower := lower question in
  if contains (u8 "=") question then
    _solve_equation_comprehensive question
  else if _is_simple_arithmetic question then
    _solve_arithmetic_comprehensive question
  else if contains (u8 "derivative") question_lower
          || contains (u8 "differentiate") question_lower then
    Ok (_solve_derivative_comprehensive question)
  else if contains (u8 "integral") question_lower
          || contains (u8 "integrate") question_lower then
    Ok (_solve_integral_comprehensive question)
  else if any_in ["area"; "volume"; "circumference"; "perimeter"; "circle";
                  "triangle"; "rectangle"] question_lower then
    Ok (_solve_geometry_comprehensive question)
  else if contains (u8 "%") question || contains (u8 "percent") question_lower
  then
    Ok (_solve_percentage_comprehensive question)
  else if any_in ["+"; "-"; "*"; "/"; "×"; "÷"] question
          || any_in ["add"; "subtract"; "multiply"; "divide"; "plus"; "minus";
                     "times"] question_lower then
    Ok (_solve_general_arithmetic question)
  else
    Ok (_solve_general_math_comprehensive question).

(** [generate_step_by_step_solution]: the generative model first, when a
    key is configured, then the fallback. *)
Definition truthy (o : option str) : bool :=
  match o with Some s => nonempty s | None => false end.

Definition generate_step_by_step_solution (g : Gemini) (question : str)
           (context : option str) : res str :=
  let fallback := _comprehensive_fallback_solution question context in
  let prompt := _create_math_prompt question context in
  let formatted text := Ok (_format_gemini_response text question) in
  let through_sdk :=
    if has_model g then
      match sdk_generate g prompt with
      | Ok (Some text) => if nonempty text then formatted text else fallback
      | Ok None => fallback
      | Raise _ => fallback
      end
    else fallback in
  if truthy (api_key g)
     && negb (Py.eqb (default [] (api_key g)) (u8 "your_gemini_api_key_here"))
  then
    match direct_api g prompt with
    | Ok (Some gemini_response) =>
      if nonempty gemini_response then formatted gemini_response
      else through_sdk
    | Ok None => through_sdk
    | Raise _ => through_sdk
    end
  else fallback.

End WithRuntime.
End LLM.

(** ** [core/feedback.py] *)

Module QueryLog.
Record t := {
  query_id : Py.str;
  question : Py.str;
  answer : Py.str;
  confidence : float;
  sources : list Py.str;
  user_id : option Py.str;
  timestamp : N;
  reasoning_steps : option (list Py.str)
}.
End QueryLog.

Module FeedbackType.
Inductive t := POSITIVE | NEGATIVE | CORRECTION | CLARIFICATION.

Definition value (x : t) : Py.str :=
  Py.u8 match x with
        | POSITIVE => "positive"
        | NEGATIVE => "negative"
        | CORRECTION => "correction"
        | CLARIFICATION => "clarification"
        end.

(** [FeedbackType(s)]: the member with that value; [None] stands for the
    [ValueError] that the caller catches. *)
Definition of_value (s : Py.str) : option t :=
  find (fun x => Py.eqb (value x) s)
       [POSITIVE; NEGATIVE; CORRECTION; CLARIFICATION].
End FeedbackType.

Module FeedbackEntry.
Record t := {
  feedback_id : Py.str;
  query_id : Py.str;
  feedback_type : FeedbackType.t;
  feedback_text : option Py.str;
  corrected_answer : option Py.str;
  user_id : option Py.str;
  timestamp : N;
  processed : bool
}.

(** [entry.processed = True] *)
Definition mark_processed (e : t) : t :=
  {| feedback_id := feedback_id e; query_id := query_id e;
     feedback_type := feedback_type e; feedback_text := feedback_text e;
     corrected_answer := corrected_answer e; user_id := user_id e;
     timestamp := timestamp e; processed := true |}.
End FeedbackEntry.

Module FeedbackProcessingResult.
Record t := {
  feedback_id : Py.str;
  success : bool;
  message : Py.str;
  actions_taken : list Py.str
}.
End FeedbackProcessingResult.

(** The persistent store behind [db_manager], and what the surroundings
    decide during one request: whether [get_database()] raises, returns
    nothing or returns a connection, whether the statements sent over the
    connection go through, the UUID that is drawn and the time. *)
Module Database.
Import Py.

Record Store := {
  query_logs : gmap str QueryLog.t;
  feedback : gmap str FeedbackEntry.t
}.

Record World := {
  get_database : res bool;
  reads_succeed : bool;
  writes_succeed : bool;
  uuid4 : str;
  now : N
}.

(** [db_manager.get_query_log]: a failing statement is logged and gives
    [None]. *)
Definition get_query_log (w : World) (db : Store) (query_id : str)
  : option QueryLog.t :=
  if reads_succeed w then query_logs db !! query_id else None.

(** [db_manager.store_query_log] and [db_manager.store_feedback]: the
    identifier column is unique, and a failing insertion is logged. *)
Definition store_query_log (w : World) (db : Store) (q : QueryLog.t) : Store :=
  if writes_succeed w then
    match query_logs db !! QueryLog.query_id q with
    | Some _ => db
    | None =>
      {| query_logs := <[QueryLog.query_id q := q]> (query_logs db);
         feedback := feedback db |}
    end
  else db.

Definition store_feedback (w : World) (db : Store) (f : FeedbackEntry.t)
  : Store :=
  if writes_succeed w then
    match feedback db !! FeedbackEntry.feedback_id f with
    | Some _ => db
    | None =>
      {| query_logs := query_logs db;
         feedback := <[FeedbackEntry.feedback_id f := f]> (feedback db) |}
    end
  else db.

End Database.

Module FeedbackManager.
Import Py Database.

(** The fields of [self]. *)
Record t := {
  query_logs : gmap str QueryLog.t;
  feedback_entries : gmap str FeedbackEntry.t;
  learning_enabled : bool
}.

(** [FeedbackManager()] *)
Definition __init__ : t :=
  {| query_logs := ∅; feedback_entries := ∅; learning_enabled := true |}.

Definition truthy (o : option str) : bool :=
  match o with Some s => nonempty s | None => false end.

Definition str_of_nat (n : nat) : str := Num.str_of_int (Z.of_nat n).

Definition has_sources (q : QueryLog.t) : bool :=
  match QueryLog.sources q with [] => false | _ => true end.

Definition _handle_positive_feedback (self : t) (feedback : FeedbackEntry.t)
           (query_log : QueryLog.t) : list str :=
  if learning_enabled self then
    [u8 "Reinforced successful response pattern"]
    ++ (if has_sources query_log
        then [u8 "Marked "
              ++ str_of_nat (length (QueryLog.sources query_log))
              ++ u8 " sources as reliable"]
        else [])
    ++ [u8 "Updated confidence scoring for similar queries"]
  else [].

Definition _handle_negative_feedback (self : t) (feedback : FeedbackEntry.t)
           (query_log : QueryLog.t) : list str :=
  if learning_enabled self then
    [u8 "Flagged response pattern for review"]
    ++ (if has_sources query_log
        then [u8 "Reduced confidence in "
              ++ str_of_nat (length (QueryLog.sources query_log))
              ++ u8 " sources"]
        else [])
    ++ (if PrimFloat.ltb 0.7 (QueryLog.confidence query_log)
        then [u8 "Queued high-confidence incorrect answer for manual review"]
        else [])
  else [].

Definition _handle_correction_feedback (self : t) (feedback : FeedbackEntry.t)
           (query_log : QueryLog.t) : list str :=
  if truthy (FeedbackEntry.corrected_answer feedback) && learning_enabled self
  then
    [u8 "Stored corrected answer for future reference";
     u8 "Added correction to knowledge base"]
    ++ (if PrimFloat.ltb 0.6 (QueryLog.confidence query_log)
           && has_sources query_log
        then [u8 "Flagged original sources for accuracy review"]
        else [])
  else [].

Definition _handle_clarification_feedback (self : t)
           (feedback : FeedbackEntry.t) (query_log : QueryLog.t) : list str :=
  if truthy (FeedbackEntry.feedback_text feedback) && learning_enabled self
  then
    [u8 "Analyzed clarification requirements";
     u8 "Marked original response as potentially unclear";
     u8 "Queued for response clarity improvement"]
  else [].

Definition _process_feedback_by_type (self : t) (feedback : FeedbackEntry.t)
           (query_log : QueryLog.t) : list str :=
  match FeedbackEntry.feedback_type feedback with
  | FeedbackType.POSITIVE => _handle_positive_feedback self feedback query_log
  | FeedbackType.NEGATIVE => _handle_negative_feedback self feedback query_log
  | FeedbackType.CORRECTION =>
    _handle_correction_feedback self feedback query_log
  | FeedbackType.CLARIFICATION =>
    _handle_clarification_feedback self feedback query_log
  end.

Definition _store_query_log_in_db := store_query_log.
Definition _store_feedback_in_db := store_feedback.
Definition _fetch_query_log_from_db := get_query_log.

(** [log_query]: the in-memory entry is written before the database is
    asked for, and an exception is raised again after it is logged. *)
Definition log_query (w : World) (self : t) (db : Store)
           (query_id question answer : str) (user_id : option str)
           (confidence : float) (sources : list str)
           (reasoning_steps : option (list str))
  : res QueryLog.t * t * Store :=
  let query_log :=
    {| QueryLog.query_id := query_id; QueryLog.question := question;
       QueryLog.answer := answer; QueryLog.confidence := confidence;
       QueryLog.sources := sources; QueryLog.user_id := user_id;
       QueryLog.timestamp := now w;
       QueryLog.reasoning_steps := reasoning_steps |} in
  let self :=
    {| query_logs := <[query_id := query_log]> (query_logs self);
       feedback_entries := feedback_entries self;
       learning_enabled := learning_enabled self |} in
  match get_database w with
  | Raise e => (Raise e, self, db)
  | Ok database =>
    let db :=
      if database then _store_query_log_in_db w db query_log else db in
    (Ok query_log, self, db)
  end.

Definition failure (feedback_id message : str) : FeedbackProcessingResult.t :=
  {| FeedbackProcessingResult.feedback_id := feedback_id;
     FeedbackProcessingResult.success := false;
     FeedbackProcessingResult.message := message;
     FeedbackProcessingResult.actions_taken := [] |}.

(** What the outermost [except Exception as e] returns. *)
Definition error_result {R : Runtime} (feedback_id : str) (e : exn)
  : FeedbackProcessingResult.t :=
  failure feedback_id (u8 "Error processing feedback: " ++ exn_str e).

(** [process_feedback] returns its result together with the manager and
    the store as it leaves them.  The entry that [feedback_entries] holds is
    the object that is later marked processed, so the mark shows in the
    dictionary; the row sent to the database before that is a copy. *)
Definition process_feedback {R : Runtime} (w : World) (self : t) (db : Store)
           (query_id feedback_type : str)
           (feedback_text corrected_answer user_id : option str)
  : FeedbackProcessingResult.t * t * Store :=
  let feedback_id := uuid4 w in
  match FeedbackType.of_value feedback_type with
  | None =>
    (failure feedback_id (u8 "Invalid feedback type: " ++ feedback_type),
     self, db)
  | Some fb_type =>
    let found : res (option QueryLog.t) :=
      match query_logs self !! query_id with
      | Some query_log => Ok (Some query_log)
      | None =>
        let* database := get_database w in
        Ok (if database then _fetch_query_log_from_db w db query_id
            else None)
      end in
    match found with
    | Raise e => (error_result feedback_id e, self, db)
    | Ok None =>
      (failure feedback_id (u8 "Query " ++ query_id ++ u8 " not found"),
       self, db)
    | Ok (Some query_log) =>
      let feedback_entry :=
        {| FeedbackEntry.feedback_id := feedback_id;
           FeedbackEntry.query_id := query_id;
           FeedbackEntry.feedback_type := fb_type;
           FeedbackEntry.feedback_text := feedback_text;
           FeedbackEntry.corrected_answer := corrected_answer;
           FeedbackEntry.user_id := user_id;
           FeedbackEntry.timestamp := now w;
           FeedbackEntry.processed := false |} in
      let self :=
        {| query_logs := query_logs self;
           feedback_entries :=
             <[feedback_id := feedback_entry]> (feedback_entries self);
           learning_enabled := learning_enabled self |} in
      match get_database w with
      | Raise e => (error_result feedback_id e, self, db)
      | Ok database =>
        let db :=
          if database then _store_feedback_in_db w db feedback_entry
          else db in
        let actions_taken :=
          _process_feedback_by_type self feedback_entry query_log in
        let self :=
          {| query_logs := query_logs self;
             feedback_entries :=
               <[feedback_id := FeedbackEntry.mark_processed feedback_entry]>
                 (feedback_entries self);
             learning_enabled := learning_enabled self |} in
        ({| FeedbackProcessingResult.feedback_id := feedback_id;
            FeedbackProcessingResult.success := true;
            FeedbackProcessingResult.message :=
              u8 "Feedback processed successfully";
            FeedbackProcessingResult.actions_taken := actions_taken |},
         self, db)
      end
    end
  end.

(** [get_feedback_analytics].  The loops visit
    [self.feedback_entries.values()]; the dictionary is a finite map here,
    which gives its values in the order of the keys and not of the
    insertions: the numbers that are counted do not depend on the order.  A
    [datetime] is read as the count of its microseconds, so that
    [timedelta.days] is the floored quotient by a day.  The report is one of
    two dictionaries: that of a manager without feedback, and the counts. *)
Definition values (entries : gmap str FeedbackEntry.t)
  : list FeedbackEntry.t :=
  (map_to_list entries).*2.

(** [type_counts[fb_type] = type_counts.get(fb_type, 0) + 1] *)
Definition count_type (type_counts : gmap str nat)
           (feedback : FeedbackEntry.t) : gmap str nat :=
  let fb_type := FeedbackType.value (FeedbackEntry.feedback_type feedback) in
  <[fb_type := (default O (type_counts !! fb_type) + 1)%nat]> type_counts.

(** [(later - earlier).days] *)
Definition days_between (later earlier : N) : Z :=
  ((Z.of_N later - Z.of_N earlier) / 86400000000)%Z.

Inductive analytics :=
| NoFeedback
| Analytics (total_feedback : nat) (feedback_by_type : gmap str nat)
            (processed_count recent_feedback_count : nat).

Definition get_feedback_analytics (w : World) (self : t) : analytics :=
  let total_feedback := size (feedback_entries self) in
  if (total_feedback =? 0)%nat then NoFeedback
  else
    let entries := values (feedback_entries self) in
    Analytics total_feedback
      (fold_left count_type entries ∅)
      (length (List.filter FeedbackEntry.processed entries))
      (length (List.filter
                 (fun f => (days_between (now w) (FeedbackEntry.timestamp f)
                            <? 7)%Z)
                 entries)).

End FeedbackManager.

(** ** [core/google_search.py] *)

Module GoogleSearch.
Import Py.

Record GoogleSearchResult := {
  title : str;
  snippet : str;
  link : str;
  display_link : str
}.

Record GoogleSearchResponse := {
  query : str;
  results : list GoogleSearchResult;
  total_results : Z;
  search_time : float;
  used_google_search : bool
}.

(** The service: whether the credentials are configured, and what the
    request of [_perform_search] comes back with. *)
Record GoogleSearchService := {
  enabled : bool;
  _perform_search : str -> res (option GoogleSearchResponse)
}.

(** A reference as [extract_references] builds it. *)
Record Reference := {
  ref_title : str;
  ref_url : str;
  ref_source : str;
  ref_snippet : str
}.

Section WithRuntime.
Context {R : Runtime}.

Definition _enhance_math_query (query : str) (context : option str) : str :=
  let math_terms := ["mathematics"; "math"; "solve"; "calculate"; "formula"] in
  let query_lower := lower query in
  let has_math_terms := any_in math_terms query_lower in
  let enhanced_query :=
    if negb has_math_terms then query ++ u8 " mathematics" else query in
  let enhanced_query :=
    match context with
    | Some c => if nonempty c then enhanced_query ++ u8 " " ++ c
                else enhanced_query
    | None => enhanced_query
    end in
  if (200 <? length enhanced_query)%nat then take 200 enhanced_query
  else enhanced_query.

Definition search_math_query (self : GoogleSearchService) (query : str)
           (context : option str) : option GoogleSearchResponse :=
  if negb (enabled self) then None
  else
    match _perform_search self (_enhance_math_query query context) with
    | Ok (Some search_results) => Some search_results
    | Ok None => None
    | Raise _ => None
    end.

End WithRuntime.

Definition has_results (r : option GoogleSearchResponse) : bool :=
  match r with
  | Some resp => match results resp with [] => false | _ => true end
  | None => false
  end.

Fixpoint format_from (i : nat) (rs : list GoogleSearchResult) : str :=
  match rs with
  | [] => []
  | result :: rs' =>
    [0x0A] ++ Num.str_of_int (Z.of_nat i) ++ u8 ". **" ++ title result
    ++ u8 "**" ++ [0x0A]
    ++ u8 "   " ++ snippet result ++ [0x0A]
    ++ u8 "   Source: " ++ display_link result ++ [0x0A]
    ++ format_from (S i) rs'
  end.

Definition format_results_for_gemini (search_response : option GoogleSearchResponse)
  : str :=
  match search_response with
  | Some resp =>
    match results resp with
    | [] => []
    | rs =>
      [0x0A] ++ u8 "**Additional Web Search Results:**" ++ [0x0A]
      ++ format_from 1 (take 3 rs)
    end
  | None => []
  end.

Definition extract_references (search_response : option GoogleSearchResponse)
  : list Reference :=
  match search_response with
  | Some resp =>
    map (fun result =>
           {| ref_title := title result;
              ref_url := link result;
              ref_source := u8 "Google Search";
              ref_snippet :=
                if (100 <? length (snippet result))%nat
                then take 100 (snippet result) ++ u8 "..."
                else snippet result |})
        (take 3 (results resp))
  | None => []
  end.

End GoogleSearch.

(** ** [core/web_search.py] *)

Module WebSearch.
Import Py.

Record SearchResult := {
  answer : str;
  confidence : float;
  sources : list str;
  query_id : str;
  reasoning_steps : option (list str)
}.

(** A reference as [_generate_dynamic_references] builds it. *)
Record Reference := {
  title : str;
  url : str;
  description : str
}.

Definition reference (t u d : str) : Reference :=
  {| title := t; url := u; description := d |}.

Section WithRuntime.
Context {R : Runtime}.

Definition plus_for_spaces (query : str) : str :=
  replace1 0x20 (u8 "+") query.

Definition _generate_dynamic_references (query : str) : list Reference :=
  let query_lower := lower query in
  let references :=
    if contains (u8 "solve") query_lower && contains (u8 "=") query then
      [reference (u8 "Equation Solver: " ++ query)
         (u8 "https://www.wolframalpha.com/input/?i="
          ++ replace1 (cp "=") (u8 "%3D") (plus_for_spaces query))
         (u8 "Step-by-step algebraic solution with verification");
       reference (u8 "Algebra Methods and Techniques")
         (u8 "https://www.khanacademy.org/math/algebra/x2f8bb11595b61c86:solve-equations")
         (u8 "Comprehensive guide to solving linear equations");
       reference (u8 "Equation Verification Calculator")
         (u8 "https://www.mathway.com/Algebra")
         (u8 "Verify your solution and explore alternative methods")]
    else if contains (u8 "derivative") query_lower then
      [reference (u8 "Derivative Calculator: " ++ query)
         (u8 "https://www.wolframalpha.com/input/?i=derivative+"
          ++ plus_for_spaces query)
         (u8 "Symbolic differentiation with step-by-step process");
       reference (u8 "Differentiation Rules Reference")
         (u8 "https://www.khanacademy.org/math/calculus-1/cs1-derivatives-definition-and-basic-rules")
         (u8 "Power rule, product rule, and chain rule explanations");
       reference (u8 "Calculus Problem Solver")
         (u8 "https://www.mathway.com/Calculus")
         (u8 "Interactive derivative calculator with graphing")]
    else if contains (u8 "integral") query_lower
            || contains (u8 "integrate") query_lower then
      [reference (u8 "Integration Calculator: " ++ query)
         (u8 "https://www.wolframalpha.com/input/?i=integrate+"
          ++ plus_for_spaces query)
         (u8 "Symbolic integration with detailed steps");
       reference (u8 "Integration Techniques Guide")
         (u8 "https://www.khanacademy.org/math/calculus-2/cs2-integration-techniques")
         (u8 "Substitution, integration by parts, and more");
       reference (u8 "Integral Table and Reference")
         (u8 "https://www.integral-table.com/")
         (u8 "Comprehensive table of common integrals")]
    else if any_in ["area"; "volume"; "circumference"; "perimeter"] query_lower
    then
      [reference (u8 "Geometry Calculator: " ++ query)
         (u8 "https://www.wolframalpha.com/input/?i=" ++ plus_for_spaces query)
         (u8 "Geometric calculations with formulas and diagrams");
       reference (u8 "Geometry Formulas Reference")
         (u8 "https://www.khanacademy.org/math/geometry")
         (u8 "Complete guide to geometric shapes and formulas");
       reference (u8 "Interactive Geometry Tool")
         (u8 "https://www.geogebra.org/geometry")
         (u8 "Visual geometry calculator and construction tool")]
    else
      [reference (u8 "Math Problem Solver: " ++ query)
         (u8 "https://www.wolframalpha.com/input/?i=" ++ plus_for_spaces query)
         (u8 "Computational mathematics engine");
       reference (u8 "Mathematics Learning Platform")
         (u8 "https://www.khanacademy.org/math")
         (u8 "Free courses and practice exercises");
       reference (u8 "Step-by-Step Math Solutions")
         (u8 "https://www.mathway.com/")
         (u8 "Instant math problem solver with explanations")] in
  take 3 references.

End WithRuntime.
End WebSearch.

(** ** [api/routes.py] *)

Module Routes.
Import Py Guardrails.

Record MathQuery := {
  question : str;
  context : option str;
  user_id : option str
}.

Record MathResponse := {
  answer : str;
  confidence : float;
  sources : list str;
  query_id : str;
  reasoning_steps : option (list str);
  used_google_search : bool;
  google_search_count : nat;
  kb_confidence : float
}.

(** The [detail] of an [HTTPException]: a text, or the dictionary of the
    rejection of a question that is not mathematical. *)
Inductive detail :=
| Text (s : str)
| NonMathematical (error message suggestion : str).

Inductive outcome :=
| Returned (response : MathResponse)
| HTTPException (status_code : N) (d : detail).

(** The calls to the collaborators, in the order they are made. *)
Inductive call :=
| KnowledgeBaseQuery (question : str) (context : option str)
| GoogleSearchQuery (query : str) (context : option str)
| GenerateSolution (question : str) (context : option str)
| SearchAndSynthesize (query : str) (context : option str).

(** What the collaborators answer during one request.  The knowledge base
    gives the confidence of its result, [None] when the result has none. *)
Record World := {
  knowledge_base : str -> option str -> option float;
  google_search_service : GoogleSearch.GoogleSearchService;
  llm_service : LLM.Gemini;
  web_search : str -> option str -> WebSearch.SearchResult;
  database : Database.World
}.

(** The object bound to [result]: the ad hoc one built after the solution
    is generated, or a [SearchResult], which lacks the last three
    attributes. *)
Record Result := {
  r_answer : str;
  r_confidence : float;
  r_sources : list str;
  r_query_id : str;
  r_reasoning_steps : option (list str);
  r_used_google_search : option bool;
  r_google_search_count : option nat;
  r_kb_confidence : option float
}.

Definition of_search_result (r : WebSearch.SearchResult) : Result :=
  {| r_answer := WebSearch.answer r;
     r_confidence := WebSearch.confidence r;
     r_sources := WebSearch.sources r;
     r_query_id := WebSearch.query_id r;
     r_reasoning_steps := WebSearch.reasoning_steps r;
     r_used_google_search := None;
     r_google_search_count := None;
     r_kb_confidence := None |}.

(** A merged reference: its title and its url. *)
Definition reference := (str * str)%type.

Definition google_count (data : option GoogleSearch.GoogleSearchResponse)
  : nat :=
  match data with
  | Some resp => length (GoogleSearch.results resp)
  | None => O
  end.

Section WithRuntime.
Context {R : Runtime}.

Definition solve_math_problem (w : World) (feedback_manager : FeedbackManager.t)
           (db : Database.Store) (query : MathQuery)
  : outcome * list call * FeedbackManager.t * Database.Store :=
  let filtered_query := InputFilter.process (question query) in
  if negb (is_safe filtered_query) then
    (if existsb (Py.eqb (u8 "non_mathematical")) (issues filtered_query)
     then HTTPException 400
            (NonMathematical
               (u8 "Non-mathematical question")
               (message filtered_query)
               (u8 "Try asking questions like 'Solve 2x + 5 = 13' or 'What is the derivative of x^2?'"))
     else HTTPException 400 (Text (message filtered_query)),
     [], feedback_manager, db)
  else
  let question' := content filtered_query in
  (* STEP 1 *)
  let kb_confidence :=
    default 0.0%float (knowledge_base w question' (context query)) in
  let calls := [KnowledgeBaseQuery question' (context query)] in
  (* STEP 2 *)
  let '(google_search_data, additional_context, calls) :=
    if PrimFloat.ltb kb_confidence 0.7 then
      let data :=
        GoogleSearch.search_math_query (google_search_service w) question'
                                       (context query) in
      (data,
       if GoogleSearch.has_results data
       then GoogleSearch.format_results_for_gemini data else [],
       calls ++ [GoogleSearchQuery question' (context query)])
    else (None, [], calls) in
  (* STEP 3 *)
  let enhanced_context := default [] (context query) ++ additional_context in
  let llm_context :=
    if nonempty enhanced_context then Some enhanced_context else None in
  let calls := calls ++ [GenerateSolution question' llm_context] in
  let '(result, calls) :=
    match LLM.generate_step_by_step_solution (llm_service w) question'
                                             llm_context with
    | Ok llm_answer =>
      (* STEP 4 *)
      let references : list reference :=
        map (fun r => (WebSearch.title r, WebSearch.url r))
            (WebSearch._generate_dynamic_references question') in
      let references :=
        if GoogleSearch.has_results google_search_data then
          let google_refs :=
            map (fun r => (GoogleSearch.ref_title r, GoogleSearch.ref_url r))
                (GoogleSearch.extract_references google_search_data) in
          take 2 google_refs ++ take 1 references
        else references in
      (* STEP 5 *)
      let reasoning_steps :=
        [u8 "Processed mathematical question through AI system";
         u8 "Searched knowledge base (confidence: "
         ++ Num.format_2f kb_confidence ++ u8 ")"]
        ++ (if GoogleSearch.has_results google_search_data
            then [u8 "Enhanced with Google search ("
                  ++ Num.str_of_int (Z.of_nat (google_count google_search_data))
                  ++ u8 " results)"]
            else [])
        ++ [u8 "Generated comprehensive step-by-step solution";
            u8 "Provided verification and detailed explanation";
            u8 "Added relevant mathematical resources and references"] in
      ({| r_answer := llm_answer;
          r_confidence :=
            if contains (u8 "Gemini AI") llm_answer then 0.90%float
            else 0.75%float;
          r_sources := map fst (take 3 references);
          r_query_id := Database.uuid4 (database w);
          r_reasoning_steps := Some reasoning_steps;
          r_used_google_search :=
            Some (GoogleSearch.has_results google_search_data);
          r_google_search_count :=
            Some (if GoogleSearch.has_results google_search_data
                  then google_count google_search_data else O);
          r_kb_confidence := Some kb_confidence |},
       calls)
    | Raise _ =>
      (of_search_result (web_search w question' (context query)),
       calls ++ [SearchAndSynthesize question' (context query)])
    end in
  let filtered_output := OutputFilter.process (r_answer result) in
  if negb (is_safe filtered_output) then
    (HTTPException 500 (Text (u8 "Generated response failed safety checks")),
     calls, feedback_manager, db)
  else
  let response :=
    {| answer := content filtered_output;
       confidence := r_confidence result;
       sources := r_sources result;
       query_id := r_query_id result;
       reasoning_steps := r_reasoning_steps result;
       used_google_search := default false (r_used_google_search result);
       google_search_count := default O (r_google_search_count result);
       kb_confidence := default 0.0%float (r_kb_confidence result) |} in
  match FeedbackManager.log_query (database w) feedback_manager db
          (query_id response) (question query) (answer response)
          (user_id query) 0.0 [] None with
  | (Ok _, feedback_manager, db) =>
    (Returned response, calls, feedback_manager, db)
  | (Raise e, feedback_manager, db) =>
    let error_message :=
      if nonempty (exn_str e) then exn_str e
      else u8 "Unknown error of type " ++ exn_name e in
    (HTTPException 500 (Text (u8 "Error processing query: " ++ error_message)),
     calls, feedback_manager, db)
  end.

(** [/feedback]: the handler answers with the same message whatever the
    result says. *)
Definition submit_feedback (w : Database.World)
           (feedback_manager : FeedbackManager.t) (db : Database.Store)
           (query_id feedback_type : str)
           (feedback_text corrected_answer user_id : option str)
  : (str * str) * FeedbackManager.t * Database.Store :=
  let '(result, feedback_manager, db) :=
    FeedbackManager.process_feedback w feedback_manager db query_id
      feedback_type feedback_text corrected_answer user_id in
  ((u8 "Feedback received successfully",
    FeedbackProcessingResult.feedback_id result), feedback_manager, db).

End WithRuntime.
End Routes.

(* ================================================================== *)
(** * Part II: the properties *)
(* ================================================================== *)

Import Py Re Guardrails LLM.

(** ** The vocabulary of the statements *)

(** A runtime whose tables hold nothing above U+00FF, with the limit on the
    digits of an [int] that the interpreter starts with.  The examples below
    are Latin-1 texts and integral floats, which never reach the tables. *)
Definition bare : Runtime.
Proof.
  refine {| uni_decimal := fun _ => None;
            uni_isalnum := fun _ => false;
            uni_tolower := fun c => c;
            uni_lower := fun c => [c];
            float_repr_general := fun _ => [];
            str_repr := fun s => s;
            int_max_str_digits := 4300 |}.
  discriminate.
Defined.

(** A confidence that callers may read as a probability. *)
Definition in_unit_interval (x : float) : Prop :=
  PrimFloat.leb 0 x = true /\ PrimFloat.leb x 1 = true.

(** A call that returns, and returns a text that is not empty. *)
Definition answers (r : res str) : Prop :=
  exists text, r = Ok text /\ nonempty text = true.


Definition digits {R : Runtime} (s : str) : Prop :=
  s <> [] /\ Forall (fun c => isdigit c = true) s.

Definition zeros {R : Runtime} (z : str) : Prop :=
  z <> [] /\ Forall (fun c => decimal c = Some 0) z.



(** A text that starts and ends outside white space. *)
Definition trimmed (s : str) : Prop :=
  exists c t d u, s = c :: t /\ rev s = d :: u
                  /\ isspace c = false /\ isspace d = false.

(** The [query_id] resolves to a logged query: in the in-memory cache, or
    else in the persistent store, over a connection that is obtained. *)
Definition resolves (w : Database.World) (self : FeedbackManager.t)
           (db : Database.Store) (query_id : str) (query_log : QueryLog.t)
  : Prop :=
  FeedbackManager.query_logs self !! query_id = Some query_log
  \/ (FeedbackManager.query_logs self !! query_id = None
      /\ Database.get_database w = Ok true
      /\ Database.get_query_log w db query_id = Some query_log).

(** A manager that has logged one query, an empty store that gives no
    connection, and the identifier and the time of the next request. *)
Definition example_query_log : QueryLog.t :=
  {| QueryLog.query_id := u8 "q1";
     QueryLog.question := u8 "2 + 2";
     QueryLog.answer := u8 "4";
     QueryLog.confidence := 0.75;
     QueryLog.sources := [];
     QueryLog.user_id := None;
     QueryLog.timestamp := 0;
     QueryLog.reasoning_steps := None |}.

Definition example_manager : FeedbackManager.t :=
  {| FeedbackManager.query_logs := {[ u8 "q1" := example_query_log ]};
     FeedbackManager.feedback_entries := ∅;
     FeedbackManager.learning_enabled := true |}.

Definition example_store : Database.Store :=
  {| Database.query_logs := ∅; Database.feedback := ∅ |}.

Definition example_world : Database.World :=
  {| Database.get_database := Ok false;
     Database.reads_succeed := true;
     Database.writes_succeed := true;
     Database.uuid4 := u8 "f1";
     Database.now := 1 |}.

(** The same surroundings with a connection to the database, and with a
    database that cannot be reached. *)
Definition connected_world : Database.World :=
  {| Database.get_database := Ok true;
     Database.reads_succeed := true;
     Database.writes_succeed := true;
     Database.uuid4 := u8 "f1";
     Database.now := 1 |}.

Definition unreachable_world : Database.World :=
  {| Database.get_database :=
       Raise (Error (u8 "ConnectionError") (u8 "database is down"));
     Database.reads_succeed := false;
     Database.writes_succeed := false;
     Database.uuid4 := u8 "f1";
     Database.now := 1 |}.

(** The sum of the counts of a dictionary of counts. *)
Definition sum_counts (counts : gmap str nat) : nat :=
  map_fold (fun _ n total => (n + total)%nat) O counts.

(** A request for which the web search gives exactly one result: the
    knowledge base is not confident, the search service is configured, no
    key of the generative model is. *)
Definition one_result : GoogleSearch.GoogleSearchResponse :=
  {| GoogleSearch.query := u8 "2 + 2 mathematics";
     GoogleSearch.results :=
       [{| GoogleSearch.title := u8 "Addition - Wikipedia";
           GoogleSearch.snippet := u8 "Addition is one of the four basic operations of arithmetic.";
           GoogleSearch.link := u8 "https://en.wikipedia.org/wiki/Addition";
           GoogleSearch.display_link := u8 "en.wikipedia.org" |}];
     GoogleSearch.total_results := 1;
     GoogleSearch.search_time := 0.25;
     GoogleSearch.used_google_search := true |}.

Definition one_result_world : Routes.World :=
  {| Routes.knowledge_base := fun _ _ => Some 0.1%float;
     Routes.google_search_service :=
       {| GoogleSearch.enabled := true;
          GoogleSearch._perform_search := fun _ => Ok (Some one_result) |};
     Routes.llm_service :=
       {| LLM.api_key := None; LLM.has_model := false;
          LLM.direct_api := fun _ => Ok None;
          LLM.sdk_generate := fun _ => Ok None |};
     Routes.web_search := fun _ _ =>
       {| WebSearch.answer := []; WebSearch.confidence := 0;
          WebSearch.sources := []; WebSearch.query_id := [];
          WebSearch.reasoning_steps := None |};
     Routes.database := example_world |}.

(** The same services behind a knowledge base that is confident. *)
Definition confident_world : Routes.World :=
  {| Routes.knowledge_base := fun _ _ => Some 0.8%float;
     Routes.google_search_service :=
       Routes.google_search_service one_result_world;
     Routes.llm_service := Routes.llm_service one_result_world;
     Routes.web_search := Routes.web_search one_result_world;
     Routes.database := example_world |}.

(** The same services with a key of the generative model, whose direct
    call answers. *)
Definition gemini_world : Routes.World :=
  {| Routes.knowledge_base := fun _ _ => Some 0.1%float;
     Routes.google_search_service :=
       Routes.google_search_service one_result_world;
     Routes.llm_service :=
       {| LLM.api_key := Some (u8 "a-key"); LLM.has_model := false;
          LLM.direct_api := fun _ => Ok (Some (u8 "2 + 2 = 4"));
          LLM.sdk_generate := fun _ => Ok None |};
     Routes.web_search := Routes.web_search one_result_world;
     Routes.database := example_world |}.

Definition two_plus_two : Routes.MathQuery :=
  {| Routes.question := u8 "2 + 2"; Routes.context := None;
     Routes.user_id := None |}.

(** The calls to the search service among the calls of a request. *)
Definition google_calls (calls : list Routes.call) : list Routes.call :=
  List.filter (fun c => match c with
                        | Routes.GoogleSearchQuery _ _ => true
                        | _ => false
                        end) calls.

(** What the fallback solver writes for [2x + 5 = 13]. *)
Definition answer_2x_plus_5_is_13 : str :=
  unlines [
    u8 "## Step-by-Step Solution for: 2x + 5 = 13";
    [];
    u8 "**Given equation:** 2x + 5 = 13";
    [];
    u8 "**Step 1:** Isolate the variable term";
    u8 "Move the constant to the right side:";
    u8 "2x = 13 - (5)";
    u8 "2x = 8";
    [];
    u8 "**Step 2:** Solve for x";
    u8 "Divide both sides by 2:";
    u8 "x = 8 ÷ 2";
    u8 "x = 4.0";
    [];
    u8 "**Step 3:** Verify the solution";
    u8 "Substitute x = 4.0 back into the original equation:";
    u8 "2(4.0) + (5) = 13.0";
    u8 "13.0 = 13 ✓";
    [];
    u8 "**Answer:** x = 4.0"
  ].

(** Case analysis on the first condition met in the goal. *)
Ltac case_if :=
  lazymatch goal with
  | |- context [if ?b then _ else _] =>
    lazymatch b with
    | true => fail
    | false => fail
    | _ => destruct b eqn:?
    end
  end.

(** The four decisions of [InputFilter.process] after the length checks, in
    the order of the source; each leaves a goal that holds by computation. *)
Ltac input_cases :=
  destruct (_ <? InputFilter.min_length)%nat;
  [reflexivity|];
  destruct (existsb _ InputFilter.blocked_patterns);
  [reflexivity|];
  destruct (PrimFloat.ltb (InputFilter._calculate_enhanced_math_score _) _);
  [reflexivity|];
  destruct (InputFilter._contains_excessive_special_chars _);
  reflexivity.

(** Comparisons of code points that hold by arithmetic. *)
Ltac N_bools :=
  repeat match goal with
  | |- (_ || _) = false => apply orb_false_intro
  | |- (_ && _) = false =>
    apply andb_false_iff;
    first [left; apply N.leb_gt; lia | right; apply N.leb_gt; lia]
  | |- (_ =? _) = false => apply N.eqb_neq; lia
  end.


(** ** Strings *)

Section StringFacts.

Lemma lstrip_length (s : str) : (length (lstrip s) <= length s)%nat.
Proof.
  induction s as [|c s IH]; simpl; [lia|].
  destruct (isspace c); simpl; lia.
Qed.

Lemma strip_length (s : str) : (length (strip s) <= length s)%nat.
Proof.
  unfold strip, rstrip. rewrite length_rev.
  etransitivity; [apply lstrip_length|].
  rewrite length_rev. apply lstrip_length.
Qed.

Lemma nonempty_false (s : str) : nonempty s = false -> s = [].
Proof. destruct s; [reflexivity|discriminate]. Qed.

Lemma nonempty_app_l (a b : str) :
  nonempty a = true -> nonempty (a ++ b) = true.
Proof. destruct a; [discriminate|reflexivity]. Qed.

Lemma unlines_nonempty (l : str) (ls : list str) :
  nonempty l = true -> nonempty (unlines (l :: ls)) = true.
Proof.
  intros H. unfold unlines. simpl. destruct ls; [exact H|].
  apply nonempty_app_l, H.
Qed.

Lemma answers_ok (text : str) : nonempty text = true -> answers (Ok text).
Proof. intros H. exists text. split; [reflexivity|exact H]. Qed.

Lemma lstrip_head (c : char) (s : str) :
  isspace c = false -> lstrip (c :: s) = c :: s.
Proof. intros H. simpl. rewrite H. reflexivity. Qed.




Lemma span_spec (f : char -> bool) (s a b : str) :
  span f s = (a, b) -> Forall (fun c => f c = true) a /\ s = a ++ b.
Proof.
  revert a b. induction s as [|c s IH]; intros a b; simpl.
  - intros [= <- <-]. split; [constructor|reflexivity].
  - destruct (f c) eqn:Hc.
    + destruct (span f s) as [a' b'] eqn:Hs. intros [= <- <-].
      destruct (IH a' b' eq_refl) as [Ha ->].
      split; [constructor; assumption|reflexivity].
    + intros [= <- <-]. split; [constructor|reflexivity].
Qed.

Lemma span_run (f : char -> bool) (l t : str) :
  Forall (fun c => f c = true) l ->
  match t with c :: _ => f c = false | [] => True end ->
  span f (l ++ t) = (l, t).
Proof.
  intros Hl Ht. induction Hl as [|c l Hc Hl IH]; simpl.
  - destruct t as [|c t]; [reflexivity|]. simpl. rewrite Ht. reflexivity.
  - rewrite Hc, IH. reflexivity.
Qed.



End StringFacts.

(** A text whose first line starts with a literal is not empty. *)
Ltac nonempty_text :=
  repeat first [apply unlines_nonempty | apply nonempty_app_l];
  vm_compute; reflexivity.

Ltac answers_text := apply answers_ok; nonempty_text.

(** ** Strings: what stripping and searching keep *)

Section MoreStringFacts.
Context {R : Runtime}.

Lemma lstrip_is_suffix (s : str) : exists w, s = w ++ lstrip s.
Proof.
  induction s as [|c s [w IH]]; [exists []; reflexivity|].
  simpl. destruct (isspace c).
  - exists (c :: w). simpl. congruence.
  - exists []. reflexivity.
Qed.

Lemma lstrip_head_is_not_space (s : str) (c : char) (t : str) :
  lstrip s = c :: t -> isspace c = false.
Proof.
  induction s as [|d s IH]; simpl; [discriminate|].
  destruct (isspace d) eqn:Hd; [exact IH|].
  intros [= <- <-]. exact Hd.
Qed.

Lemma Forall_lstrip (P : char -> Prop) (s : str) :
  Forall P s -> Forall P (lstrip s).
Proof.
  intros H. destruct (lstrip_is_suffix s) as [w Hw].
  rewrite Hw in H. apply Forall_app in H. apply H.
Qed.

Lemma Forall_strip (P : char -> Prop) (s : str) :
  Forall P s -> Forall P (strip s).
Proof.
  intros H. unfold strip, rstrip.
  apply Forall_rev, Forall_lstrip, Forall_rev, Forall_lstrip, H.
Qed.

(** What [strip] returns is empty or starts and ends outside white space. *)
Lemma strip_is_trimmed (s : str) : strip s = [] \/ trimmed (strip s).
Proof.
  unfold strip, rstrip.
  destruct (lstrip (rev (lstrip s))) as [|d u] eqn:HM; [left; reflexivity|].
  right.
  pose proof (lstrip_head_is_not_space _ _ _ HM) as Hd.
  destruct (lstrip_is_suffix (rev (lstrip s))) as [w Hw].
  rewrite HM in Hw. apply (f_equal (@rev _)) in Hw.
  rewrite rev_involutive, rev_app_distr in Hw.
  destruct (rev (d :: u)) as [|c t] eqn:Hrev.
  { apply (f_equal (@length _)) in Hrev. rewrite length_rev in Hrev.
    discriminate. }
  exists c, t, d, u. split; [reflexivity|]. split.
  - rewrite <- Hrev. apply rev_involutive.
  - split; [|exact Hd].
    simpl in Hw. eapply lstrip_head_is_not_space, Hw.
Qed.

Lemma In_lstrip (x : char) (s : str) :
  In x s -> isspace x = false -> In x (lstrip s).
Proof.
  intros Hin Hx. induction s as [|d s IH]; [contradiction|].
  simpl. destruct (isspace d) eqn:Hd; [|exact Hin].
  destruct Hin as [->|Hin]; [congruence|]. apply IH, Hin.
Qed.

Lemma In_strip (x : char) (s : str) :
  In x s -> isspace x = false -> In x (strip s).
Proof.
  intros Hin Hx. unfold strip, rstrip.
  apply in_rev. rewrite rev_involutive.
  apply In_lstrip; [|exact Hx].
  apply -> in_rev. apply In_lstrip; assumption.
Qed.

Lemma lower_app (a b : str) : lower (a ++ b) = lower a ++ lower b.
Proof. unfold lower. apply flat_map_app. Qed.

Lemma startswith_app_l (p a t : str) :
  startswith p a = true -> startswith p (a ++ t) = true.
Proof.
  revert a. induction p as [|c p IH]; intros a; simpl; [reflexivity|].
  destruct a as [|d a]; simpl; [discriminate|].
  destruct (c =? d); [apply IH|discriminate].
Qed.

Lemma contains_app_l (sub a t : str) :
  contains sub a = true -> contains sub (a ++ t) = true.
Proof.
  induction a as [|c a IH]; simpl.
  - destruct (startswith sub []) eqn:Hs; [|discriminate].
    intros _. pose proof (startswith_app_l sub [] t Hs) as H. simpl in H.
    destruct t; simpl; rewrite H; reflexivity.
  - destruct (startswith sub (c :: a)) eqn:Hs.
    + intros _. pose proof (startswith_app_l sub (c :: a) t Hs) as H.
      simpl in H. rewrite H. reflexivity.
    + intros H. destruct (startswith sub (c :: a ++ t)); [reflexivity|].
      apply IH, H.
Qed.

Lemma contains_app_r (sub a t : str) :
  contains sub t = true -> contains sub (a ++ t) = true.
Proof.
  intros H. induction a as [|c a IH]; [exact H|].
  simpl. destruct (startswith sub (c :: a ++ t)); [reflexivity|exact IH].
Qed.

Lemma take_full_app (n : nat) (a b : str) :
  length a = n -> take n (a ++ b) = a.
Proof. intros <-. apply take_app_length. Qed.

Lemma existsb_count {A} (f : A -> bool) (l : list A) :
  existsb f l = true -> (0 <? count f l)%nat = true.
Proof.
  unfold count. induction l as [|x l IH]; simpl; [discriminate|].
  rewrite filter_cons. destruct (decide (f x = true)) as [Hx|Hx].
  - intros _. reflexivity.
  - destruct (f x); [contradiction|]. exact IH.
Qed.

Lemma filter_length_le {A} (f : A -> bool) (l : list A) :
  (length (List.filter f l) <= length l)%nat.
Proof.
  induction l as [|x l IH]; simpl; [lia|]. destruct (f x); simpl; lia.
Qed.

End MoreStringFacts.


(** ** The content classifier ([core/guardrails.py]) *)

Section Classifier.
Context {R : Runtime}.

(** C8 (as amended).  Every input text shorter than 3 characters is
    rejected by input-mode classification.  The reason code is
    [content_too_short] when the text holds a character that is not white
    space, and [empty_content] when it is empty or white space only: the
    emptiness test comes first in [InputFilter.process]. *)
Theorem C8_short_input_is_rejected (content : str) :
  (length content < 3)%nat ->
  is_safe (InputFilter.process content) = false
  /\ issues (InputFilter.process content) =
     [if nonempty (strip content) then u8 "content_too_short"
      else u8 "empty_content"].
Proof.
  intros Hlen. unfold InputFilter.process.
  destruct (nonempty content) eqn:Hc; simpl negb; simpl orb.
  - destruct (nonempty (strip content)) eqn:Hs; simpl negb; cbv iota.
    + pose proof (strip_length content) as Hle.
      replace (InputFilter.max_length <? length (strip content))%nat with false
        by (symmetry; apply Nat.ltb_ge; unfold InputFilter.max_length; lia).
      replace (length (strip content) <? InputFilter.min_length)%nat with true
        by (symmetry; apply Nat.ltb_lt; unfold InputFilter.min_length; lia).
      split; reflexivity.
    + split; reflexivity.
  - apply nonempty_false in Hc. subst content. split; reflexivity.
Qed.

(** The [content] of a result: cleaned on the one return that accepts. *)
Lemma process_content (content : str) :
  let r := InputFilter.process content in
  let text := take InputFilter.max_length (strip content) in
  Guardrails.content r =
    if is_safe r then InputFilter._clean_content text else text.
Proof.
  cbv zeta. unfold InputFilter.process.
  destruct (nonempty content) eqn:Hc; simpl negb; simpl orb.
  2:{ apply nonempty_false in Hc. subst. reflexivity. }
  destruct (nonempty (strip content)) eqn:Hs; simpl negb; cbv iota.
  2:{ apply nonempty_false in Hs. rewrite Hs. reflexivity. }
  destruct (InputFilter.max_length <? length (strip content))%nat eqn:Hlen.
  - input_cases.
  - rewrite (take_ge (strip content)) by (apply Nat.ltb_ge in Hlen; lia).
    input_cases.
Qed.

(** *** What the cleaning keeps *)

Lemma sub_spaces_plain (in_run : bool) (s : str) :
  Forall (fun c => isspace c = true -> c = 0x20) (sub_spaces in_run s).
Proof.
  revert in_run. induction s as [|c s IH]; intros in_run; simpl;
    [constructor|].
  destruct (isspace c) eqn:Hc.
  - destruct in_run; [apply IH|]. constructor; [reflexivity|apply IH].
  - constructor; [congruence|apply IH].
Qed.

Lemma filter_bool {A} (f : A -> bool) (l : list A) :
  filter (fun x => f x = true) l = List.filter f l.
Proof.
  induction l as [|x l IH]; [reflexivity|].
  rewrite filter_cons. simpl. rewrite IH.
  destruct (decide (f x = true)) as [Hx|Hx].
  - rewrite Hx. reflexivity.
  - destruct (f x); [contradiction|reflexivity].
Qed.

Section Kept.
Variable f : char -> bool.
Hypothesis f_not_space : forall c, f c = true -> isspace c = false.

Lemma filter_outside_space (c : char) : isspace c = true -> f c = false.
Proof.
  intros Hc. destruct (f c) eqn:Hf; [|reflexivity].
  apply f_not_space in Hf. congruence.
Qed.

Lemma filter_lstrip (s : str) : List.filter f (lstrip s) = List.filter f s.
Proof.
  induction s as [|c s IH]; [reflexivity|].
  simpl. destruct (isspace c) eqn:Hc; [|reflexivity].
  rewrite (filter_outside_space c Hc). exact IH.
Qed.

Lemma filter_strip (s : str) : List.filter f (strip s) = List.filter f s.
Proof.
  unfold strip, rstrip.
  rewrite filter_rev, filter_lstrip, filter_rev, rev_involutive.
  apply filter_lstrip.
Qed.

Lemma filter_sub_spaces (in_run : bool) (s : str) :
  List.filter f (sub_spaces in_run s) = List.filter f s.
Proof.
  revert in_run. induction s as [|c s IH]; intros in_run; [reflexivity|].
  simpl. destruct (isspace c) eqn:Hc.
  - rewrite (filter_outside_space c Hc).
    destruct in_run; [apply IH|].
    simpl. rewrite (filter_outside_space 0x20 eq_refl). apply IH.
  - simpl. rewrite IH. reflexivity.
Qed.

(** The cleaning keeps, in their order, the characters of a class that
    holds no white space and only characters that are kept. *)
Lemma clean_content_keeps (s : str) :
  (forall c, f c = true -> InputFilter.kept_char c = true) ->
  List.filter f (InputFilter._clean_content s) = List.filter f s.
Proof.
  intros Hkept. unfold InputFilter._clean_content.
  rewrite filter_strip, filter_bool.
  transitivity (List.filter f (sub_spaces false s));
    [|apply filter_sub_spaces].
  generalize (sub_spaces false s). intros l.
  induction l as [|c l IH]; [reflexivity|].
  simpl. destruct (InputFilter.kept_char c) eqn:Hc; simpl.
  - rewrite IH. reflexivity.
  - destruct (f c) eqn:Hf; [|exact IH].
    apply Hkept in Hf. congruence.
Qed.

End Kept.

Lemma operator_is_kept (c : char) :
  mem c (u8 "+-*/=<>") = true ->
  isspace c = false /\ InputFilter.kept_char c = true.
Proof.
  unfold mem. intros H. apply existsb_exists in H as (d & Hd & Hcd).
  apply N.eqb_eq in Hcd. subst d.
  assert (Hall : forallb (fun d => negb (isspace d)
                                   && InputFilter.kept_char d)
                         (u8 "+-*/=<>") = true)
    by (vm_compute; reflexivity).
  rewrite forallb_forall in Hall. specialize (Hall c Hd).
  apply andb_true_iff in Hall as [Hs Hk].
  apply negb_true_iff in Hs. split; assumption.
Qed.

(** *** White space after the cleaning *)

Lemma strip_is_infix (s : str) : exists w1 w2, s = w1 ++ strip s ++ w2.
Proof.
  unfold strip, rstrip.
  destruct (lstrip_is_suffix s) as [w1 H1].
  destruct (lstrip_is_suffix (rev (lstrip s))) as [w2 H2].
  exists w1, (rev w2). rewrite H1 at 1. f_equal.
  rewrite <- rev_app_distr, <- H2, rev_involutive. reflexivity.
Qed.

Lemma sub_spaces_head (s : str) (c : char) (t : str) :
  sub_spaces true s = c :: t -> isspace c = false.
Proof.
  induction s as [|d s IH]; simpl; [discriminate|].
  destruct (isspace d) eqn:Hd; [exact IH|].
  intros [= <- _]. exact Hd.
Qed.

(** After [re.sub(r'\s+', ' ', s)] no white space follows white space. *)
Lemma sub_spaces_no_pair (s : str) :
  forall (in_run : bool) (a : str) (c1 c2 : char) (b : str),
    sub_spaces in_run s = a ++ c1 :: c2 :: b ->
    isspace c1 = true -> isspace c2 = false.
Proof.
  induction s as [|d s IH]; intros in_run a c1 c2 b; simpl.
  - destruct a; discriminate.
  - destruct (isspace d) eqn:Hd.
    + destruct in_run; [apply IH|].
      destruct a as [|x a]; simpl.
      * intros [= <- H] _. eapply sub_spaces_head, H.
      * intros [= _ H]. eapply IH, H.
    + destruct a as [|x a]; simpl.
      * intros [= <- _] Hc. congruence.
      * intros [= _ H]. eapply IH, H.
Qed.

Lemma sub_spaces_kept (in_run : bool) (s : str) :
  Forall (fun c => InputFilter.kept_char c = true) s ->
  Forall (fun c => InputFilter.kept_char c = true) (sub_spaces in_run s).
Proof.
  intros H. revert in_run.
  induction H as [|c s Hc Hs IH]; intros in_run; simpl; [constructor|].
  destruct (isspace c).
  - destruct in_run; [apply IH|].
    constructor; [vm_compute; reflexivity|apply IH].
  - constructor; [exact Hc|apply IH].
Qed.

Lemma filter_all {A} (f : A -> bool) (l : list A) :
  Forall (fun x => f x = true) l -> List.filter f l = l.
Proof.
  induction 1 as [|x l Hx Hl IH]; simpl; [reflexivity|].
  rewrite Hx, IH. reflexivity.
Qed.

(** When the cleaning has nothing to delete, it leaves no two spaces
    side by side. *)
Lemma clean_content_collapsed (s : str) :
  Forall (fun c => InputFilter.kept_char c = true) s ->
  forall a b, InputFilter._clean_content s <> a ++ 0x20 :: 0x20 :: b.
Proof.
  intros Hs a b Heq. unfold InputFilter._clean_content in Heq.
  rewrite filter_bool, (filter_all _ _ (sub_spaces_kept false s Hs)) in Heq.
  destruct (strip_is_infix (sub_spaces false s)) as (w1 & w2 & Hw).
  rewrite Heq in Hw.
  replace (w1 ++ (a ++ 0x20 :: 0x20 :: b) ++ w2)
    with ((w1 ++ a) ++ 0x20 :: 0x20 :: (b ++ w2)) in Hw
    by (rewrite <- !app_assoc; reflexivity).
  apply sub_spaces_no_pair in Hw; [discriminate Hw|reflexivity].
Qed.

(** C9 (as amended).  For every input text, the [content] field of the
    result of input-mode classification is, when the result is accepted,
    the cleaned copy of the stripped text cut to 1000 characters.  That copy
    holds only characters that the cleaning keeps (word characters, white
    space and the signs [+ - * / = < > ( ) { } [ ] . , ? !]); it holds, in
    the order of the text, every kept character of the text that is not
    white space, and so every operator among [+ - * / = < >]; its only
    white space is the plain space, and none stands at either end; and when
    the text holds no character that is deleted, no two spaces stand side
    by side.  When the result is rejected the field is the stripped and cut
    text as it stands, not cleaned, which is the empty string for an empty
    or white-space-only text. *)
Theorem C9_content_is_cleaned_when_accepted (content : str) :
  let r := InputFilter.process content in
  let text := take InputFilter.max_length (strip content) in
  if is_safe r then
    Guardrails.content r = InputFilter._clean_content text
    /\ Forall (fun c => InputFilter.kept_char c = true) (Guardrails.content r)
    /\ List.filter (fun c => negb (isspace c)) (Guardrails.content r)
       = List.filter (fun c => negb (isspace c) && InputFilter.kept_char c)
                     text
    /\ List.filter (fun c => mem c (u8 "+-*/=<>")) (Guardrails.content r)
       = List.filter (fun c => mem c (u8 "+-*/=<>")) text
    /\ Forall (fun c => isspace c = true -> c = 0x20) (Guardrails.content r)
    /\ (Guardrails.content r = [] \/ trimmed (Guardrails.content r))
    /\ (Forall (fun c => InputFilter.kept_char c = true) text ->
        forall a b, Guardrails.content r <> a ++ 0x20 :: 0x20 :: b)
  else Guardrails.content r = text.
Proof.
  cbv zeta. rewrite (process_content content).
  destruct (is_safe (InputFilter.process content)); [|reflexivity].
  set (text := take InputFilter.max_length (strip content)).
  assert (Hkept : Forall (fun c => InputFilter.kept_char c = true)
                         (InputFilter._clean_content text)).
  { unfold InputFilter._clean_content. apply Forall_strip.
    rewrite Forall_forall. intros c Hc.
    apply list_elem_of_filter in Hc. apply Hc. }
  split; [reflexivity|]. split; [exact Hkept|]. split; [|split].
  - rewrite <- (clean_content_keeps
                  (fun c => negb (isspace c) && InputFilter.kept_char c)).
    + generalize (InputFilter._clean_content text) Hkept. intros l Hl.
      induction Hl as [|c l Hc Hl IH]; [reflexivity|].
      simpl. rewrite Hc, andb_true_r, IH. reflexivity.
    + intros c Hc. apply andb_true_iff in Hc as [Hc _].
      apply negb_true_iff, Hc.
    + intros c Hc. apply andb_true_iff in Hc as [_ Hc]. exact Hc.
  - apply clean_content_keeps; intros c Hc; apply operator_is_kept, Hc.
  - split; [|split].
    + unfold InputFilter._clean_content. apply Forall_strip.
      rewrite Forall_forall. intros c Hc.
      apply list_elem_of_filter in Hc as [_ Hc].
      revert c Hc. rewrite <- Forall_forall. apply sub_spaces_plain.
    + apply strip_is_trimmed.
    + apply clean_content_collapsed.
Qed.

(** *** The length of what is passed on *)

Lemma sub_spaces_length (in_run : bool) (s : str) :
  (length (sub_spaces in_run s) <= length s)%nat.
Proof.
  revert in_run. induction s as [|c s IH]; intros in_run; simpl; [lia|].
  pose proof (IH true). pose proof (IH false).
  destruct (isspace c); [destruct in_run|]; simpl; lia.
Qed.

Lemma clean_content_length (s : str) :
  (length (InputFilter._clean_content s) <= length s)%nat.
Proof.
  unfold InputFilter._clean_content.
  etransitivity; [apply strip_length|].
  etransitivity; [apply length_filter|].
  apply sub_spaces_length.
Qed.

(** The text that the classifier passes on has at most 1000 characters. *)
Lemma process_content_length (content : str) :
  (length (Guardrails.content (InputFilter.process content))
   <= InputFilter.max_length)%nat.
Proof.
  rewrite (process_content content).
  destruct (is_safe _).
  - etransitivity; [apply clean_content_length|].
    rewrite length_take. lia.
  - rewrite length_take. lia.
Qed.


Lemma input_confidence_in_unit_interval (content : str) :
  in_unit_interval (confidence (InputFilter.process content)).
Proof.
  unfold InputFilter.process.
  repeat (case_if; cbv beta iota zeta delta [confidence negb orb]);
    split; vm_compute; reflexivity.
Qed.

Lemma output_confidence_in_unit_interval (content : str) :
  in_unit_interval (confidence (OutputFilter.process content)).
Proof.
  unfold OutputFilter.process, OutputFilter.blocked_phrases.
  cbv beta iota zeta delta [fold_left OutputFilter.check_phrase].
  repeat (case_if; cbv beta iota zeta delta [confidence negb orb]);
    split; vm_compute; reflexivity.
Qed.

(** C10.  For every input text, input-mode and output-mode filtering both
    return a [FilterResult] whose confidence lies in the closed interval
    from 0 to 1. *)
Theorem C10_confidence_in_unit_interval (content : str) :
  in_unit_interval (confidence (InputFilter.process content))
  /\ in_unit_interval (confidence (OutputFilter.process content)).
Proof.
  split.
  - apply input_confidence_in_unit_interval.
  - apply output_confidence_in_unit_interval.
Qed.

End Classifier.

(** The two-letter text [hi] is shorter than 3 and is rejected as too
    short. *)
Lemma C8_witness :
  (length (u8 "hi") < 3)%nat
  /\ is_safe (InputFilter.process (R := bare) (u8 "hi")) = false
  /\ issues (InputFilter.process (R := bare) (u8 "hi")) =
     [u8 "content_too_short"].
Proof.
  split; [vm_compute; lia|].
  apply (C8_short_input_is_rejected (R := bare) (u8 "hi")).
  vm_compute; lia.
Defined.

(** C8 as stated fails on a text of one space: it is shorter than 3 and the
    reason code is [empty_content], not [content_too_short]. *)
Lemma C8_counterexample :
  (length (u8 " ") < 3)%nat
  /\ issues (InputFilter.process (R := bare) (u8 " ")) = [u8 "empty_content"]
  /\ ~ In (u8 "content_too_short")
          (issues (InputFilter.process (R := bare) (u8 " "))).
Proof.
  split; [vm_compute; lia|].
  split; [reflexivity|].
  vm_compute. intros [H|[]]. discriminate H.
Qed.

(** C9 as stated fails on a rejected text: [hack  #1] is returned as it was
    sent, while its cleaned copy has one space and no [#]. *)
Lemma C9_counterexample :
  let r := InputFilter.process (R := bare) (u8 "hack  #1") in
  is_safe r = false
  /\ Guardrails.content r = u8 "hack  #1"
  /\ InputFilter._clean_content (R := bare) (u8 "hack  #1") = u8 "hack 1"
  /\ Guardrails.content r
     <> InputFilter._clean_content (R := bare) (u8 "hack  #1").
Proof.
  cbv zeta. repeat split; try (vm_compute; reflexivity).
  vm_compute. discriminate.
Qed.

(** On [what  is 2 + 2], which holds nothing that the cleaning deletes,
    the two spaces become one and the operator stays. *)
Lemma C9_witness :
  let content := u8 "what  is 2 + 2" in
  let r := InputFilter.process (R := bare) content in
  let text := take InputFilter.max_length (strip content) in
  is_safe r = true
  /\ Forall (fun c => InputFilter.kept_char (R := bare) c = true) text
  /\ Guardrails.content r = u8 "what is 2 + 2"
  /\ forall a b, Guardrails.content r <> a ++ 0x20 :: 0x20 :: b.
Proof.
  cbv zeta.
  assert (Hsafe : is_safe (InputFilter.process (R := bare)
                             (u8 "what  is 2 + 2")) = true)
    by (vm_compute; reflexivity).
  assert (Hkept : Forall (fun c => InputFilter.kept_char (R := bare) c = true)
                         (take InputFilter.max_length
                               (strip (u8 "what  is 2 + 2")))).
  { apply List.Forall_forall, forallb_forall. vm_compute. reflexivity. }
  pose proof (C9_content_is_cleaned_when_accepted (R := bare)
                (u8 "what  is 2 + 2")) as H.
  cbv zeta in H. rewrite Hsafe in H.
  destruct H as (Hcontent & _ & _ & _ & _ & _ & Hcollapsed).
  split; [exact Hsafe|]. split; [exact Hkept|].
  split; [rewrite Hcontent; vm_compute; reflexivity|].
  exact (Hcollapsed Hkept).
Defined.

(** The cleaning deletes the multiplication sign [×], which the classifier
    reads as an operator when it scores the text, and leaves the two spaces
    that stood around it. *)
Lemma multiplication_sign_is_deleted :
  let r := InputFilter.process (R := bare) (u8 "2 × 3") in
  is_safe r = true /\ Guardrails.content r = u8 "2  3".
Proof. cbv zeta. split; vm_compute; reflexivity. Qed.

(** ** The fallback solver ([core/llm_service.py]) *)

Section Solver.
Context {R : Runtime}.

(** *** Every branch ends in a template *)

Lemma try_except_answers_with (body : res str) (handler : exn -> str) :
  (forall text, body = Ok text -> nonempty text = true) ->
  (forall e, nonempty (handler e) = true) ->
  answers (try_except body (fun e => Ok (handler e))).
Proof.
  intros Hbody Hh. destruct body as [text|e]; simpl.
  - apply answers_ok, Hbody. reflexivity.
  - apply answers_ok, Hh.
Qed.

Lemma try_except_answers (body : res str) (fallback : str) :
  (forall text, body = Ok text -> nonempty text = true) ->
  nonempty fallback = true ->
  answers (try_except body (fun _ => Ok fallback)).
Proof.
  intros Hbody Hfb. destruct body as [text|e]; simpl.
  - apply answers_ok, Hbody. reflexivity.
  - apply answers_ok, Hfb.
Qed.

Lemma generic_equation_nonempty (l r q : str) :
  nonempty (generic_equation l r q) = true.
Proof. unfold generic_equation. nonempty_text. Qed.

Lemma linear_equation_answers (left_side right_side question : str) :
  answers (_solve_linear_equation_pattern left_side right_side question).
Proof.
  unfold _solve_linear_equation_pattern.
  destruct (linear_pattern _) as [[[coeff_str operator] constant_str]|].
  - apply try_except_answers; [|apply generic_equation_nonempty].
    intros text.
    destruct (if nonempty coeff_str then Num.int coeff_str else Ok 1%Z);
      [|discriminate]; simpl.
    destruct (Num.int constant_str); [|discriminate]; simpl.
    destruct (Num.int (strip right_side)); [|discriminate]; simpl.
    destruct (Num.truediv _ _); [|discriminate]; simpl.
    destruct (Num.int_mul_float _ _); [|discriminate]; simpl.
    destruct (Num.float_add_int _ _); [|discriminate]; simpl.
    unfold solved_equation.
    repeat (destruct (Num.str_int _); [|discriminate]; cbn [bind]).
    intros [= <-]. nonempty_text.
  - apply answers_ok, generic_equation_nonempty.
Qed.

Lemma equation_answers (question : str) :
  answers (_solve_equation_comprehensive question).
Proof.
  unfold _solve_equation_comprehensive.
  destruct (_ || _).
  - answers_text.
  - destruct (equation_search question) as [[g1 g2]|].
    + apply linear_equation_answers.
    + unfold _solve_general_math_comprehensive. answers_text.
Qed.

(** *** Numerals *)

Lemma isdigit_cases (c : char) :
  isdigit c = true ->
  (0x30 <= c <= 0x39) \/ (0x100 <= c /\ exists v, uni_decimal c = Some v).
Proof.
  unfold isdigit, decimal. destruct (c <? 0x100) eqn:Hc.
  - destruct (between 0x30 0x39 c) eqn:Hb; [|discriminate].
    intros _. left. unfold between in Hb.
    apply andb_true_iff in Hb as [H1 H2].
    apply N.leb_le in H1, H2. lia.
  - destruct (uni_decimal c) eqn:Hu; [|discriminate].
    intros _. right. apply N.ltb_ge in Hc. eauto.
Qed.

Lemma isdigit_not_space (c : char) : isdigit c = true -> isspace c = false.
Proof.
  intros H. destruct (isdigit_cases c H) as [Hc|[_ [v Hv]]].
  - unfold isspace, between. N_bools.
  - eapply uni_decimal_not_space, Hv.
Qed.


(** A digit is none of the Latin-1 marks that the patterns name. *)
Lemma isdigit_not_mark (c m : char) :
  isdigit c = true -> m < 0x30 \/ 0x39 < m < 0x100 -> (c =? m) = false.
Proof.
  intros H Hm. apply N.eqb_neq.
  destruct (isdigit_cases c H) as [Hc|[Hc _]]; lia.
Qed.

Lemma strip_digits (s : str) : digits s -> strip s = s.
Proof.
  intros [Hne Hd]. unfold strip, rstrip.
  destruct s as [|c r]; [contradiction|].
  rewrite lstrip_head by (apply isdigit_not_space; inversion Hd; assumption).
  apply Forall_rev in Hd.
  destruct (rev (c :: r)) as [|d t] eqn:Hrev.
  - apply (f_equal (@length _)) in Hrev. rewrite length_rev in Hrev.
    discriminate.
  - rewrite lstrip_head by (apply isdigit_not_space; inversion Hd; assumption).
    rewrite <- Hrev. apply rev_involutive.
Qed.

Lemma int_digits_total (s : str) (acc : Z) :
  digits s -> exists v, Num.int_digits acc s = Some v.
Proof.
  intros [Hne Hd]. revert acc Hne.
  induction Hd as [|c r Hc Hr IH]; intros acc Hne; [contradiction|].
  cbn [Num.int_digits].
  unfold isdigit in Hc. destruct (decimal c) as [v|]; [|discriminate].
  destruct r as [|c' r']; [eauto|].
  rewrite (isdigit_not_mark c' 0x5F) by (inversion Hr; auto; lia).
  apply IH. discriminate.
Qed.

(** The guard lets pass whatever is shorter than something it lets pass. *)
Lemma exceeds_limit_mono (m n : nat) :
  (m <= n)%nat -> Num.exceeds_limit n = false -> Num.exceeds_limit m = false.
Proof.
  unfold Num.exceeds_limit. intros Hmn.
  destruct (Nat.ltb_spec 640 n), (Nat.ltb_spec 640 m); try reflexivity;
    try lia.
  destruct (0 <? int_max_str_digits)%nat; [|reflexivity].
  intros Hn. apply Nat.ltb_ge in Hn. apply Nat.ltb_ge. lia.
Qed.

Lemma filter_digits (s : str) :
  Forall (fun c => isdigit c = true) s -> List.filter isdigit s = s.
Proof.
  induction 1 as [|c r Hc Hr IH]; simpl; [reflexivity|].
  rewrite Hc, IH. reflexivity.
Qed.

(** A numeral is read whole as the run of digits and underscores. *)
Lemma span_numeral (s : str) :
  digits s -> span (fun c => isdigit c || (c =? 0x5F)) s = (s, []).
Proof.
  intros [_ Hd]. rewrite <- (app_nil_r s) at 1.
  apply span_run; [|exact I].
  eapply Forall_impl; [exact Hd|].
  intros c Hc. cbv beta in *. rewrite Hc. reflexivity.
Qed.

Lemma int_of_digits (s : str) :
  digits s -> Num.exceeds_limit (length s) = false ->
  exists v, Num.int s = Ok v.
Proof.
  intros Hs Hlim. unfold Num.int. rewrite (strip_digits s Hs).
  pose proof (span_numeral s Hs) as Hspan.
  destruct Hs as [Hne Hd]. destruct s as [|c r]; [contradiction|].
  assert (Hc : isdigit c = true) by (inversion Hd; assumption).
  change (cp "-") with 0x2D. change (cp "+") with 0x2B.
  rewrite !(isdigit_not_mark c) by (auto; lia).
  rewrite Hspan.
  destruct (int_digits_total (c :: r) 0%Z) as [v Hv]; [split; auto|].
  rewrite Hv, (filter_digits _ Hd), Hlim. eauto.
Qed.


Lemma zeros_digits (z : str) : zeros z -> digits z.
Proof.
  intros [Hne Hz]. split; [exact Hne|].
  eapply Forall_impl; [exact Hz|].
  intros c Hc. unfold isdigit. cbv beta in Hc. rewrite Hc. reflexivity.
Qed.

Lemma int_digits_zeros (z : str) : zeros z -> Num.int_digits 0 z = Some 0%Z.
Proof.
  intros Hz. pose proof (zeros_digits z Hz) as [_ Hd].
  destruct Hz as [Hne Hz].
  induction Hz as [|c r Hc Hr IH]; [contradiction|].
  cbn [Num.int_digits]. rewrite Hc. cbn [Z.of_N Z.mul Z.add].
  destruct r as [|c' r']; [reflexivity|].
  inversion Hd as [|? ? _ Hd']; subst.
  rewrite (isdigit_not_mark c' 0x5F) by (inversion Hd'; auto; lia).
  apply IH; [discriminate|assumption].
Qed.





(** *** The groups of the arithmetic pattern *)

Lemma arithmetic_at_digits (s n1 n2 : str) (op : char) :
  arithmetic_at s = Some (n1, op, n2) -> digits n1 /\ digits n2.
Proof.
  unfold arithmetic_at.
  destruct (span isdigit s) as [a b] eqn:Ha.
  destruct a as [|c a']; [discriminate|].
  destruct (lstrip b) as [|o t]; [discriminate|].
  destruct (is_arith_op o); [|discriminate].
  destruct (span isdigit (lstrip t)) as [d e] eqn:Hd.
  destruct d as [|c2 d']; [discriminate|].
  intros [= <- <- <-].
  apply span_spec in Ha as [Ha _]. apply span_spec in Hd as [Hd _].
  split; split; auto; discriminate.
Qed.

Lemma arithmetic_search_digits (s n1 n2 : str) (op : char) :
  arithmetic_search s = Some (n1, op, n2) -> digits n1 /\ digits n2.
Proof.
  induction s as [|c s IH]; cbn [arithmetic_search].
  - destruct (arithmetic_at []) as [[[a o] b]|] eqn:Hat; [|discriminate].
    intros [= -> -> ->]. eapply arithmetic_at_digits, Hat.
  - destruct (arithmetic_at (c :: s)) as [[[a o] b]|] eqn:Hat; [|exact IH].
    intros [= -> -> ->]. eapply arithmetic_at_digits, Hat.
Qed.

(** The operands are parts of the text that is searched. *)
Lemma arithmetic_at_length (s n1 n2 : str) (op : char) :
  arithmetic_at s = Some (n1, op, n2) ->
  (length n1 <= length s)%nat /\ (length n2 <= length s)%nat.
Proof.
  unfold arithmetic_at.
  destruct (span isdigit s) as [a b] eqn:Ha.
  destruct a as [|c a']; [discriminate|].
  pose proof (lstrip_length b) as Hb.
  destruct (lstrip b) as [|o t]; [discriminate|].
  destruct (is_arith_op o); [|discriminate].
  pose proof (lstrip_length t) as Ht.
  destruct (span isdigit (lstrip t)) as [d e] eqn:Hd.
  destruct d as [|c2 d']; [discriminate|].
  intros [= <- <- <-].
  apply span_spec in Ha as [_ ->]. apply span_spec in Hd as [_ Hd].
  rewrite Hd in Ht. rewrite !length_app in *. simpl in *. lia.
Qed.

Lemma arithmetic_search_length (s n1 n2 : str) (op : char) :
  arithmetic_search s = Some (n1, op, n2) ->
  (length n1 <= length s)%nat /\ (length n2 <= length s)%nat.
Proof.
  induction s as [|c s IH]; cbn [arithmetic_search].
  - destruct (arithmetic_at []) as [[[a o] b]|] eqn:Hat; [|discriminate].
    intros [= -> -> ->]. eapply arithmetic_at_length, Hat.
  - destruct (arithmetic_at (c :: s)) as [[[a o] b]|] eqn:Hat.
    + intros [= -> -> ->]. eapply arithmetic_at_length, Hat.
    + intros H. apply IH in H. simpl. lia.
Qed.


Lemma solved_arithmetic_nonempty
      (question : str) (num1 num2 : Z) (operator : char) (operation : str)
      (explanation : res str) (result : number) (text : str) :
  solved_arithmetic question num1 num2 operator operation explanation result
  = Ok text ->
  nonempty text = true.
Proof.
  unfold solved_arithmetic.
  destruct explanation; [|discriminate]; cbn [bind].
  repeat (destruct (Num.str_int _); [|discriminate]; cbn [bind]).
  destruct (show_number result); [|discriminate]; cbn [bind].
  intros [= <-]. nonempty_text.
Qed.

(** The arithmetic branch answers when the interpreter converts the two
    operands that the pattern matches. *)
Lemma arithmetic_answers_operands (question : str) :
  (forall n1 op n2,
     arithmetic_search (strip question) = Some (n1, op, n2) ->
     Num.exceeds_limit (length n1) = false
     /\ Num.exceeds_limit (length n2) = false) ->
  answers (_solve_arithmetic_comprehensive question).
Proof.
  intros Hlim. unfold _solve_arithmetic_comprehensive.
  destruct (arithmetic_search (strip question)) as [[[n1 op] n2]|] eqn:Hs.
  - destruct (Hlim n1 op n2 eq_refl) as [L1 L2].
    apply arithmetic_search_digits in Hs as [H1 H2].
    destruct (int_of_digits n1 H1 L1) as [v1 ->].
    destruct (int_of_digits n2 H2 L2) as [v2 ->].
    cbn [bind].
    apply (try_except_answers_with _
             (fun e => u8 "## Solution for: " ++ question ++ [0x0A; 0x0A]
                       ++ u8 "Error in calculation: " ++ exn_str e));
      [|intros e; nonempty_text].
    intros text.
    repeat (case_if; [apply solved_arithmetic_nonempty|]).
    case_if.
    + case_if.
      * intros [= <-]. unfold division_by_zero. nonempty_text.
      * destruct (Num.truediv v1 v2); [|discriminate]. cbn [bind].
        apply solved_arithmetic_nonempty.
    + intros [= <-]. nonempty_text.
  - answers_text.
Qed.

(** The operands are no longer than the question. *)
Lemma arithmetic_answers (question : str) :
  Num.exceeds_limit (length question) = false ->
  answers (_solve_arithmetic_comprehensive question).
Proof.
  intros Hlim. apply arithmetic_answers_operands.
  intros n1 op n2 Hs.
  pose proof (strip_length question) as Hstrip.
  pose proof (arithmetic_search_length _ _ _ _ Hs) as [L1 L2].
  split; apply (exceeds_limit_mono _ (length question)); auto; lia.
Qed.


Lemma fallback_answers (question : str) (context : option str) :
  Num.exceeds_limit (length question) = false ->
  answers (_comprehensive_fallback_solution question context).
Proof.
  intros Hlim. unfold _comprehensive_fallback_solution.
  destruct (contains (u8 "=") question); [apply equation_answers|].
  destruct (_is_simple_arithmetic question);
    [apply arithmetic_answers, Hlim|].
  repeat (case_if; [answers_text|]).
  answers_text.
Qed.



(** The generation of a solution answers whenever the fallback solver
    does, whatever the generative model answers or raises: every failure
    ends in the fallback solver. *)
Lemma generate_answers_with_fallback
      (g : Gemini) (question : str) (context : option str) :
  answers (_comprehensive_fallback_solution question context) ->
  answers (generate_step_by_step_solution g question context).
Proof.
  intros Hfb.
  unfold generate_step_by_step_solution.
  assert (Hfmt : forall text,
             answers (Ok (_format_gemini_response text question)))
    by (intros text; unfold _format_gemini_response; answers_text).
  assert (Hsdk :
    answers (if has_model g then
               match sdk_generate g (_create_math_prompt question context) with
               | Ok (Some text) =>
                 if nonempty text
                 then Ok (_format_gemini_response text question)
                 else _comprehensive_fallback_solution question context
               | Ok None => _comprehensive_fallback_solution question context
               | Raise _ => _comprehensive_fallback_solution question context
               end
             else _comprehensive_fallback_solution question context)).
  { destruct (has_model g); [|exact Hfb].
    destruct (sdk_generate g _) as [[text|]|e]; try exact Hfb.
    destruct (nonempty text); [apply Hfmt|exact Hfb]. }
  destruct (_ && _); [|exact Hfb].
  destruct (direct_api g _) as [[text|]|e]; try exact Hsdk.
  destruct (nonempty text); [apply Hfmt|exact Hsdk].
Qed.

Lemma generate_answers (g : Gemini) (question : str) (context : option str) :
  Num.exceeds_limit (length question) = false ->
  answers (generate_step_by_step_solution g question context).
Proof.
  intros Hlim.
  apply generate_answers_with_fallback, fallback_answers, Hlim.
Qed.


(** *** The matcher on runs of one class *)






(** *** Divisions by zero *)


(** C7.  On [2x + 5 = 13] the fallback solver returns the worked
    derivation: it states the solution as [x = 4.0], the quotient being a
    [float], which reads [x = 4], and its verification lines substitute
    that solution back into the equation and reach 13. *)
Theorem C7_solves_2x_plus_5_is_13 (context : option str) :
  _comprehensive_fallback_solution (u8 "2x + 5 = 13") context
  = Ok answer_2x_plus_5_is_13
  /\ contains (u8 "x = 4") answer_2x_plus_5_is_13 = true
  /\ contains (unlines [
         u8 "Substitute x = 4.0 back into the original equation:";
         u8 "2(4.0) + (5) = 13.0";
         u8 "13.0 = 13 ✓"]) answer_2x_plus_5_is_13 = true.
Proof. split; [|split]; vm_compute; reflexivity. Qed.

End Solver.




(** ** The feedback loop ([core/feedback.py]) *)

Import Database.

Section Feedback.
Context {R : Runtime}.

(** C5 (as amended).  A submission with a valid feedback type, whose
    [query_id] is found neither in the in-memory cache nor in the
    persistent store, returns a failure result without actions and leaves
    the manager and the store as they were: no feedback entry is created or
    stored.  The message names that [query_id] when [get_database()]
    returns, with a connection (the persistent store is then asked) or
    with [None]; when [get_database()] raises, the message is that of the
    outermost handler, [Error processing feedback:] and the text of the
    exception. *)
Theorem C5_unknown_query_is_refused
        (w : World) (self : FeedbackManager.t) (db : Store)
        (query_id feedback_type : str) (fb_type : FeedbackType.t)
        (feedback_text corrected_answer user_id : option str) :
  FeedbackType.of_value feedback_type = Some fb_type ->
  FeedbackManager.query_logs self !! query_id = None ->
  query_logs db !! query_id = None ->
  FeedbackManager.process_feedback w self db query_id feedback_type
    feedback_text corrected_answer user_id
  = ({| FeedbackProcessingResult.feedback_id := uuid4 w;
        FeedbackProcessingResult.success := false;
        FeedbackProcessingResult.message :=
          match get_database w with
          | Ok _ => u8 "Query " ++ query_id ++ u8 " not found"
          | Raise e => u8 "Error processing feedback: " ++ exn_str e
          end;
        FeedbackProcessingResult.actions_taken := [] |},
     self, db).
Proof.
  intros Htype Hmem Hdb. unfold FeedbackManager.process_feedback.
  rewrite Htype, Hmem.
  destruct (get_database w) as [database|e]; cbn [bind]; [|reflexivity].
  unfold FeedbackManager._fetch_query_log_from_db, get_query_log.
  rewrite Hdb. destruct database, (reads_succeed w); reflexivity.
Qed.

(** When [get_database()] raises, the submission fails and nothing is
    created, whatever the store holds: the store is not asked. *)
Lemma unknown_query_with_database_down
      (w : World) (self : FeedbackManager.t) (db : Store)
      (query_id feedback_type : str) (fb_type : FeedbackType.t)
      (feedback_text corrected_answer user_id : option str) (e : exn) :
  FeedbackType.of_value feedback_type = Some fb_type ->
  FeedbackManager.query_logs self !! query_id = None ->
  get_database w = Raise e ->
  FeedbackManager.process_feedback w self db query_id feedback_type
    feedback_text corrected_answer user_id
  = (FeedbackManager.error_result (uuid4 w) e, self, db).
Proof.
  intros Htype Hmem Hget. unfold FeedbackManager.process_feedback.
  rewrite Htype, Hmem, Hget. reflexivity.
Qed.

(** C1 (as amended).  A submission of type [correction] without a
    corrected answer, whose [query_id] resolves to a logged query, is not
    refused: when the database connection is obtained, the result is a
    success with an empty list of actions, and the feedback entry created
    under the new identifier is marked processed. *)
Theorem C1_correction_without_answer_is_processed
        (w : World) (self : FeedbackManager.t) (db : Store)
        (query_id : str) (query_log : QueryLog.t)
        (feedback_text corrected_answer user_id : option str)
        (database : bool) :
  FeedbackManager.truthy corrected_answer = false ->
  resolves w self db query_id query_log ->
  get_database w = Ok database ->
  let '(result, self', db') :=
    FeedbackManager.process_feedback w self db query_id (u8 "correction")
      feedback_text corrected_answer user_id in
  result = {| FeedbackProcessingResult.feedback_id := uuid4 w;
              FeedbackProcessingResult.success := true;
              FeedbackProcessingResult.message :=
                u8 "Feedback processed successfully";
              FeedbackProcessingResult.actions_taken := [] |}
  /\ FeedbackManager.feedback_entries self' !! uuid4 w
     = Some {| FeedbackEntry.feedback_id := uuid4 w;
               FeedbackEntry.query_id := query_id;
               FeedbackEntry.feedback_type := FeedbackType.CORRECTION;
               FeedbackEntry.feedback_text := feedback_text;
               FeedbackEntry.corrected_answer := corrected_answer;
               FeedbackEntry.user_id := user_id;
               FeedbackEntry.timestamp := now w;
               FeedbackEntry.processed := true |}.
Proof.
  intros Hno Hres Hget. unfold FeedbackManager.process_feedback.
  change (FeedbackType.of_value (u8 "correction"))
    with (Some FeedbackType.CORRECTION).
  assert (Hfound :
    match FeedbackManager.query_logs self !! query_id with
    | Some query_log => Ok (Some query_log)
    | None =>
      let* database := get_database w in
      Ok (if database
          then FeedbackManager._fetch_query_log_from_db w db query_id
          else None)
    end = Ok (Some query_log)).
  { destruct Hres as [Hmem|(Hmem & Hconn & Hrow)].
    - rewrite Hmem. reflexivity.
    - rewrite Hmem, Hconn. cbn [bind].
      unfold FeedbackManager._fetch_query_log_from_db. rewrite Hrow.
      reflexivity. }
  rewrite Hfound, Hget.
  cbn [FeedbackManager.feedback_entries].
  split.
  - unfold FeedbackManager._process_feedback_by_type,
      FeedbackManager._handle_correction_feedback.
    cbn [FeedbackEntry.feedback_type FeedbackEntry.corrected_answer].
    rewrite Hno. reflexivity.
  - rewrite lookup_insert_eq. reflexivity.
Qed.

End Feedback.

(** A manager that has logged the query [q1], a store without a
    connection, and the identifier that is drawn next. *)
Lemma C1_witness :
  let w := example_world in
  let self := example_manager in
  let db := example_store in
  FeedbackManager.truthy None = false
  /\ resolves w self db (u8 "q1") example_query_log
  /\ get_database w = Ok false
  /\ let '(result, self', db') :=
       FeedbackManager.process_feedback (R := bare) w self db (u8 "q1")
         (u8 "correction") None None None in
     result = {| FeedbackProcessingResult.feedback_id := uuid4 w;
                 FeedbackProcessingResult.success := true;
                 FeedbackProcessingResult.message :=
                   u8 "Feedback processed successfully";
                 FeedbackProcessingResult.actions_taken := [] |}
     /\ FeedbackManager.feedback_entries self' !! uuid4 w
        = Some {| FeedbackEntry.feedback_id := uuid4 w;
                  FeedbackEntry.query_id := u8 "q1";
                  FeedbackEntry.feedback_type := FeedbackType.CORRECTION;
                  FeedbackEntry.feedback_text := None;
                  FeedbackEntry.corrected_answer := None;
                  FeedbackEntry.user_id := None;
                  FeedbackEntry.timestamp := now w;
                  FeedbackEntry.processed := true |}.
Proof.
  cbv zeta.
  assert (H1 : FeedbackManager.truthy None = false) by reflexivity.
  assert (H2 : resolves example_world example_manager example_store
                        (u8 "q1") example_query_log)
    by (left; vm_compute; reflexivity).
  assert (H3 : get_database example_world = Ok false) by reflexivity.
  exact (conj H1 (conj H2 (conj H3
           (C1_correction_without_answer_is_processed
              (R := bare) example_world example_manager example_store
              (u8 "q1") example_query_log None None None false H1 H2 H3)))).
Defined.

(** C1 as stated fails there: the correction without a corrected answer
    comes back as a success, and its entry is marked processed. *)
Lemma C1_counterexample :
  let '(result, self', db') :=
    FeedbackManager.process_feedback (R := bare) example_world
      example_manager example_store (u8 "q1") (u8 "correction")
      None None None in
  FeedbackProcessingResult.success result = true
  /\ FeedbackEntry.processed
       <$> FeedbackManager.feedback_entries self' !! u8 "f1"
     = Some true.
Proof. vm_compute. split; reflexivity. Qed.

(** The query [q2] is unknown to that manager and to that store. *)
Lemma C5_witness :
  FeedbackType.of_value (u8 "negative") = Some FeedbackType.NEGATIVE
  /\ FeedbackManager.query_logs example_manager !! u8 "q2" = None
  /\ query_logs example_store !! u8 "q2" = None
  /\ FeedbackManager.process_feedback (R := bare) example_world
       example_manager example_store (u8 "q2") (u8 "negative")
       None None None
     = ({| FeedbackProcessingResult.feedback_id := u8 "f1";
           FeedbackProcessingResult.success := false;
           FeedbackProcessingResult.message := u8 "Query q2 not found";
           FeedbackProcessingResult.actions_taken := [] |},
        example_manager, example_store).
Proof.
  assert (H1 : FeedbackType.of_value (u8 "negative")
               = Some FeedbackType.NEGATIVE) by reflexivity.
  assert (H2 : FeedbackManager.query_logs example_manager !! u8 "q2" = None)
    by (vm_compute; reflexivity).
  assert (H3 : query_logs example_store !! u8 "q2" = None)
    by (vm_compute; reflexivity).
  exact (conj H1 (conj H2 (conj H3
           (C5_unknown_query_is_refused
              (R := bare) example_world example_manager example_store
              (u8 "q2") (u8 "negative") FeedbackType.NEGATIVE
              None None None H1 H2 H3)))).
Defined.

(** C5 as stated fails when the database cannot be reached: the query
    [q2] is unknown to the manager and to the store, the submission fails
    and nothing is created, but the message is that of the exception and
    does not name [q2]. *)
Lemma C5_counterexample :
  let '(result, self', db') :=
    FeedbackManager.process_feedback (R := bare) unreachable_world
      example_manager example_store (u8 "q2") (u8 "negative")
      None None None in
  FeedbackManager.query_logs example_manager !! u8 "q2" = None
  /\ query_logs example_store !! u8 "q2" = None
  /\ FeedbackProcessingResult.success result = false
  /\ FeedbackProcessingResult.message result
     = u8 "Error processing feedback: database is down"
  /\ contains (u8 "q2") (FeedbackProcessingResult.message result) = false
  /\ self' = example_manager /\ db' = example_store.
Proof. vm_compute. repeat split; reflexivity. Qed.

(** ** The resolution of a query ([api/routes.py]) *)

Import Routes.

(** *** Comparisons of floats *)

Lemma SFcompare_antisym (x y : spec_float) :
  SFcompare y x = option_map CompOpp (SFcompare x y).
Proof.
  destruct x as [sx|sx| |sx mx ex], y as [sy|sy| |sy my ey]; simpl;
    try reflexivity;
    try (destruct sx; reflexivity); try (destruct sy; reflexivity);
    try (destruct sx, sy; reflexivity).
  change (Pos.compare_cont Eq my mx) with (my ?= mx)%positive.
  change (Pos.compare_cont Eq mx my) with (mx ?= my)%positive.
  rewrite (Z.compare_antisym ex ey), (Pos.compare_antisym mx my).
  destruct sx, sy; try reflexivity;
    destruct (ex ?= ey)%Z; simpl; reflexivity.
Qed.

(** A float that is at least [y] is not below [y]. *)
Lemma leb_not_ltb (y x : float) :
  PrimFloat.leb y x = true -> PrimFloat.ltb x y = false.
Proof.
  rewrite leb_spec, ltb_spec. unfold SFleb, SFltb.
  rewrite (SFcompare_antisym (Prim2SF y) (Prim2SF x)).
  destruct (SFcompare (Prim2SF y) (Prim2SF x)) as [[]|]; simpl; congruence.
Qed.

Section Resolution.
Context {R : Runtime}.

(** C3.  When the knowledge base answers with a confidence of at least
    0.7, the resolution makes no call to the Google search service, and a
    response, if one is returned, reports [used_google_search = false] and
    [google_search_count = 0]. *)
Theorem C3_confident_knowledge_base_skips_search
        (w : World) (feedback_manager : FeedbackManager.t) (db : Store)
        (query : MathQuery) (kb_conf : float) :
  knowledge_base w (content (InputFilter.process (question query)))
                 (context query) = Some kb_conf ->
  PrimFloat.leb 0.7 kb_conf = true ->
  let '(outcome, calls, _, _) :=
    solve_math_problem w feedback_manager db query in
  google_calls calls = []
  /\ forall response,
       outcome = Returned response ->
       used_google_search response = false
       /\ google_search_count response = O.
Proof.
  intros Hkb Hconf. unfold solve_math_problem.
  destruct (negb (is_safe (InputFilter.process (question query)))).
  { split; [reflexivity|]. intros response H. destruct (existsb _ _); discriminate H. }
  rewrite Hkb. cbn [from_option id]. rewrite (leb_not_ltb _ _ Hconf).
  destruct (LLM.generate_step_by_step_solution _ _ _) as [llm_answer|e].
  - cbn [r_answer].
    destruct (negb (is_safe (OutputFilter.process llm_answer))).
    { split; [reflexivity|]. intros response H. discriminate H. }
    destruct (FeedbackManager.log_query _ _ _ _ _ _ _ _ _ _) as [[[ql|e] fm'] db'].
    + split; [reflexivity|]. intros response [= <-]. split; reflexivity.
    + split; [reflexivity|]. intros response H. discriminate H.
  - cbn [r_answer of_search_result].
    destruct (negb (is_safe (OutputFilter.process _))).
    { split; [reflexivity|]. intros response H. discriminate H. }
    destruct (FeedbackManager.log_query _ _ _ _ _ _ _ _ _ _) as [[[ql|e'] fm'] db'].
    + split; [reflexivity|]. intros response [= <-]. split; reflexivity.
    + split; [reflexivity|]. intros response H. discriminate H.
Qed.

(** *** The number of references *)

Lemma dynamic_references_length (query : str) :
  length (WebSearch._generate_dynamic_references query) = 3%nat.
Proof.
  unfold WebSearch._generate_dynamic_references.
  repeat case_if; reflexivity.
Qed.

(** A question that the classifier has passed on is answered, when the
    interpreter's limit on the digits of an [int] lets 1000 digits pass. *)
Lemma filtered_question_is_answered
      (g : LLM.Gemini) (question : str) (context : option str) :
  Num.exceeds_limit InputFilter.max_length = false ->
  answers (LLM.generate_step_by_step_solution g
             (content (InputFilter.process question)) context).
Proof.
  intros Hlim. apply generate_answers.
  apply (exceeds_limit_mono _ InputFilter.max_length);
    [apply process_content_length|exact Hlim].
Qed.

(** C2 (what the code does).  The [sources] of a returned response are
    three, except when the web search gave exactly one result: then they are
    two, the web reference and the first local one, and nothing pads them.
    The limit on the digits of an [int] is taken to let the 1000 characters
    of a question pass, as it does unless it is set lower: the generation
    then never raises, and the references are those of this function. *)
Theorem C2_sources_are_three_unless_one_web_result
      (w : World) (feedback_manager fm' : FeedbackManager.t) (db db' : Store)
      (query : MathQuery) (response : MathResponse) (calls : list call) :
  Num.exceeds_limit InputFilter.max_length = false ->
  solve_math_problem w feedback_manager db query
  = (Returned response, calls, fm', db') ->
  length (sources response)
  = match google_search_count response with
    | 1%nat => 2%nat
    | _ => 3%nat
    end.
Proof.
  intros Hlim. unfold solve_math_problem.
  destruct (negb (is_safe (InputFilter.process (question query)))).
  { destruct (existsb _ _); discriminate. }
  pose proof (fun ctx =>
                filtered_question_is_answered (llm_service w) (question query)
                                              ctx Hlim) as Hgen.
  set (question' := content (InputFilter.process (question query))) in *.
  set (kb_confidence := default 0%float (knowledge_base w question' (context query))).
  destruct (PrimFloat.ltb kb_confidence 0.7).
  - set (data := GoogleSearch.search_math_query _ _ _).
    set (ctx := if nonempty _ then _ else _).
    destruct (Hgen ctx) as (text & -> & _).
    cbn [r_answer].
    destruct (negb (is_safe (OutputFilter.process text))); [discriminate|].
    destruct (FeedbackManager.log_query _ _ _ _ _ _ _ _ _ _)
      as [[[ql|e] fm''] db'']; [|discriminate].
    intros [= <- _ _ _]. cbn [sources google_search_count r_sources
      r_google_search_count from_option id].
    pose proof (dynamic_references_length question') as Hlen.
    destruct (WebSearch._generate_dynamic_references question')
      as [|r1 [|r2 [|r3 [|r4 rest]]]]; try discriminate Hlen.
    destruct data as [[q [|g1 [|g2 gs]] n t u]|]; reflexivity.
  - set (ctx := if nonempty _ then _ else _).
    destruct (Hgen ctx) as (text & -> & _).
    cbn [r_answer].
    destruct (negb (is_safe (OutputFilter.process text))); [discriminate|].
    destruct (FeedbackManager.log_query _ _ _ _ _ _ _ _ _ _)
      as [[[ql|e] fm''] db'']; [|discriminate].
    intros [= <- _ _ _]. cbn [sources google_search_count r_sources
      r_google_search_count from_option id GoogleSearch.has_results].
    pose proof (dynamic_references_length question') as Hlen.
    destruct (WebSearch._generate_dynamic_references question')
      as [|r1 [|r2 [|r3 [|r4 rest]]]]; try discriminate Hlen.
    reflexivity.
Qed.

End Resolution.

(** The question [2 + 2] with one web result: the response is returned, it
    counts one web result, and it has two references. *)
Lemma C2_witness :
  exists response calls fm' db',
    solve_math_problem (R := bare) one_result_world example_manager
                       example_store two_plus_two
    = (Returned response, calls, fm', db')
    /\ Num.exceeds_limit (R := bare) InputFilter.max_length = false
    /\ google_search_count response = 1%nat
    /\ length (sources response) = 2%nat.
Proof.
  destruct (solve_math_problem (R := bare) one_result_world example_manager
                               example_store two_plus_two)
    as [[[outcome calls] fm'] db'] eqn:H.
  assert (H' := H). vm_compute in H'. injection H' as <- <- <- <-.
  assert (Hlim : Num.exceeds_limit (R := bare) InputFilter.max_length
                 = false) by reflexivity.
  eexists _, _, _, _. split; [reflexivity|].
  split; [exact Hlim|].
  split; [vm_compute; reflexivity|].
  pose proof (C2_sources_are_three_unless_one_web_result (R := bare)
                _ _ _ _ _ _ _ _ Hlim H) as Hlen.
  exact Hlen.
Defined.

(** C2 as stated fails there: the references of the response are the web
    result and the first local reference, two and not three. *)
Lemma C2_counterexample :
  exists response calls fm' db',
    solve_math_problem (R := bare) one_result_world example_manager
                       example_store two_plus_two
    = (Returned response, calls, fm', db')
    /\ sources response
       = [u8 "Addition - Wikipedia"; u8 "Math Problem Solver: 2 + 2"]
    /\ length (sources response) <> 3%nat.
Proof.
  destruct (solve_math_problem (R := bare) one_result_world example_manager
                               example_store two_plus_two)
    as [[[outcome calls] fm'] db'] eqn:H.
  vm_compute in H. injection H as <- <- <- <-.
  eexists _, _, _, _. split; [reflexivity|].
  split; [vm_compute; reflexivity|].
  vm_compute; discriminate.
Qed.

(** A confident knowledge base: the search service is configured and would
    give a result, and it is not called. *)
Lemma C3_witness :
  knowledge_base confident_world
    (content (InputFilter.process (R := bare) (question two_plus_two)))
    (context two_plus_two) = Some 0.8%float
  /\ PrimFloat.leb 0.7 0.8 = true
  /\ let '(outcome, calls, _, _) :=
       solve_math_problem (R := bare) confident_world example_manager
                          example_store two_plus_two in
     google_calls calls = []
     /\ forall response,
          outcome = Returned response ->
          used_google_search response = false
          /\ google_search_count response = O.
Proof.
  assert (H1 : knowledge_base confident_world
                 (content (InputFilter.process (R := bare)
                                               (question two_plus_two)))
                 (context two_plus_two) = Some 0.8%float) by reflexivity.
  assert (H2 : PrimFloat.leb 0.7 0.8 = true) by reflexivity.
  pose proof (C3_confident_knowledge_base_skips_search (R := bare)
                confident_world example_manager example_store two_plus_two
                0.8%float H1 H2) as H3.
  split; [exact H1|]. split; [exact H2|]. exact H3.
Defined.

(** There the response is returned, and it reports no search. *)
Lemma confident_response_is_returned :
  exists response calls fm' db',
    solve_math_problem (R := bare) confident_world example_manager
                       example_store two_plus_two
    = (Returned response, calls, fm', db')
    /\ calls = [KnowledgeBaseQuery (u8 "2 + 2") None;
                GenerateSolution (u8 "2 + 2") None]
    /\ used_google_search response = false
    /\ google_search_count response = O
    /\ length (sources response) = 3%nat.
Proof.
  destruct (solve_math_problem (R := bare) confident_world example_manager
                               example_store two_plus_two)
    as [[[outcome calls] fm'] db'] eqn:H.
  vm_compute in H. injection H as <- <- <- <-.
  eexists _, _, _, _. split; [reflexivity|].
  split; [vm_compute; reflexivity|].
  split; [reflexivity|].
  split; reflexivity.
Qed.

(* ================================================================== *)
(** * Part III: further properties of the code *)
(* ================================================================== *)


(** ** Input-mode classification ([InputFilter]) *)

Section InputFacts.
Context {R : Runtime}.

(** X1.  Input-mode classification accepts a text exactly when it is not
    blank, its stripped text has at least 3 characters, no blocked pattern
    is found in the stripped text cut to 1000 characters, and the math score
    of that text is not below 0.2.  The two warnings (too long, too many
    special characters) never reject: they lower the confidence of an
    accepted text, from 1.0 by 0.1 for the first and by 0.2 for the second
    as binary64 computes them, which leaves at least 0.7.  A rejected text
    has the confidence 1.0 or 0.0. *)
Theorem X1_input_is_accepted_iff (content : str) :
  let text := take InputFilter.max_length (strip content) in
  let r := InputFilter.process content in
  is_safe r
  = nonempty (strip content)
    && negb (length text <? InputFilter.min_length)%nat
    && negb (existsb (fun pattern => search pattern text)
                     InputFilter.blocked_patterns)
    && negb (PrimFloat.ltb (InputFilter._calculate_enhanced_math_score text)
                           0.2)
  /\ if is_safe r
     then Guardrails.confidence r
          = match (InputFilter.max_length <? length (strip content))%nat,
                  InputFilter._contains_excessive_special_chars text with
            | false, false => 1.0
            | true, false => 0.9
            | false, true => 0.8
            | true, true => 0.7
            end%float
          /\ PrimFloat.leb 0.7 (Guardrails.confidence r) = true
     else Guardrails.confidence r = 1.0%float
          \/ Guardrails.confidence r = 0.0%float.
Proof.
  cbv zeta. unfold InputFilter.process.
  destruct (nonempty content) eqn:Hc; cbn [negb orb].
  2:{ apply nonempty_false in Hc. subst.
      split; [reflexivity|left; reflexivity]. }
  destruct (nonempty (strip content)) eqn:Hs; cbn [negb orb andb];
    [|split; [reflexivity|left; reflexivity]].
  destruct (InputFilter.max_length <? length (strip content))%nat eqn:Hlen;
    [|rewrite (take_ge (strip content)) by (apply Nat.ltb_ge in Hlen; lia)];
    (destruct (_ <? InputFilter.min_length)%nat;
     [split; [reflexivity|left; reflexivity]|]);
    (destruct (existsb _ InputFilter.blocked_patterns);
     [split; [reflexivity|left; reflexivity]|]);
    (destruct (PrimFloat.ltb (InputFilter._calculate_enhanced_math_score _) _);
     [split; [reflexivity|right; reflexivity]|]);
    destruct (InputFilter._contains_excessive_special_chars _);
    (split; [reflexivity|]);
    cbn [is_safe Guardrails.confidence];
    split; vm_compute; reflexivity.
Qed.

(** The reason and the message of a rejection. *)
Lemma rejection_cases (content : str) :
  let r := InputFilter.process content in
  is_safe r = false ->
  In (issues r, message r)
     [([u8 "empty_content"], u8 "Empty query is not allowed");
      ([u8 "content_too_short"], u8 "Query is too short");
      ([u8 "blocked_pattern"],
       u8 "Query contains potentially harmful content");
      ([u8 "non_mathematical"],
       u8 "Please enter a valid math question. Only mathematical questions are allowed.")].
Proof.
  cbv zeta. unfold InputFilter.process.
  destruct (negb (nonempty content) || negb (nonempty (strip content))).
  { cbn [issues message]. intros _. left. reflexivity. }
  destruct (InputFilter.max_length <? length (strip content))%nat;
    (destruct (_ <? InputFilter.min_length)%nat;
     [cbn [issues message]; intros _; right; left; reflexivity|]);
    (destruct (existsb _ InputFilter.blocked_patterns);
     [cbn [issues message]; intros _; right; right; left; reflexivity|]);
    (destruct (PrimFloat.ltb (InputFilter._calculate_enhanced_math_score _) _);
     [cbn [issues message]; intros _; right; right; right; left;
      reflexivity|]);
    destruct (InputFilter._contains_excessive_special_chars _);
    cbn [is_safe]; intros H; discriminate H.
Qed.

(** The warnings and the message of an acceptance. *)
Lemma acceptance_cases (content : str) :
  let r := InputFilter.process content in
  is_safe r = true ->
  message r = u8 "Content passed safety checks"
  /\ issues r
     = (if (InputFilter.max_length <? length (strip content))%nat
        then [u8 "content_too_long"] else [])
       ++ (if InputFilter._contains_excessive_special_chars
                (take InputFilter.max_length (strip content))
           then [u8 "excessive_special_chars"] else []).
Proof.
  cbv zeta. unfold InputFilter.process.
  destruct (negb (nonempty content) || negb (nonempty (strip content)));
    [cbn [is_safe]; discriminate|].
  destruct (InputFilter.max_length <? length (strip content))%nat eqn:Hlen;
    [|rewrite (take_ge (strip content)) by (apply Nat.ltb_ge in Hlen; lia)];
    (destruct (_ <? InputFilter.min_length)%nat;
     [cbn [is_safe]; discriminate|]);
    (destruct (existsb _ InputFilter.blocked_patterns);
     [cbn [is_safe]; discriminate|]);
    (destruct (PrimFloat.ltb (InputFilter._calculate_enhanced_math_score _) _);
     [cbn [is_safe]; discriminate|]);
    destruct (InputFilter._contains_excessive_special_chars _);
    cbn [issues message]; intros _; split; reflexivity.
Qed.

(** X2.  A rejected input carries exactly one reason code, one of
    [empty_content], [content_too_short], [blocked_pattern] and
    [non_mathematical]; an accepted input carries only warnings, among
    [content_too_long] and [excessive_special_chars], with the message of
    success. *)
Theorem X2_input_reason_codes (content : str) :
  let r := InputFilter.process content in
  if is_safe r
  then incl (issues r) [u8 "content_too_long"; u8 "excessive_special_chars"]
       /\ message r = u8 "Content passed safety checks"
  else exists code,
         In code [u8 "empty_content"; u8 "content_too_short";
                  u8 "blocked_pattern"; u8 "non_mathematical"]
         /\ issues r = [code].
Proof.
  cbv zeta. destruct (is_safe (InputFilter.process content)) eqn:Hsafe.
  - destruct (acceptance_cases content Hsafe) as [Hmsg Hissues].
    split; [|exact Hmsg]. rewrite Hissues.
    intros x Hx. apply in_app_or in Hx.
    destruct Hx as [Hx|Hx].
    + destruct (_ <? _)%nat; [|destruct Hx].
      destruct Hx as [<-|[]]. left. reflexivity.
    + destruct (InputFilter._contains_excessive_special_chars _);
        [|destruct Hx].
      destruct Hx as [<-|[]]. right. left. reflexivity.
  - pose proof (rejection_cases content Hsafe) as Hcases.
    cbn [In] in Hcases.
    destruct Hcases as [H|[H|[H|[H|[]]]]]; injection H as <- _;
      eexists; (split; [|reflexivity]); cbn [In]; tauto.
Qed.

(** X3.  The cleaned copy of a text holds only characters that the
    cleaning keeps (word characters, white space and the listed signs); its
    white space is plain spaces only; it neither starts nor ends with white
    space; and it is not longer than the text. *)
Theorem X3_clean_content_is_clean (content : str) :
  let cleaned := InputFilter._clean_content content in
  Forall (fun c => InputFilter.kept_char c = true) cleaned
  /\ Forall (fun c => isspace c = true -> c = 0x20) cleaned
  /\ (cleaned = [] \/ trimmed cleaned)
  /\ (length cleaned <= length content)%nat.
Proof.
  cbv zeta. unfold InputFilter._clean_content.
  split; [|split; [|split]].
  - apply Forall_strip. rewrite Forall_forall.
    intros c Hc. apply list_elem_of_filter in Hc. apply Hc.
  - apply Forall_strip. rewrite Forall_forall.
    intros c Hc. apply list_elem_of_filter in Hc as [_ Hc].
    revert c Hc. rewrite <- Forall_forall. apply sub_spaces_plain.
  - apply strip_is_trimmed.
  - apply (clean_content_length content).
Qed.

(** X4.  Whatever the input, accepted or rejected, the text that
    input-mode classification hands back has at most 1000 characters; and an
    accepted input whose stripped text is longer than that is cut, not
    refused, with the warning [content_too_long]. *)
Theorem X4_input_content_is_bounded (content : str) :
  let r := InputFilter.process content in
  (length (Guardrails.content r) <= 1000)%nat
  /\ (is_safe r = true ->
      (1000 < length (strip content))%nat ->
      In (u8 "content_too_long") (issues r)).
Proof.
  cbv zeta. split; [apply (process_content_length content)|].
  intros Hsafe Hlong.
  destruct (acceptance_cases content Hsafe) as [_ ->].
  apply Nat.ltb_lt in Hlong. unfold InputFilter.max_length.
  rewrite Hlong. left. reflexivity.
Qed.

(** X5.  A text in which a non-mathematical topic word is found (weather,
    food, price, ...) has the math score 0, whatever mathematics it also
    holds; when it passes the tests of emptiness, length and blocked
    patterns, it is rejected as [non_mathematical] with confidence 0, and
    handed back as it stands. *)
Theorem X5_topic_word_rejects (content : str) :
  let text := take InputFilter.max_length (strip content) in
  nonempty (strip content) = true ->
  (InputFilter.min_length <= length text)%nat ->
  existsb (fun pattern => search pattern text) InputFilter.blocked_patterns
  = false ->
  existsb (fun pattern => search pattern (lower text))
          InputFilter.non_math_indicators = true ->
  InputFilter._calculate_enhanced_math_score text = 0%float
  /\ InputFilter.process content
     = {| is_safe := false; Guardrails.content := text;
          message := u8 "Please enter a valid math question. Only mathematical questions are allowed.";
          issues := [u8 "non_mathematical"]; Guardrails.confidence := 0 |}.
Proof.
  cbv zeta. intros Hs Hmin Hblocked Htopic.
  assert (Hscore : InputFilter._calculate_enhanced_math_score
                     (take InputFilter.max_length (strip content)) = 0%float).
  { unfold InputFilter._calculate_enhanced_math_score.
    rewrite (existsb_count _ _ Htopic). reflexivity. }
  split; [exact Hscore|].
  unfold InputFilter.process.
  assert (Hc : nonempty content = true).
  { destruct content; [discriminate Hs|reflexivity]. }
  rewrite Hc, Hs. cbn [negb orb].
  destruct (InputFilter.max_length <? length (strip content))%nat eqn:Hlen.
  - apply Nat.ltb_ge in Hmin. rewrite Hmin, Hblocked, Hscore. reflexivity.
  - rewrite (take_ge (strip content)) in *
      by (apply Nat.ltb_ge in Hlen; lia).
    apply Nat.ltb_ge in Hmin. rewrite Hmin, Hblocked, Hscore. reflexivity.
Qed.

End InputFacts.

(** The question about the price of [2 + 2] holds a topic word. *)
Lemma X5_witness :
  let content := u8 "what is the price of 2 + 2" in
  let text := take InputFilter.max_length (strip content) in
  nonempty (strip content) = true
  /\ (InputFilter.min_length <= length text)%nat
  /\ existsb (fun pattern => search (R := bare) pattern text)
             (InputFilter.blocked_patterns (R := bare)) = false
  /\ existsb (fun pattern =>
                search (R := bare) pattern (lower (R := bare) text))
             (InputFilter.non_math_indicators (R := bare)) = true
  /\ InputFilter._calculate_enhanced_math_score (R := bare) text = 0%float
  /\ is_safe (InputFilter.process (R := bare) content) = false.
Proof.
  cbv zeta.
  assert (H1 : nonempty (strip (u8 "what is the price of 2 + 2")) = true)
    by (vm_compute; reflexivity).
  assert (H2 : (InputFilter.min_length
                <= length (take InputFilter.max_length
                             (strip (u8 "what is the price of 2 + 2"))))%nat)
    by (vm_compute; lia).
  assert (H3 : existsb (fun pattern =>
                          search (R := bare) pattern
                            (take InputFilter.max_length
                               (strip (u8 "what is the price of 2 + 2"))))
                       (InputFilter.blocked_patterns (R := bare)) = false)
    by (vm_compute; reflexivity).
  assert (H4 : existsb (fun pattern =>
                          search (R := bare) pattern
                            (lower (R := bare)
                               (take InputFilter.max_length
                                  (strip (u8 "what is the price of 2 + 2")))))
                       (InputFilter.non_math_indicators (R := bare)) = true)
    by (vm_compute; reflexivity).
  pose proof (X5_topic_word_rejects (R := bare)
                (u8 "what is the price of 2 + 2") H1 H2 H3 H4) as [H5 H6].
  split; [exact H1|]. split; [exact H2|]. split; [exact H3|].
  split; [exact H4|]. split; [exact H5|].
  rewrite H6. reflexivity.
Defined.

(** ** Output-mode filtering ([OutputFilter]) and the answer of a response *)

Section OutputFacts.
Context {R : Runtime}.
Import Database Routes.

(** X6.  A response whose stripped text has at least 20 characters is
    accepted, with a confidence of at least 0.6, when the text that is
    examined holds no refusal phrase and no harmful pattern.  The text
    that is examined is the stripped text, or its first 2000 characters
    followed by three dots when it is longer; being longer than 2000
    characters and having a low quality score lower the confidence and do
    not reject by themselves. *)
Theorem X6_plain_response_is_accepted (content : str) :
  let text := strip content in
  let shown :=
    if (OutputFilter.max_answer_length <? length text)%nat
    then take OutputFilter.max_answer_length text ++ u8 "..."
    else text in
  nonempty text = true ->
  (OutputFilter.min_answer_length <= length text)%nat ->
  existsb (fun phrase => contains (lower (u8 phrase)) (lower shown))
          OutputFilter.blocked_phrases = false ->
  OutputFilter._contains_harmful_content shown = false ->
  let r := OutputFilter.process content in
  is_safe r = true
  /\ message r = u8 "Response passed safety checks"
  /\ Guardrails.content r = OutputFilter._clean_output shown
  /\ PrimFloat.leb 0.6 (Guardrails.confidence r) = true.
Proof.
  cbv zeta. intros Hs Hmin Hphrases Hharm.
  assert (Hc : nonempty content = true).
  { destruct content; [discriminate Hs|reflexivity]. }
  unfold OutputFilter.process. rewrite Hc, Hs. cbn [negb orb].
  apply Nat.ltb_ge in Hmin. rewrite Hmin.
  unfold OutputFilter.blocked_phrases in *.
  cbn [existsb] in Hphrases.
  repeat (apply orb_false_elim in Hphrases as [? Hphrases]).
  destruct (OutputFilter.max_answer_length <? length (strip content))%nat;
    repeat (cbn [fold_left OutputFilter.check_phrase];
            match goal with H : contains _ _ = false |- _ =>
              rewrite H; clear H end);
    rewrite Hharm;
    destruct (PrimFloat.ltb (OutputFilter._calculate_quality_score _) _);
    cbn [is_safe message Guardrails.content Guardrails.confidence];
    (split; [reflexivity|]); (split; [reflexivity|]);
    split; reflexivity.
Qed.

Lemma sub_runs_length (c : char) (n : nat) (repl : str) (run : nat) (s : str) :
  (length repl <= n)%nat ->
  (length (sub_runs c n repl run s) <= run + length s)%nat.
Proof.
  intros Hrepl.
  assert (Hflush : forall run, (length (flush_run c n repl run) <= run)%nat).
  { intros k. unfold flush_run. destruct (Nat.leb_spec n k).
    - lia.
    - rewrite repeat_length. lia. }
  revert run. induction s as [|d s IH]; intros run; simpl.
  - specialize (Hflush run). lia.
  - destruct (d =? c).
    + specialize (IH (S run)). lia.
    + rewrite length_app. simpl. specialize (IH O). specialize (Hflush run).
      lia.
Qed.

Lemma In_sub_runs (x c : char) (n : nat) (repl : str) (run : nat) (s : str) :
  In x s -> (x =? c) = false -> In x (sub_runs c n repl run s).
Proof.
  intros Hin Hx. revert run. induction s as [|d s IH]; intros run;
    [contradiction|].
  simpl. destruct Hin as [->|Hin].
  - rewrite Hx. apply in_or_app. right. left. reflexivity.
  - destruct (d =? c); [apply IH, Hin|].
    apply in_or_app. right. right. apply IH, Hin.
Qed.

Lemma clean_output_length (s : str) :
  (length (OutputFilter._clean_output s) <= length s)%nat.
Proof.
  unfold OutputFilter._clean_output.
  etransitivity; [apply strip_length|].
  etransitivity; [apply (sub_runs_length 0x20 2 [0x20] 0); simpl; lia|].
  etransitivity; [apply (sub_runs_length 0x0A 3 [0x0A; 0x0A] 0); simpl; lia|].
  lia.
Qed.

Lemma clean_output_keeps (x : char) (s : str) :
  In x s -> isspace x = false -> In x (OutputFilter._clean_output s).
Proof.
  intros Hin Hx. unfold OutputFilter._clean_output.
  assert (H20 : (x =? 0x20) = false)
    by (destruct (N.eqb_spec x 0x20) as [->|]; [discriminate Hx|reflexivity]).
  assert (H0A : (x =? 0x0A) = false)
    by (destruct (N.eqb_spec x 0x0A) as [->|]; [discriminate Hx|reflexivity]).
  apply In_strip; [|exact Hx].
  apply In_sub_runs; [|exact H20]. apply In_sub_runs; assumption.
Qed.

Lemma cleaned_output_is_clean (shown : str) :
  (length shown <= 2003)%nat ->
  (exists x, In x shown /\ isspace x = false) ->
  let text := OutputFilter._clean_output shown in
  nonempty text = true /\ (length text <= 2003)%nat /\ trimmed text.
Proof.
  cbv zeta. intros Hlen (x & Hx & Hsp).
  pose proof (clean_output_keeps x shown Hx Hsp) as Hkept.
  pose proof (clean_output_length shown) as Hle.
  assert (Hne : nonempty (OutputFilter._clean_output shown) = true).
  { destruct (OutputFilter._clean_output shown); [contradiction|reflexivity]. }
  split; [exact Hne|]. split; [lia|].
  unfold OutputFilter._clean_output in *.
  destruct (strip_is_trimmed
              (sub_runs 0x20 2 [0x20] 0
                 (sub_runs 0x0A 3 [0x0A; 0x0A] 0 shown))) as [H|H];
    [|exact H].
  rewrite H in Hne. discriminate Hne.
Qed.

(** The text of an accepted response. *)
Lemma accepted_output (content : str) :
  is_safe (OutputFilter.process content) = true ->
  let text := Guardrails.content (OutputFilter.process content) in
  nonempty text = true /\ (length text <= 2003)%nat /\ trimmed text.
Proof.
  cbv zeta. unfold OutputFilter.process.
  destruct (nonempty content); cbn [negb orb]; [|discriminate].
  destruct (nonempty (strip content)) eqn:Hs; cbn [negb orb];
    [|discriminate].
  assert (Hlong : let shown := take OutputFilter.max_answer_length
                                    (strip content) ++ u8 "..." in
                  (length shown <= 2003)%nat
                  /\ exists x, In x shown /\ isspace x = false).
  { cbv zeta. split.
    - rewrite length_app, length_take. unfold OutputFilter.max_answer_length.
      change (length (u8 "...")) with 3%nat. lia.
    - exists (cp "."). split; [|reflexivity].
      apply in_or_app. right. left. reflexivity. }
  assert (Hfirst : exists x, In x (strip content) /\ isspace x = false).
  { destruct (strip_is_trimmed content) as [H|(c & t & d & u & H & _ & Hc & _)].
    - rewrite H in Hs. discriminate Hs.
    - exists c. rewrite H. split; [left; reflexivity|exact Hc]. }
  destruct Hlong as [Hlong1 Hlong2].
  destruct (length (strip content) <? OutputFilter.min_answer_length)%nat;
    destruct (Nat.ltb_spec OutputFilter.max_answer_length
                           (length (strip content))) as [Hmax|Hmax].
  all: destruct (fold_left _ _ _) as [issues confidence].
  all: destruct (PrimFloat.ltb (OutputFilter._calculate_quality_score _) _).
  all: destruct (OutputFilter._contains_harmful_content _); [discriminate|].
  all: intros _; apply cleaned_output_is_clean;
    first [exact Hlong1 | exact Hlong2 | exact Hfirst
          | unfold OutputFilter.max_answer_length in Hmax; lia].
Qed.

(** X7.  The answer of every response that the resolution returns is not
    empty, has at most 2003 characters (2000 and the mark of a cut), and
    neither starts nor ends with white space. *)
Theorem X7_returned_answer_is_presentable
        (w : World) (feedback_manager fm' : FeedbackManager.t) (db db' : Store)
        (query : MathQuery) (response : MathResponse) (calls : list call) :
  solve_math_problem w feedback_manager db query
  = (Returned response, calls, fm', db') ->
  nonempty (answer response) = true
  /\ (length (answer response) <= 2003)%nat
  /\ trimmed (answer response).
Proof.
  unfold solve_math_problem.
  destruct (negb (is_safe (InputFilter.process (question query)))).
  { destruct (existsb _ _); discriminate. }
  destruct (PrimFloat.ltb _ 0.7).
  all: destruct (LLM.generate_step_by_step_solution _ _ _) as [llm_answer|e].
  all: cbn [r_answer of_search_result].
  all: match goal with
       | |- context [is_safe (OutputFilter.process ?a)] =>
         destruct (is_safe (OutputFilter.process a)) eqn:Hsafe
       end; cbn [negb]; [|discriminate].
  all: destruct (FeedbackManager.log_query _ _ _ _ _ _ _ _ _ _)
         as [[[ql|e'] fm''] db'']; [|discriminate].
  all: intros [= <- _ _ _]; cbn [answer].
  all: apply accepted_output, Hsafe.
Qed.

End OutputFacts.

(** A short explanation of a sum is such a response. *)
Lemma X6_witness :
  let content := u8 " The answer is 4 because 2 + 2 = 4. " in
  nonempty (strip content) = true
  /\ (OutputFilter.min_answer_length <= length (strip content))%nat
  /\ is_safe (OutputFilter.process (R := bare) content) = true
  /\ Guardrails.content (OutputFilter.process (R := bare) content)
     = u8 "The answer is 4 because 2 + 2 = 4."
  /\ PrimFloat.leb 0.6
       (Guardrails.confidence (OutputFilter.process (R := bare) content))
     = true.
Proof.
  cbv zeta.
  assert (H1 : nonempty (strip (u8 " The answer is 4 because 2 + 2 = 4. "))
               = true) by (vm_compute; reflexivity).
  assert (H2 : (OutputFilter.min_answer_length
                <= length (strip (u8 " The answer is 4 because 2 + 2 = 4. ")))%nat)
    by (vm_compute; lia).
  pose proof (X6_plain_response_is_accepted (R := bare)
                (u8 " The answer is 4 because 2 + 2 = 4. ") H1 H2) as H.
  cbv zeta in H.
  specialize (H ltac:(vm_compute; reflexivity) ltac:(vm_compute; reflexivity)).
  destruct H as (Hsafe & _ & Hcontent & Hconf).
  split; [exact H1|]. split; [exact H2|]. split; [exact Hsafe|].
  split; [|exact Hconf].
  rewrite Hcontent. vm_compute. reflexivity.
Defined.

(** The question [2 + 2] with one web result is answered. *)
Lemma X7_witness :
  exists response calls fm' db',
    Routes.solve_math_problem (R := bare) one_result_world example_manager
                              example_store two_plus_two
    = (Routes.Returned response, calls, fm', db')
    /\ nonempty (Routes.answer response) = true
    /\ (length (Routes.answer response) <= 2003)%nat
    /\ trimmed (Routes.answer response).
Proof.
  destruct (Routes.solve_math_problem (R := bare) one_result_world
              example_manager example_store two_plus_two)
    as [[[outcome calls] fm'] db'] eqn:H.
  assert (H' := H). vm_compute in H'. injection H' as <- <- <- <-.
  pose proof (X7_returned_answer_is_presentable (R := bare)
                _ _ _ _ _ _ _ _ H) as Hanswer.
  eexists _, _, _, _. split; [reflexivity|exact Hanswer].
Defined.

(** ** The search adapters ([core/google_search.py], [core/web_search.py]) *)

Section SearchFacts.
Context {R : Runtime}.
Import GoogleSearch.

(** X8.  The query that is sent to the search API has at most 200
    characters, whatever the question and the context; and without a context
    the enhancement is idempotent: enhancing an enhanced query changes
    nothing, so the word [mathematics] is not added twice. *)
Theorem X8_enhanced_query (query : str) (context : option str) :
  (length (_enhance_math_query query context) <= 200)%nat
  /\ _enhance_math_query (_enhance_math_query query None) None
     = _enhance_math_query query None.
Proof.
  split.
  - unfold _enhance_math_query.
    match goal with
    | |- context [(200 <? length ?e)%nat] =>
      destruct (Nat.ltb_spec 200 (length e))
    end; [rewrite length_take; lia|lia].
  - assert (Hcut : forall e : str,
               length e = 200%nat -> _enhance_math_query e None = e).
    { intros e He. unfold _enhance_math_query.
      destruct (negb _); cbv beta iota.
      - rewrite length_app, He. cbn [length u8]. simpl Nat.ltb.
        apply take_full_app, He.
      - rewrite He. reflexivity. }
    unfold _enhance_math_query at 2 3.
    set (terms := ["mathematics"; "math"; "solve"; "calculate"; "formula"]).
    destruct (any_in terms (lower query)) eqn:Hterms; cbn [negb].
    + destruct (Nat.ltb_spec 200 (length query)) as [Hlen|Hlen].
      * apply Hcut. rewrite length_take. lia.
      * unfold _enhance_math_query. fold terms. rewrite Hterms. cbn [negb].
        destruct (Nat.ltb_spec 200 (length query)); [lia|reflexivity].
    + destruct (Nat.ltb_spec 200 (length (query ++ u8 " mathematics")))
        as [Hlen|Hlen].
      * apply Hcut. rewrite length_take. lia.
      * unfold _enhance_math_query. fold terms.
        replace (any_in terms (lower (query ++ u8 " mathematics")))
          with true.
        2:{ symmetry. rewrite lower_app. unfold any_in, terms.
            cbn [existsb].
            rewrite (contains_app_r (u8 "mathematics"))
              by (vm_compute; reflexivity).
            reflexivity. }
        cbn [negb].
        destruct (Nat.ltb_spec 200 (length (query ++ u8 " mathematics")));
          [lia|reflexivity].
Qed.

(** X9.  The references that are taken from a search response are at most
    three, one for each of its first results in their order, each with the
    title and the link of its result, the source [Google Search], and a
    snippet of at most 103 characters (100 and the mark of a cut). *)
Theorem X9_extracted_references (resp : GoogleSearchResponse) :
  let refs := extract_references (Some resp) in
  length refs = min 3 (length (results resp))
  /\ map ref_title refs = map title (take 3 (results resp))
  /\ map ref_url refs = map link (take 3 (results resp))
  /\ Forall (fun r => ref_source r = u8 "Google Search"
                      /\ (length (ref_snippet r) <= 103)%nat) refs.
Proof.
  cbv zeta. unfold extract_references.
  split; [rewrite length_map, length_take; reflexivity|].
  split; [rewrite map_map; reflexivity|].
  split; [rewrite map_map; reflexivity|].
  apply Forall_map. rewrite Forall_forall. intros r _.
  cbn [ref_source ref_snippet].
  split; [reflexivity|].
  destruct (Nat.ltb_spec 100 (length (snippet r))).
  - rewrite length_app, length_take. change (length (u8 "...")) with 3%nat. lia.
  - lia.
Qed.

(** X10.  The local references of a question are exactly three, whatever
    the question, and none of their addresses holds a space: the spaces of
    the question are written as plus signs. *)
Theorem X10_three_local_references (query : str) :
  let references := WebSearch._generate_dynamic_references query in
  length references = 3%nat
  /\ Forall (fun r => Forall (fun c => c <> 0x20) (WebSearch.url r))
            references.
Proof.
  cbv zeta.
  assert (Hplus : Forall (fun c => c <> 0x20) (WebSearch.plus_for_spaces query)).
  { unfold WebSearch.plus_for_spaces, replace1.
    induction query as [|c q IH]; simpl; [constructor|].
    destruct (N.eqb_spec c 0x20) as [->|Hc]; simpl.
    - constructor; [discriminate|exact IH].
    - constructor; assumption. }
  assert (Hlit : forall s : string,
             forallb (fun c => negb (c =? 0x20)) (u8 s) = true ->
             Forall (fun c => c <> 0x20) (u8 s)).
  { intros s H. apply List.Forall_forall. intros c Hc.
    rewrite forallb_forall in H. specialize (H c Hc).
    destruct (N.eqb_spec c 0x20); [discriminate|assumption]. }
  assert (Hequals : Forall (fun c => c <> 0x20)
                           (replace1 (cp "=") (u8 "%3D")
                                     (WebSearch.plus_for_spaces query))).
  { unfold replace1 at 1. induction Hplus as [|c q Hc Hq IH]; cbn [flat_map];
      [constructor|].
    apply Forall_app. split; [|exact IH].
    destruct (c =? _).
    - apply Hlit. vm_compute. reflexivity.
    - constructor; [exact Hc|constructor]. }
  assert (Hfirst : forall (s : string) (t : str),
             forallb (fun c => negb (c =? 0x20)) (u8 s) = true ->
             Forall (fun c => c <> 0x20) t ->
             Forall (fun c => c <> 0x20) (u8 s ++ t)).
  { intros s t Hs Ht. apply Forall_app. split; [apply Hlit, Hs|exact Ht]. }
  unfold WebSearch._generate_dynamic_references.
  repeat case_if.
  all: split; [reflexivity|].
  all: cbn [take WebSearch.reference].
  all: constructor;
         [cbn [WebSearch.url]; apply Hfirst;
          [vm_compute; reflexivity|first [exact Hequals|exact Hplus]]|].
  all: constructor; [cbn [WebSearch.url]; apply Hlit; vm_compute; reflexivity|].
  all: constructor; [cbn [WebSearch.url]; apply Hlit; vm_compute; reflexivity|].
  all: constructor.
Qed.

End SearchFacts.

(** ** The feedback manager ([core/feedback.py]) *)

Section FeedbackFacts.
Context {R : Runtime}.
Import Database.

(** X11.  A feedback type other than the four values [positive],
    [negative], [correction] and [clarification], compared as they are
    written, is refused: the result is a failure that quotes the type, with
    no action, and neither the manager nor the store is changed. *)
Theorem X11_invalid_type_is_refused
        (w : World) (self : FeedbackManager.t) (db : Store)
        (query_id feedback_type : str)
        (feedback_text corrected_answer user_id : option str) :
  Forall (fun t => feedback_type <> FeedbackType.value t)
         [FeedbackType.POSITIVE; FeedbackType.NEGATIVE;
          FeedbackType.CORRECTION; FeedbackType.CLARIFICATION] ->
  FeedbackManager.process_feedback w self db query_id feedback_type
    feedback_text corrected_answer user_id
  = ({| FeedbackProcessingResult.feedback_id := uuid4 w;
        FeedbackProcessingResult.success := false;
        FeedbackProcessingResult.message :=
          u8 "Invalid feedback type: " ++ feedback_type;
        FeedbackProcessingResult.actions_taken := [] |},
     self, db).
Proof.
  intros Hno. unfold FeedbackManager.process_feedback.
  replace (FeedbackType.of_value feedback_type) with (@None FeedbackType.t);
    [reflexivity|].
  symmetry. unfold FeedbackType.of_value, Py.eqb. cbn [find].
  repeat match goal with
         | H : Forall _ (_ :: _) |- _ =>
           let Ht := fresh "Ht" in
           let H' := fresh "H" in
           inversion H as [|? ? Ht H']; subst; clear H;
           rewrite bool_decide_eq_false_2
             by (intros E; apply Ht; symmetry; exact E)
         end.
  reflexivity.
Qed.

(** X12.  A query that has been logged can be given feedback: after
    [log_query], whatever became of the database then, a submission of a
    valid type on the same identifier succeeds when the connection is
    obtained, and its entry is kept, marked processed. *)
Theorem X12_logged_query_takes_feedback
        (w1 w2 : World) (self : FeedbackManager.t) (db : Store)
        (query_id question answer : str) (asker : option str)
        (confidence : float) (sources : list str)
        (reasoning_steps : option (list str))
        (feedback_type : str) (fb_type : FeedbackType.t)
        (feedback_text corrected_answer user_id : option str)
        (database : bool) :
  FeedbackType.of_value feedback_type = Some fb_type ->
  get_database w2 = Ok database ->
  let '(_, self1, db1) :=
    FeedbackManager.log_query w1 self db query_id question answer asker
                              confidence sources reasoning_steps in
  let '(result, self2, _) :=
    FeedbackManager.process_feedback w2 self1 db1 query_id feedback_type
      feedback_text corrected_answer user_id in
  FeedbackProcessingResult.success result = true
  /\ FeedbackManager.feedback_entries self2 !! uuid4 w2
     = Some {| FeedbackEntry.feedback_id := uuid4 w2;
               FeedbackEntry.query_id := query_id;
               FeedbackEntry.feedback_type := fb_type;
               FeedbackEntry.feedback_text := feedback_text;
               FeedbackEntry.corrected_answer := corrected_answer;
               FeedbackEntry.user_id := user_id;
               FeedbackEntry.timestamp := now w2;
               FeedbackEntry.processed := true |}.
Proof.
  intros Htype Hget.
  unfold FeedbackManager.log_query.
  destruct (get_database w1) as [database1|e1];
    unfold FeedbackManager.process_feedback;
    cbn [FeedbackManager.query_logs FeedbackManager.feedback_entries
         FeedbackManager.learning_enabled];
    rewrite Htype, lookup_insert_eq, Hget;
    cbn [FeedbackManager.feedback_entries FeedbackProcessingResult.success];
    (split; [reflexivity|]); rewrite lookup_insert_eq; reflexivity.
Qed.

(** X13.  Processing a feedback never touches the logged queries, in
    memory or in the store, nor the learning switch; it changes the
    in-memory feedback entries at most under the identifier it has drawn;
    and when it reports a failure it leaves the store as it was. *)
Theorem X13_process_feedback_frame
        (w : World) (self : FeedbackManager.t) (db : Store)
        (query_id feedback_type : str)
        (feedback_text corrected_answer user_id : option str) :
  let '(result, self', db') :=
    FeedbackManager.process_feedback w self db query_id feedback_type
      feedback_text corrected_answer user_id in
  FeedbackManager.query_logs self' = FeedbackManager.query_logs self
  /\ FeedbackManager.learning_enabled self'
     = FeedbackManager.learning_enabled self
  /\ query_logs db' = query_logs db
  /\ (forall k, k <> uuid4 w ->
        FeedbackManager.feedback_entries self' !! k
        = FeedbackManager.feedback_entries self !! k)
  /\ (FeedbackProcessingResult.success result = false -> db' = db).
Proof.
  unfold FeedbackManager.process_feedback.
  destruct (FeedbackType.of_value feedback_type) as [fb_type|];
    [|repeat split; reflexivity].
  assert (Hstore : forall e,
             query_logs (FeedbackManager._store_feedback_in_db w db e)
             = query_logs db).
  { intros e. unfold FeedbackManager._store_feedback_in_db, store_feedback.
    destruct (writes_succeed w); [|reflexivity].
    destruct (feedback db !! _); reflexivity. }
  destruct (FeedbackManager.query_logs self !! query_id) as [ql|].
  - destruct (get_database w) as [database|e];
      cbn [FeedbackManager.query_logs FeedbackManager.feedback_entries
           FeedbackManager.learning_enabled FeedbackProcessingResult.success
           FeedbackManager.error_result FeedbackManager.failure].
    + split; [reflexivity|]. split; [reflexivity|].
      split; [destruct database; [apply Hstore|reflexivity]|].
      split; [|discriminate].
      intros k Hk. rewrite !lookup_insert_ne by congruence. reflexivity.
    + split; [reflexivity|]. split; [reflexivity|]. split; [reflexivity|].
      split; [|reflexivity].
      intros k Hk. rewrite lookup_insert_ne by congruence. reflexivity.
  - destruct (get_database w) as [database|e] eqn:Hget; cbn [bind];
      [|repeat split; reflexivity].
    destruct (if database then _ else _) as [ql|];
      [|repeat split; reflexivity].
    cbn [FeedbackManager.query_logs FeedbackManager.feedback_entries
         FeedbackManager.learning_enabled FeedbackProcessingResult.success].
    split; [reflexivity|]. split; [reflexivity|].
    split; [destruct database; [apply Hstore|reflexivity]|].
    split; [|discriminate].
    intros k Hk. rewrite !lookup_insert_ne by congruence. reflexivity.
Qed.

(** X14.  The row that is written to the store is written before the
    entry is marked: when the query resolves, the connection is obtained,
    the insertion goes through and the identifier is new to the store, the
    stored row says [processed = false] while the entry in memory says
    [processed = true]. *)
Theorem X14_stored_row_is_unprocessed
        (w : World) (self : FeedbackManager.t) (db : Store)
        (query_id feedback_type : str) (fb_type : FeedbackType.t)
        (query_log : QueryLog.t)
        (feedback_text corrected_answer user_id : option str) :
  FeedbackType.of_value feedback_type = Some fb_type ->
  resolves w self db query_id query_log ->
  get_database w = Ok true ->
  writes_succeed w = true ->
  feedback db !! uuid4 w = None ->
  let '(_, self', db') :=
    FeedbackManager.process_feedback w self db query_id feedback_type
      feedback_text corrected_answer user_id in
  FeedbackEntry.processed <$> feedback db' !! uuid4 w = Some false
  /\ FeedbackEntry.processed
       <$> FeedbackManager.feedback_entries self' !! uuid4 w = Some true.
Proof.
  intros Htype Hres Hget Hwrite Hfresh.
  unfold FeedbackManager.process_feedback. rewrite Htype.
  assert (Hfound :
    match FeedbackManager.query_logs self !! query_id with
    | Some ql => Ok (Some ql)
    | None =>
      let* database := get_database w in
      Ok (if database
          then FeedbackManager._fetch_query_log_from_db w db query_id
          else None)
    end = Ok (Some query_log)).
  { destruct Hres as [Hmem|(Hmem & Hdb & Hrow)]; rewrite Hmem;
      [reflexivity|].
    rewrite Hdb. cbn [bind].
    unfold FeedbackManager._fetch_query_log_from_db. rewrite Hrow.
    reflexivity. }
  rewrite Hfound, Hget.
  unfold FeedbackManager._store_feedback_in_db, store_feedback.
  rewrite Hwrite. cbn [FeedbackEntry.feedback_id]. rewrite Hfresh.
  cbn [FeedbackManager.feedback_entries feedback].
  rewrite !lookup_insert_eq. split; reflexivity.
Qed.

(** X15.  When the query is found in memory and the database connection
    then raises, the result is a failure with the text of the exception,
    yet the new entry stays in the in-memory entries, unprocessed; the
    store is not changed. *)
Theorem X15_failure_can_leave_an_entry
        (w : World) (self : FeedbackManager.t) (db : Store)
        (query_id feedback_type : str) (fb_type : FeedbackType.t)
        (query_log : QueryLog.t) (e : exn)
        (feedback_text corrected_answer user_id : option str) :
  FeedbackType.of_value feedback_type = Some fb_type ->
  FeedbackManager.query_logs self !! query_id = Some query_log ->
  get_database w = Raise e ->
  let '(result, self', db') :=
    FeedbackManager.process_feedback w self db query_id feedback_type
      feedback_text corrected_answer user_id in
  result = FeedbackManager.failure (uuid4 w)
             (u8 "Error processing feedback: " ++ exn_str e)
  /\ FeedbackEntry.processed
       <$> FeedbackManager.feedback_entries self' !! uuid4 w = Some false
  /\ db' = db.
Proof.
  intros Htype Hmem Hget.
  unfold FeedbackManager.process_feedback. rewrite Htype, Hmem, Hget.
  cbn [FeedbackManager.feedback_entries].
  rewrite lookup_insert_eq. repeat split.
Qed.

End FeedbackFacts.

(** *** The analytics *)

Lemma sum_counts_insert (counts : gmap str nat) (k : str) (n : nat) :
  (sum_counts (<[k := n]> counts) + default O (counts !! k)
   = sum_counts counts + n)%nat.
Proof.
  assert (Hcomm : forall (m : gmap str nat) (j1 j2 : str) (z1 z2 y : nat),
             j1 <> j2 -> m !! j1 = Some z1 -> m !! j2 = Some z2 ->
             (z1 + (z2 + y) = z2 + (z1 + y))%nat) by (intros; lia).
  unfold sum_counts.
  rewrite <- (insert_delete_eq counts k n).
  rewrite map_fold_insert_L;
    [|apply (Hcomm (<[k:=n]> (delete k counts)))|apply lookup_delete_eq].
  destruct (counts !! k) as [v|] eqn:Hk; cbn [from_option id].
  - rewrite (map_fold_delete_L _ _ k v counts (Hcomm counts) Hk). lia.
  - rewrite delete_id by exact Hk. lia.
Qed.

Lemma sum_counts_count_type (counts : gmap str nat) (f : FeedbackEntry.t) :
  sum_counts (FeedbackManager.count_type counts f) = S (sum_counts counts).
Proof.
  unfold FeedbackManager.count_type. cbv zeta.
  pose proof (sum_counts_insert counts
                (FeedbackType.value (FeedbackEntry.feedback_type f))
                (default O (counts !! FeedbackType.value
                                        (FeedbackEntry.feedback_type f)) + 1))
    as H.
  cbn [from_option id] in *. lia.
Qed.

Lemma sum_counts_fold (entries : list FeedbackEntry.t) (counts : gmap str nat) :
  sum_counts (fold_left FeedbackManager.count_type entries counts)
  = (sum_counts counts + length entries)%nat.
Proof.
  revert counts. induction entries as [|f l IH]; intros counts; simpl;
    [lia|].
  rewrite IH, sum_counts_count_type. lia.
Qed.

(** The counts by type do not depend on the order in which the entries are
    visited, which the model does not keep. *)
Lemma type_counts_order (l1 l2 : list FeedbackEntry.t) (counts : gmap str nat) :
  l1 ≡ₚ l2 ->
  fold_left FeedbackManager.count_type l1 counts
  = fold_left FeedbackManager.count_type l2 counts.
Proof.
  intros Hperm. revert counts.
  induction Hperm as [|f l1 l2 _ IH|f g l|l1 l2 l3 _ IH1 _ IH2];
    intros counts; simpl.
  - reflexivity.
  - apply IH.
  - f_equal. unfold FeedbackManager.count_type. cbv zeta.
    set (kf := FeedbackType.value (FeedbackEntry.feedback_type f)).
    set (kg := FeedbackType.value (FeedbackEntry.feedback_type g)).
    destruct (decide (kf = kg)) as [E|E].
    + rewrite E, !lookup_insert_eq, !insert_insert_eq. reflexivity.
    + rewrite !lookup_insert_ne by congruence.
      apply insert_insert_ne. congruence.
  - rewrite IH1. apply IH2.
Qed.

(** X16.  The analytics of a manager without feedback are the empty
    report; otherwise the total is the number of entries in memory, the
    counts by type add up to the total, and neither the processed nor the
    recent entries outnumber it. *)
Theorem X16_analytics_add_up (w : Database.World) (self : FeedbackManager.t) :
  match FeedbackManager.get_feedback_analytics w self with
  | FeedbackManager.NoFeedback => FeedbackManager.feedback_entries self = ∅
  | FeedbackManager.Analytics total by_type processed recent =>
    total = size (FeedbackManager.feedback_entries self)
    /\ (0 < total)%nat
    /\ sum_counts by_type = total
    /\ (processed <= total)%nat
    /\ (recent <= total)%nat
  end.
Proof.
  unfold FeedbackManager.get_feedback_analytics. cbv zeta.
  destruct (Nat.eqb_spec (size (FeedbackManager.feedback_entries self)) 0)
    as [H0|H0].
  - apply map_size_empty_iff, H0.
  - assert (Hlen : length (FeedbackManager.values
                             (FeedbackManager.feedback_entries self))
                   = size (FeedbackManager.feedback_entries self)).
    { unfold FeedbackManager.values. rewrite length_fmap.
      apply length_map_to_list. }
    split; [reflexivity|]. split; [lia|].
    split.
    + rewrite sum_counts_fold, Hlen. unfold sum_counts.
      rewrite map_fold_empty. reflexivity.
    + rewrite <- Hlen. split; apply filter_length_le.
Qed.

(** The type [Positive], with a capital, is none of the four. *)
Lemma X11_witness :
  Forall (fun t => u8 "Positive" <> FeedbackType.value t)
         [FeedbackType.POSITIVE; FeedbackType.NEGATIVE;
          FeedbackType.CORRECTION; FeedbackType.CLARIFICATION]
  /\ FeedbackManager.process_feedback (R := bare) example_world
       example_manager example_store (u8 "q1") (u8 "Positive")
       None None None
     = (FeedbackManager.failure (u8 "f1")
          (u8 "Invalid feedback type: Positive"),
        example_manager, example_store).
Proof.
  assert (H : Forall (fun t => u8 "Positive" <> FeedbackType.value t)
                     [FeedbackType.POSITIVE; FeedbackType.NEGATIVE;
                      FeedbackType.CORRECTION; FeedbackType.CLARIFICATION])
    by (repeat constructor; intros E; vm_compute in E; discriminate E).
  split; [exact H|].
  exact (X11_invalid_type_is_refused (R := bare) example_world
           example_manager example_store (u8 "q1") (u8 "Positive")
           None None None H).
Defined.

(** A query logged by a new manager, then a positive feedback on it. *)
Lemma X12_witness :
  FeedbackType.of_value (u8 "positive") = Some FeedbackType.POSITIVE
  /\ Database.get_database connected_world = Ok true
  /\ let '(_, self1, db1) :=
       FeedbackManager.log_query unreachable_world FeedbackManager.__init__
         example_store (u8 "q7") (u8 "2 + 2") (u8 "4") None 0 [] None in
     let '(result, self2, _) :=
       FeedbackManager.process_feedback (R := bare) connected_world self1 db1
         (u8 "q7") (u8 "positive") None None None in
     FeedbackProcessingResult.success result = true
     /\ FeedbackManager.feedback_entries self2 !! u8 "f1"
        = Some {| FeedbackEntry.feedback_id := u8 "f1";
                  FeedbackEntry.query_id := u8 "q7";
                  FeedbackEntry.feedback_type := FeedbackType.POSITIVE;
                  FeedbackEntry.feedback_text := None;
                  FeedbackEntry.corrected_answer := None;
                  FeedbackEntry.user_id := None;
                  FeedbackEntry.timestamp := 1;
                  FeedbackEntry.processed := true |}.
Proof.
  assert (H1 : FeedbackType.of_value (u8 "positive")
               = Some FeedbackType.POSITIVE) by reflexivity.
  assert (H2 : Database.get_database connected_world = Ok true)
    by reflexivity.
  pose proof (X12_logged_query_takes_feedback (R := bare)
                unreachable_world connected_world FeedbackManager.__init__
                example_store (u8 "q7") (u8 "2 + 2") (u8 "4") None 0 [] None
                (u8 "positive") FeedbackType.POSITIVE None None None true
                H1 H2) as H3.
  split; [exact H1|]. split; [exact H2|exact H3].
Defined.

(** The logged query [q1], with a connection. *)
Lemma X14_witness :
  FeedbackType.of_value (u8 "negative") = Some FeedbackType.NEGATIVE
  /\ resolves connected_world example_manager example_store (u8 "q1")
              example_query_log
  /\ Database.get_database connected_world = Ok true
  /\ Database.writes_succeed connected_world = true
  /\ Database.feedback example_store !! Database.uuid4 connected_world = None
  /\ let '(_, self', db') :=
       FeedbackManager.process_feedback (R := bare) connected_world
         example_manager example_store (u8 "q1") (u8 "negative")
         None None None in
     FeedbackEntry.processed
       <$> Database.feedback db' !! Database.uuid4 connected_world
     = Some false
     /\ FeedbackEntry.processed
          <$> FeedbackManager.feedback_entries self'
                !! Database.uuid4 connected_world
        = Some true.
Proof.
  assert (H1 : FeedbackType.of_value (u8 "negative")
               = Some FeedbackType.NEGATIVE) by reflexivity.
  assert (H2 : resolves connected_world example_manager example_store
                        (u8 "q1") example_query_log)
    by (left; vm_compute; reflexivity).
  assert (H3 : Database.get_database connected_world = Ok true)
    by reflexivity.
  assert (H4 : Database.writes_succeed connected_world = true)
    by reflexivity.
  assert (H5 : Database.feedback example_store
                 !! Database.uuid4 connected_world = None)
    by (vm_compute; reflexivity).
  pose proof (X14_stored_row_is_unprocessed (R := bare) connected_world
                example_manager example_store (u8 "q1") (u8 "negative")
                FeedbackType.NEGATIVE example_query_log None None None
                H1 H2 H3 H4 H5) as H6.
  split; [exact H1|]. split; [exact H2|]. split; [exact H3|].
  split; [exact H4|]. split; [exact H5|exact H6].
Defined.

(** The logged query [q1], with a database that cannot be reached. *)
Lemma X15_witness :
  FeedbackType.of_value (u8 "negative") = Some FeedbackType.NEGATIVE
  /\ FeedbackManager.query_logs example_manager !! u8 "q1"
     = Some example_query_log
  /\ Database.get_database unreachable_world
     = Raise (Error (u8 "ConnectionError") (u8 "database is down"))
  /\ let '(result, self', db') :=
       FeedbackManager.process_feedback (R := bare) unreachable_world
         example_manager example_store (u8 "q1") (u8 "negative")
         None None None in
     result = FeedbackManager.failure (u8 "f1")
                (u8 "Error processing feedback: database is down")
     /\ FeedbackEntry.processed
          <$> FeedbackManager.feedback_entries self' !! u8 "f1" = Some false
     /\ db' = example_store.
Proof.
  assert (H1 : FeedbackType.of_value (u8 "negative")
               = Some FeedbackType.NEGATIVE) by reflexivity.
  assert (H2 : FeedbackManager.query_logs example_manager !! u8 "q1"
               = Some example_query_log) by (vm_compute; reflexivity).
  assert (H3 : Database.get_database unreachable_world
               = Raise (Error (u8 "ConnectionError")
                              (u8 "database is down"))) by reflexivity.
  pose proof (X15_failure_can_leave_an_entry (R := bare) unreachable_world
                example_manager example_store (u8 "q1") (u8 "negative")
                FeedbackType.NEGATIVE example_query_log _ None None None
                H1 H2 H3) as H4.
  split; [exact H1|]. split; [exact H2|]. split; [exact H3|exact H4].
Defined.

(** ** The routes ([api/routes.py]) *)

Section RoutesFacts.
Context {R : Runtime}.
Import Database Routes.

(** X17.  A question that input-mode classification rejects is answered
    with the status 400 and never with 500.  The detail is the dictionary
    of the non-mathematical question when the reason is [non_mathematical],
    and otherwise the message of the classifier for the reason: that of the
    empty query for [empty_content], of the short query for
    [content_too_short], of the harmful content for [blocked_pattern].  No
    collaborator is called, and the feedback manager and the store are left
    as they were. *)
Theorem X17_rejected_question_is_a_400
        (w : World) (feedback_manager : FeedbackManager.t) (db : Store)
        (query : MathQuery) :
  let r := InputFilter.process (question query) in
  is_safe r = false ->
  exists d,
    solve_math_problem w feedback_manager db query
    = (HTTPException 400 d, [], feedback_manager, db)
    /\ In (issues r, d)
          [([u8 "non_mathematical"],
            NonMathematical
              (u8 "Non-mathematical question")
              (u8 "Please enter a valid math question. Only mathematical questions are allowed.")
              (u8 "Try asking questions like 'Solve 2x + 5 = 13' or 'What is the derivative of x^2?'"));
           ([u8 "empty_content"], Text (u8 "Empty query is not allowed"));
           ([u8 "content_too_short"], Text (u8 "Query is too short"));
           ([u8 "blocked_pattern"],
            Text (u8 "Query contains potentially harmful content"))]
    /\ d = (if bool_decide (issues r = [u8 "non_mathematical"])
            then NonMathematical
                   (u8 "Non-mathematical question") (message r)
                   (u8 "Try asking questions like 'Solve 2x + 5 = 13' or 'What is the derivative of x^2?'")
            else Text (message r)).
Proof.
  cbv zeta. intros Hrej. unfold solve_math_problem. rewrite Hrej. cbn [negb].
  pose proof (rejection_cases (question query) Hrej) as Hcases.
  cbn [In] in Hcases.
  destruct Hcases as [H|[H|[H|[H|[]]]]]; injection H as <- <-.
  - exists (Text (u8 "Empty query is not allowed")).
    split; [reflexivity|]. split; [|reflexivity].
    right. left. reflexivity.
  - exists (Text (u8 "Query is too short")).
    split; [reflexivity|]. split; [|reflexivity].
    right. right. left. reflexivity.
  - exists (Text (u8 "Query contains potentially harmful content")).
    split; [reflexivity|]. split; [|reflexivity].
    right. right. right. left. reflexivity.
  - eexists. split; [reflexivity|]. split; [|reflexivity].
    left. reflexivity.
Qed.

(** X18.  When a question is accepted and the knowledge base has no
    result or a confidence below 0.7, the search service is asked exactly
    once, with the cleaned question and the context of the request,
    whatever comes of the resolution afterwards. *)
Theorem X18_weak_knowledge_base_asks_search
        (w : World) (feedback_manager : FeedbackManager.t) (db : Store)
        (query : MathQuery) :
  let question' := content (InputFilter.process (question query)) in
  is_safe (InputFilter.process (question query)) = true ->
  PrimFloat.ltb (default 0%float
                         (knowledge_base w question' (context query)))
                0.7 = true ->
  let '(_, calls, _, _) :=
    solve_math_problem w feedback_manager db query in
  google_calls calls = [GoogleSearchQuery question' (context query)].
Proof.
  cbv zeta. intros Hsafe Hkb. unfold solve_math_problem.
  rewrite Hsafe. cbn [negb]. rewrite Hkb.
  destruct (LLM.generate_step_by_step_solution _ _ _) as [llm_answer|e];
    cbn [r_answer of_search_result];
    (destruct (negb (is_safe (OutputFilter.process _))); [reflexivity|]);
    destruct (FeedbackManager.log_query _ _ _ _ _ _ _ _ _ _)
      as [[[ql|e'] fm'] db']; reflexivity.
Qed.

(** What the log of a returned response holds. *)
Lemma returned_query_log
      (w : World) (feedback_manager fm' : FeedbackManager.t) (db db' : Store)
      (query : MathQuery) (response : MathResponse) (calls : list call) :
  solve_math_problem w feedback_manager db query
  = (Returned response, calls, fm', db') ->
  FeedbackManager.query_logs fm' !! query_id response
  = Some {| QueryLog.query_id := query_id response;
            QueryLog.question := question query;
            QueryLog.answer := answer response;
            QueryLog.confidence := 0;
            QueryLog.sources := [];
            QueryLog.user_id := user_id query;
            QueryLog.timestamp := now (database w);
            QueryLog.reasoning_steps := None |}
  /\ FeedbackManager.learning_enabled fm'
     = FeedbackManager.learning_enabled feedback_manager.
Proof.
  unfold solve_math_problem.
  destruct (negb (is_safe (InputFilter.process (question query)))).
  { destruct (existsb _ _); discriminate. }
  destruct (PrimFloat.ltb _ 0.7).
  all: destruct (LLM.generate_step_by_step_solution _ _ _) as [llm_answer|e].
  all: cbn [r_answer of_search_result].
  all: match goal with
       | |- context [OutputFilter.process ?a] =>
         generalize (OutputFilter.process a); intros out
       end.
  all: destruct (negb (is_safe out)); [discriminate|].
  all: unfold FeedbackManager.log_query.
  all: destruct (get_database (database w)) as [database|e'];
         [|discriminate].
  all: intros [= <- _ <- _].
  all: cbn [FeedbackManager.query_logs FeedbackManager.learning_enabled
            query_id answer].
  all: split; [apply lookup_insert_eq|reflexivity].
Qed.

(** X19.  The query of every returned response is logged under the
    identifier of the response, with the question as it was sent (not the
    cleaned one) and the answer as it was returned; but the log holds the
    confidence 0 and no source, whatever the response says. *)
Theorem X19_returned_query_is_logged
        (w : World) (feedback_manager fm' : FeedbackManager.t) (db db' : Store)
        (query : MathQuery) (response : MathResponse) (calls : list call) :
  solve_math_problem w feedback_manager db query
  = (Returned response, calls, fm', db') ->
  FeedbackManager.query_logs fm' !! query_id response
  = Some {| QueryLog.query_id := query_id response;
            QueryLog.question := question query;
            QueryLog.answer := answer response;
            QueryLog.confidence := 0;
            QueryLog.sources := [];
            QueryLog.user_id := user_id query;
            QueryLog.timestamp := now (database w);
            QueryLog.reasoning_steps := None |}.
Proof. intros H. apply (returned_query_log _ _ _ _ _ _ _ _ H). Qed.

(** X20.  Feedback on a returned response is accepted, and its actions
    never depend on the response: for a manager that learns, a later
    submission of a valid type on the identifier of a returned response
    succeeds when the connection is obtained, a negative feedback only flags
    the pattern, and a positive one marks no source, since the log holds
    neither the confidence nor the sources of the response. *)
Theorem X20_feedback_on_a_returned_response
        (w : World) (feedback_manager fm' : FeedbackManager.t) (db db' : Store)
        (query : MathQuery) (response : MathResponse) (calls : list call)
        (w2 : Database.World) (feedback_type : str) (fb_type : FeedbackType.t)
        (feedback_text corrected_answer user_id : option str)
        (database : bool) :
  solve_math_problem w feedback_manager db query
  = (Returned response, calls, fm', db') ->
  FeedbackManager.learning_enabled feedback_manager = true ->
  FeedbackType.of_value feedback_type = Some fb_type ->
  get_database w2 = Ok database ->
  let '(result, _, _) :=
    FeedbackManager.process_feedback w2 fm' db' (query_id response)
      feedback_type feedback_text corrected_answer user_id in
  FeedbackProcessingResult.success result = true
  /\ FeedbackProcessingResult.actions_taken result
     = match fb_type with
       | FeedbackType.POSITIVE =>
         [u8 "Reinforced successful response pattern";
          u8 "Updated confidence scoring for similar queries"]
       | FeedbackType.NEGATIVE => [u8 "Flagged response pattern for review"]
       | FeedbackType.CORRECTION =>
         if FeedbackManager.truthy corrected_answer
         then [u8 "Stored corrected answer for future reference";
               u8 "Added correction to knowledge base"]
         else []
       | FeedbackType.CLARIFICATION =>
         if FeedbackManager.truthy feedback_text
         then [u8 "Analyzed clarification requirements";
               u8 "Marked original response as potentially unclear";
               u8 "Queued for response clarity improvement"]
         else []
       end.
Proof.
  intros Hsolve Hlearn Htype Hget.
  destruct (returned_query_log _ _ _ _ _ _ _ _ Hsolve) as [Hql Hlearn'].
  rewrite Hlearn in Hlearn'.
  unfold FeedbackManager.process_feedback.
  rewrite Htype, Hql, Hget.
  cbn [FeedbackProcessingResult.success
       FeedbackProcessingResult.actions_taken].
  split; [reflexivity|].
  unfold FeedbackManager._process_feedback_by_type,
    FeedbackManager._handle_positive_feedback,
    FeedbackManager._handle_negative_feedback,
    FeedbackManager._handle_correction_feedback,
    FeedbackManager._handle_clarification_feedback,
    FeedbackManager.has_sources.
  cbn [FeedbackEntry.feedback_type FeedbackEntry.corrected_answer
       FeedbackEntry.feedback_text FeedbackManager.learning_enabled
       QueryLog.confidence QueryLog.sources].
  rewrite Hlearn'.
  destruct fb_type.
  - reflexivity.
  - reflexivity.
  - destruct (FeedbackManager.truthy corrected_answer); reflexivity.
  - destruct (FeedbackManager.truthy feedback_text); reflexivity.
Qed.

(** X21.  The feedback route answers [Feedback received successfully]
    with the identifier that was drawn, whether the processing succeeded or
    failed; the manager and the store are those that the processing
    leaves. *)
Theorem X21_feedback_route_always_acknowledges
        (w : Database.World) (feedback_manager : FeedbackManager.t)
        (db : Store) (query_id feedback_type : str)
        (feedback_text corrected_answer user_id : option str) :
  let '(_, fm', db') :=
    FeedbackManager.process_feedback w feedback_manager db query_id
      feedback_type feedback_text corrected_answer user_id in
  submit_feedback w feedback_manager db query_id feedback_type
                  feedback_text corrected_answer user_id
  = ((u8 "Feedback received successfully", uuid4 w), fm', db').
Proof.
  unfold submit_feedback, FeedbackManager.process_feedback.
  destruct (FeedbackType.of_value feedback_type) as [fb_type|];
    [|reflexivity].
  destruct (FeedbackManager.query_logs feedback_manager !! query_id)
    as [ql|].
  - destruct (get_database w); reflexivity.
  - destruct (get_database w) as [database|e] eqn:Hget; cbn [bind];
      [|reflexivity].
    destruct (if database then _ else _); reflexivity.
Qed.

(** An answer of the generative model carries its mark. *)
Lemma gemini_response_is_marked (response_text question : str) :
  contains (u8 "Gemini AI") (LLM._format_gemini_response response_text question)
  = true.
Proof.
  unfold LLM._format_gemini_response.
  apply contains_app_r, contains_app_r, contains_app_r, contains_app_l.
  vm_compute. reflexivity.
Qed.

(** With a key, a text from the direct call is the solution. *)
Lemma generate_with_gemini (g : LLM.Gemini) (question : str)
      (context : option str) (text : str) :
  LLM.truthy (LLM.api_key g) = true ->
  default [] (LLM.api_key g) <> u8 "your_gemini_api_key_here" ->
  LLM.direct_api g (LLM._create_math_prompt question context)
  = Ok (Some text) ->
  nonempty text = true ->
  LLM.generate_step_by_step_solution g question context
  = Ok (LLM._format_gemini_response text question).
Proof.
  intros Hkey Hplace Hcall Htext. unfold LLM.generate_step_by_step_solution.
  rewrite Hkey. unfold Py.eqb. rewrite bool_decide_eq_false_2 by exact Hplace.
  cbn [negb andb]. rewrite Hcall, Htext. reflexivity.
Qed.

(** X22.  When a key of the generative model is configured and its direct
    call gives a text that is not empty, every returned response carries the
    confidence 0.90, and its answer is that text under the heading of the
    question and the mark of the model, as the output filter cleans it. *)
Theorem X22_answer_of_the_model_has_confidence_090
        (w : World) (feedback_manager fm' : FeedbackManager.t) (db db' : Store)
        (query : MathQuery) (response : MathResponse) (calls : list call)
        (text : str) :
  let question' := content (InputFilter.process (question query)) in
  LLM.truthy (LLM.api_key (llm_service w)) = true ->
  default [] (LLM.api_key (llm_service w)) <> u8 "your_gemini_api_key_here" ->
  (forall prompt, LLM.direct_api (llm_service w) prompt = Ok (Some text)) ->
  nonempty text = true ->
  solve_math_problem w feedback_manager db query
  = (Returned response, calls, fm', db') ->
  confidence response = 0.90%float
  /\ answer response
     = content (OutputFilter.process
                  (LLM._format_gemini_response text question')).
Proof.
  cbv zeta. intros Hkey Hplace Hcall Htext.
  unfold solve_math_problem.
  destruct (negb (is_safe (InputFilter.process (question query)))).
  { destruct (existsb _ _); discriminate. }
  destruct (PrimFloat.ltb _ 0.7).
  all: rewrite (generate_with_gemini (llm_service w) _ _ text Hkey Hplace
                  (Hcall _) Htext).
  all: cbn [r_answer r_confidence].
  all: rewrite gemini_response_is_marked.
  all: match goal with
       | |- context [OutputFilter.process ?a] =>
         remember (OutputFilter.process a) as out eqn:Hout
       end.
  all: destruct (negb (is_safe out)); [discriminate|].
  all: destruct (FeedbackManager.log_query _ _ _ _ _ _ _ _ _ _)
         as [[[ql|e'] fm''] db'']; [|discriminate].
  all: intros [= <- _ _ _].
  all: cbn [confidence answer].
  all: split; reflexivity.
Qed.

End RoutesFacts.

(** The text [hi] is too short. *)
Lemma X17_witness :
  let query := {| Routes.question := u8 "hi"; Routes.context := None;
                  Routes.user_id := None |} in
  is_safe (InputFilter.process (R := bare) (Routes.question query)) = false
  /\ issues (InputFilter.process (R := bare) (Routes.question query))
     = [u8 "content_too_short"]
  /\ Routes.solve_math_problem (R := bare) one_result_world example_manager
       example_store query
     = (Routes.HTTPException 400 (Routes.Text (u8 "Query is too short")), [],
        example_manager, example_store).
Proof.
  cbv zeta.
  assert (H : is_safe (InputFilter.process (R := bare) (u8 "hi")) = false)
    by (vm_compute; reflexivity).
  split; [exact H|]. split; [vm_compute; reflexivity|].
  destruct (X17_rejected_question_is_a_400 (R := bare) one_result_world
              example_manager example_store
              {| Routes.question := u8 "hi"; Routes.context := None;
                 Routes.user_id := None |} H) as (d & Hd & _ & _).
  rewrite Hd. vm_compute in Hd. injection Hd as <-. reflexivity.
Defined.

(** The question [2 + 2] before a knowledge base of confidence 0.1. *)
Lemma X18_witness :
  let question' :=
    content (InputFilter.process (R := bare) (Routes.question two_plus_two)) in
  is_safe (InputFilter.process (R := bare) (Routes.question two_plus_two))
  = true
  /\ PrimFloat.ltb
       (default 0%float
                (Routes.knowledge_base one_result_world question'
                                       (Routes.context two_plus_two)))
       0.7 = true
  /\ let '(_, calls, _, _) :=
       Routes.solve_math_problem (R := bare) one_result_world example_manager
                                 example_store two_plus_two in
     google_calls calls
     = [Routes.GoogleSearchQuery question' (Routes.context two_plus_two)].
Proof.
  cbv zeta.
  assert (H1 : is_safe (InputFilter.process (R := bare)
                          (Routes.question two_plus_two)) = true)
    by (vm_compute; reflexivity).
  assert (H2 : PrimFloat.ltb
                 (default 0%float
                    (Routes.knowledge_base one_result_world
                       (content (InputFilter.process (R := bare)
                                   (Routes.question two_plus_two)))
                       (Routes.context two_plus_two)))
                 0.7 = true) by reflexivity.
  pose proof (X18_weak_knowledge_base_asks_search (R := bare)
                one_result_world example_manager example_store two_plus_two
                H1 H2) as H3.
  split; [exact H1|]. split; [exact H2|exact H3].
Defined.

(** The question [2 + 2] with one web result is logged. *)
Lemma X19_witness :
  exists response calls fm' db',
    Routes.solve_math_problem (R := bare) one_result_world example_manager
                              example_store two_plus_two
    = (Routes.Returned response, calls, fm', db')
    /\ QueryLog.confidence
         <$> FeedbackManager.query_logs fm' !! Routes.query_id response
       = Some 0%float.
Proof.
  destruct (Routes.solve_math_problem (R := bare) one_result_world
              example_manager example_store two_plus_two)
    as [[[outcome calls] fm'] db'] eqn:H.
  assert (H' := H). vm_compute in H'. injection H' as <- <- <- <-.
  pose proof (X19_returned_query_is_logged (R := bare)
                _ _ _ _ _ _ _ _ H) as Hlog.
  eexists _, _, _, _. split; [reflexivity|].
  rewrite Hlog. reflexivity.
Defined.

(** A negative feedback on the response to [2 + 2]. *)
Lemma X20_witness :
  exists response calls fm' db',
    Routes.solve_math_problem (R := bare) one_result_world example_manager
                              example_store two_plus_two
    = (Routes.Returned response, calls, fm', db')
    /\ FeedbackManager.learning_enabled example_manager = true
    /\ FeedbackType.of_value (u8 "negative") = Some FeedbackType.NEGATIVE
    /\ Database.get_database connected_world = Ok true
    /\ let '(result, _, _) :=
         FeedbackManager.process_feedback (R := bare) connected_world fm' db'
           (Routes.query_id response) (u8 "negative") None None None in
       FeedbackProcessingResult.success result = true
       /\ FeedbackProcessingResult.actions_taken result
          = [u8 "Flagged response pattern for review"].
Proof.
  destruct (Routes.solve_math_problem (R := bare) one_result_world
              example_manager example_store two_plus_two)
    as [[[outcome calls] fm'] db'] eqn:H.
  assert (H' := H). vm_compute in H'. injection H' as <- <- <- <-.
  assert (H1 : FeedbackManager.learning_enabled example_manager = true)
    by reflexivity.
  assert (H2 : FeedbackType.of_value (u8 "negative")
               = Some FeedbackType.NEGATIVE) by reflexivity.
  assert (H3 : Database.get_database connected_world = Ok true)
    by reflexivity.
  pose proof (X20_feedback_on_a_returned_response (R := bare)
                _ _ _ _ _ _ _ _ connected_world (u8 "negative")
                FeedbackType.NEGATIVE None None None true H H1 H2 H3) as H4.
  eexists _, _, _, _. split; [reflexivity|].
  split; [exact H1|]. split; [exact H2|]. split; [exact H3|exact H4].
Defined.

(** The question [2 + 2] answered by the generative model. *)
Lemma X22_witness :
  exists response calls fm' db',
    LLM.truthy (LLM.api_key (Routes.llm_service gemini_world)) = true
    /\ default [] (LLM.api_key (Routes.llm_service gemini_world))
       <> u8 "your_gemini_api_key_here"
    /\ (forall prompt,
          LLM.direct_api (Routes.llm_service gemini_world) prompt
          = Ok (Some (u8 "2 + 2 = 4")))
    /\ nonempty (u8 "2 + 2 = 4") = true
    /\ Routes.solve_math_problem (R := bare) gemini_world example_manager
                                 example_store two_plus_two
       = (Routes.Returned response, calls, fm', db')
    /\ Routes.confidence response = 0.90%float.
Proof.
  destruct (Routes.solve_math_problem (R := bare) gemini_world
              example_manager example_store two_plus_two)
    as [[[outcome calls] fm'] db'] eqn:H.
  assert (H' := H). vm_compute in H'. injection H' as <- <- <- <-.
  assert (H1 : LLM.truthy (LLM.api_key (Routes.llm_service gemini_world))
               = true) by reflexivity.
  assert (H2 : default [] (LLM.api_key (Routes.llm_service gemini_world))
               <> u8 "your_gemini_api_key_here")
    by (intros E; vm_compute in E; discriminate E).
  assert (H3 : forall prompt,
             LLM.direct_api (Routes.llm_service gemini_world) prompt
             = Ok (Some (u8 "2 + 2 = 4"))) by (intros prompt; reflexivity).
  assert (H4 : nonempty (u8 "2 + 2 = 4") = true) by reflexivity.
  pose proof (X22_answer_of_the_model_has_confidence_090 (R := bare)
                _ _ _ _ _ _ _ _ (u8 "2 + 2 = 4") H1 H2 H3 H4 H) as [H5 _].
  eexists _, _, _, _.
  split; [exact H1|]. split; [exact H2|]. split; [exact H3|].
  split; [exact H4|]. split; [reflexivity|exact H5].
Defined.

(** ** The solver, once more ([core/llm_service.py]) *)

Section SolverFacts.
Context {R : Runtime}.

(** X23.  Every question that holds an equals sign is answered by the
    fallback solver, whatever its numbers: the equation branch converts and
    divides inside its [try], so neither a numeral beyond the limit on
    digits, nor a zero coefficient, nor a malformed right side can make it
    raise. *)
Theorem X23_equations_are_always_answered
        (question : str) (context : option str) :
  contains (u8 "=") question = true ->
  answers (_comprehensive_fallback_solution question context).
Proof.
  intros H. unfold _comprehensive_fallback_solution. rewrite H.
  apply equation_answers.
Qed.

Lemma int_zeros_cases (z : str) :
  zeros z -> Num.int z = Ok 0%Z \/ exists e, Num.int z = Raise e.
Proof.
  intros Hz. pose proof (zeros_digits z Hz) as Hd.
  unfold Num.int. rewrite (strip_digits z Hd).
  pose proof (span_numeral z Hd) as Hspan.
  destruct Hd as [Hne Hd]. destruct z as [|c r]; [contradiction|].
  assert (Hc : isdigit c = true) by (inversion Hd; assumption).
  change (cp "-") with 0x2D. change (cp "+") with 0x2B.
  rewrite !(isdigit_not_mark c) by (auto; lia).
  rewrite Hspan, (int_digits_zeros (c :: r) Hz).
  destruct (Num.exceeds_limit _); [right; eauto|left; reflexivity].
Qed.

(** X24.  A linear equation whose coefficient is written with zeros only
    is not solved and does not fail: the division by zero is caught, and the
    answer is the generic text on solving equations. *)
Theorem X24_zero_coefficient_gives_the_generic_text
        (left_side right_side question coeff_str constant_str : str)
        (operator : char) :
  linear_pattern (replace1 0x20 [] left_side)
  = Some (coeff_str, operator, constant_str) ->
  zeros coeff_str ->
  _solve_linear_equation_pattern left_side right_side question
  = Ok (generic_equation left_side right_side question).
Proof.
  intros Hpat Hz. unfold _solve_linear_equation_pattern. rewrite Hpat.
  assert (Hne : nonempty coeff_str = true).
  { destruct Hz as [Hne _]. destruct coeff_str; [contradiction|reflexivity]. }
  rewrite Hne.
  destruct (int_zeros_cases coeff_str Hz) as [-> | [e ->]];
    [|reflexivity].
  cbn [bind].
  destruct (Num.int constant_str) as [constant|e]; [|reflexivity].
  cbn [bind].
  destruct (Num.int (strip right_side)) as [right_value|e]; [|reflexivity].
  cbn [bind]. unfold Num.truediv. cbn [Z.eqb bind try_except]. reflexivity.
Qed.

(** X25.  Without a key of the generative model (none, an empty one, or
    the placeholder of the configuration template), the model is not
    consulted: whatever its calls would answer, the solution is that of the
    fallback solver. *)
Theorem X25_without_a_key_the_fallback_answers
        (g : Gemini) (question : str) (context : option str) :
  api_key g = None \/ api_key g = Some []
  \/ api_key g = Some (u8 "your_gemini_api_key_here") ->
  generate_step_by_step_solution g question context
  = _comprehensive_fallback_solution question context.
Proof.
  intros Hkey. unfold generate_step_by_step_solution.
  destruct Hkey as [-> | [-> | ->]]; reflexivity.
Qed.

End SolverFacts.

(** An equation with two equals signs. *)
Lemma X23_witness :
  contains (u8 "=") (u8 "x + 1 = 1 = 2") = true
  /\ answers (_comprehensive_fallback_solution (R := bare)
                (u8 "x + 1 = 1 = 2") None).
Proof.
  assert (H : contains (u8 "=") (u8 "x + 1 = 1 = 2") = true) by reflexivity.
  pose proof (X23_equations_are_always_answered (R := bare)
                (u8 "x + 1 = 1 = 2") None H) as Hanswers.
  split; [exact H|exact Hanswers].
Defined.

(** The equation [0x + 5 = 13]. *)
Lemma X24_witness :
  linear_pattern (R := bare) (replace1 0x20 [] (u8 "0x + 5"))
  = Some (u8 "0", cp "+", u8 "5")
  /\ zeros (R := bare) (u8 "0")
  /\ _solve_linear_equation_pattern (R := bare) (u8 "0x + 5") (u8 "13")
       (u8 "0x + 5 = 13")
     = Ok (generic_equation (u8 "0x + 5") (u8 "13") (u8 "0x + 5 = 13")).
Proof.
  assert (H1 : linear_pattern (R := bare) (replace1 0x20 [] (u8 "0x + 5"))
               = Some (u8 "0", cp "+", u8 "5")) by (vm_compute; reflexivity).
  assert (H2 : zeros (R := bare) (u8 "0"))
    by (split; [discriminate|repeat constructor]).
  pose proof (X24_zero_coefficient_gives_the_generic_text (R := bare)
                (u8 "0x + 5") (u8 "13") (u8 "0x + 5 = 13")
                (u8 "0") (u8 "5") (cp "+") H1 H2) as H3.
  split; [exact H1|]. split; [exact H2|exact H3].
Defined.

(** A service left with the placeholder key, whose calls would answer. *)
Lemma X25_witness :
  let g := {| api_key := Some (u8 "your_gemini_api_key_here");
              has_model := true;
              direct_api := fun _ => Ok (Some (u8 "an answer"));
              sdk_generate := fun _ => Ok (Some (u8 "an answer")) |} in
  (api_key g = None \/ api_key g = Some []
   \/ api_key g = Some (u8 "your_gemini_api_key_here"))
  /\ generate_step_by_step_solution (R := bare) g (u8 "2 + 2") None
     = _comprehensive_fallback_solution (R := bare) (u8 "2 + 2") None.
Proof.
  cbv zeta.
  set (g := {| api_key := Some (u8 "your_gemini_api_key_here");
               has_model := true;
               direct_api := fun _ => Ok (Some (u8 "an answer"));
               sdk_generate := fun _ => Ok (Some (u8 "an answer")) |}).
  assert (H : api_key g = None \/ api_key g = Some []
              \/ api_key g = Some (u8 "your_gemini_api_key_here"))
    by (right; right; reflexivity).
  split; [exact H|].
  exact (X25_without_a_key_the_fallback_answers (R := bare) g (u8 "2 + 2")
           None H).
Defined.
